(** * justd-cli: the [init] command and the remote-asset URL builders

    A shallow embedding of [src/utils/repo.ts] (the URL builders), of the
    current [init] command and of its older variant, and the properties
    of the natural-language specification that concern them.

    - A JavaScript string is its sequence of UTF-16 code units, a list
      of [N].
    - Node's [path] module is modelled in its POSIX flavour.
    - A command is a function from the state of the host (its files and
      folders, named as the code writes their paths, and the answers the
      user will give) to an outcome, a final state and the list of the
      events it emitted, in order.
    - Everything the three source files import or call but do not define
      (the probes of the host project, the prompts, the network, the
      package manager, JSON parsing and printing, the logging helpers)
      is a field of an environment record [Env]; the theorems hold for
      every environment unless they name one. *)

From Stdlib Require Import ZArith NArith Bool List Lia String Ascii.
From Stdlib Require QArith.
From stdpp Require Import base gmap list.
From Equations Require Import Equations.
Import ListNotations.

Set Default Proof Using "Type".

(* ===================================================================== *)
(** * JavaScript strings *)
(* ===================================================================== *)

Module JsString.

(** A string is its list of UTF-16 code units. *)
Definition jsstring : Type := list N.

(** The code units of an ASCII literal. *)
Definition js (s : string) : jsstring :=
  List.map N_of_ascii (list_ascii_of_string s).
Arguments js s%_string.

(** [a === b] on strings. *)
Fixpoint eqb (a b : jsstring) : bool :=
  match a, b with
  | [], [] => true
  | x :: a', y :: b' => (x =? y)%N && eqb a' b'
  | _, _ => false
  end.

(** ECMAScript [WhiteSpace] and [LineTerminator] code points: the class
    matched by the regular expression atom [\s] and stripped by
    [String.prototype.trim]. *)
Definition isWhiteSpace (c : N) : bool :=
  (  (c =? 9) || (c =? 10) || (c =? 11) || (c =? 12) || (c =? 13)
  || (c =? 32) || (c =? 160) || (c =? 5760)
  || ((8192 <=? c) && (c <=? 8202))
  || (c =? 8232) || (c =? 8233) || (c =? 8239) || (c =? 8287)
  || (c =? 12288) || (c =? 65279))%N.

Fixpoint trimStart (s : jsstring) : jsstring :=
  match s with
  | c :: t => if isWhiteSpace c then trimStart t else s
  | [] => []
  end.

Definition trimEnd (s : jsstring) : jsstring := rev (trimStart (rev s)).

(** [String.prototype.trim]. *)
Definition trim (s : jsstring) : jsstring := trimEnd (trimStart s).

(** [s.startsWith(p)]. *)
Fixpoint startsWith (s p : jsstring) {struct p} : bool :=
  match p, s with
  | [], _ => true
  | a :: p', b :: s' => (a =? b)%N && startsWith s' p'
  | _ :: _, [] => false
  end.

(** [s.endsWith(p)]. *)
Definition endsWith (s p : jsstring) : bool := startsWith (rev s) (rev p).

(** [s.includes(p)]. *)
Fixpoint includes (s p : jsstring) : bool :=
  startsWith s p ||
  match s with
  | [] => false
  | _ :: t => includes t p
  end.

(** [s.replace(p, r)] with a string pattern: the first occurrence only. *)
Fixpoint replaceFirst (s p r : jsstring) : jsstring :=
  if startsWith s p then r ++ drop (length p) s
  else match s with
       | [] => []
       | c :: t => c :: replaceFirst t p r
       end.

(** [xs.join(sep)]. *)
Fixpoint join (sep : jsstring) (xs : list jsstring) : jsstring :=
  match xs with
  | [] => []
  | [x] => x
  | x :: rest => x ++ sep ++ join sep rest
  end.

(** The pieces of [s] between the occurrences of the unit [sep]. *)
Fixpoint split (sep : N) (s : jsstring) : list jsstring :=
  match s with
  | [] => [[]]
  | c :: t =>
      if (c =? sep)%N then [] :: split sep t
      else match split sep t with
           | piece :: rest => (c :: piece) :: rest
           | [] => [[c]]
           end
  end.

(** A double quote, a single quote and a line feed. *)
Definition dquote : jsstring := [34%N].
Definition squote : jsstring := [39%N].
Definition newline : jsstring := [10%N].

(** [xs.includes(x)] on an array of strings. *)
Definition arrayIncludes (xs : list jsstring) (x : jsstring) : bool :=
  existsb (eqb x) xs.

End JsString.
Export JsString.

(* ===================================================================== *)
(** * Node's [path] module (POSIX) *)
(* ===================================================================== *)

Module Path.

Definition slash : N := 47%N.
Definition dot : N := 46%N.

(** The segments of a path between its separators, empty ones included. *)
Definition segments (p : jsstring) : list jsstring := split slash p.

(** One step of [normalizeString]: [acc] is the stack of kept segments,
    last one first. *)
Definition pushSegment (allowAboveRoot : bool) (acc : list jsstring)
    (seg : jsstring) : list jsstring :=
  if eqb seg [] || eqb seg [dot] then acc
  else if eqb seg [dot; dot] then
    match acc with
    | last :: before =>
        if eqb last [dot; dot]
        then (if allowAboveRoot then seg :: acc else acc)
        else before
    | [] => if allowAboveRoot then [seg] else []
    end
  else seg :: acc.

Definition normalizeString (p : jsstring) (allowAboveRoot : bool) : jsstring :=
  join [slash] (rev (fold_left (pushSegment allowAboveRoot) (segments p) [])).

(** [path.normalize]. *)
Definition normalize (p : jsstring) : jsstring :=
  match p with
  | [] => [dot]
  | c :: _ =>
      let isAbsolute := (c =? slash)%N in
      let trailingSeparator := endsWith p [slash] in
      let q := normalizeString p (negb isAbsolute) in
      match q with
      | [] => if isAbsolute then [slash]
              else if trailingSeparator then [dot; slash] else [dot]
      | _ => (if isAbsolute then [slash] else [])
             ++ q ++ (if trailingSeparator then [slash] else [])
      end
  end.

(** [path.join(...args)]. *)
Definition join (args : list jsstring) : jsstring :=
  match filter (fun a => negb (eqb a [])) args with
  | [] => [dot]
  | kept => normalize (JsString.join [slash] kept)
  end.

Definition isSlash (c : N) : bool := (c =? slash)%N.

Fixpoint dropWhile (f : N -> bool) (s : jsstring) : jsstring :=
  match s with
  | c :: t => if f c then dropWhile f t else s
  | [] => []
  end.

Fixpoint takeWhile (f : N -> bool) (s : jsstring) : jsstring :=
  match s with
  | c :: t => if f c then c :: takeWhile f t else []
  | [] => []
  end.

(** [path.basename(p)]: the last segment, trailing separators ignored. *)
Definition basename (p : jsstring) : jsstring :=
  rev (takeWhile (fun c => negb (isSlash c)) (dropWhile isSlash (rev p))).

(** [path.dirname(p)]. *)
Definition dirname (p : jsstring) : jsstring :=
  match p with
  | [] => [dot]
  | c :: _ =>
      let hasRoot := isSlash c in
      (* scan from the end: skip trailing separators, then the last
         segment; what is left ends with the separator before it *)
      match dropWhile (fun c => negb (isSlash c)) (dropWhile isSlash (rev p)) with
      | _ :: [] | [] => if hasRoot then [slash] else [dot]
      | _ :: kept =>
          if hasRoot && (length kept =? 1)%nat then [slash; slash]
          else rev kept
      end
  end.

End Path.

(* ===================================================================== *)
(** * [src/utils/repo.ts]: URLs of the remote assets *)
(* ===================================================================== *)

Module Repo.

Definition REPO : jsstring := js "https://raw.githubusercontent.com/irsyadadl/justd".

(** [const branchWorkingOn = isTailwind(3) ? "1.x" : "2.x"]; the argument
    is the value of [isTailwind(3)]. *)
Definition branchWorkingOn (isTailwind3 : bool) : jsstring :=
  if isTailwind3 then js "1.x" else js "2.x".

Section WithBranch.
(** The module-level constant [BRANCH]. *)
Variable BRANCH : jsstring.

Definition THEMES_URL : jsstring :=
  REPO ++ js "/refs/heads/" ++ BRANCH ++ js "/resources/styles/themes".

(** What [getThemesRepoUrl] does: it ends the process with status 1 or
    returns a URL. *)
Inductive ThemeUrl :=
| ThemeExit (logged : jsstring) (code : Z)
| ThemeUrlOk (url : jsstring).

(** [availablesGrays] is imported from the [change-gray] command, which
    is not part of the sources at hand: it is a parameter. *)
Definition getThemesRepoUrl (availablesGrays : list jsstring)
    (gray : jsstring) : ThemeUrl :=
  if negb (arrayIncludes availablesGrays gray) then
    ThemeExit (js "Invalid gray provided: " ++ gray) 1
  else
    let selectedGray := THEMES_URL ++ js "/" ++ gray ++ js ".css" in
    if eqb selectedGray [] then ThemeExit (js "Failed to get the gray url") 1
    else ThemeUrlOk selectedGray.

(** [getRepoUrlForComponent]: [None] is the thrown
    ["REPO_URL environment variable is not set"]. *)
Definition getRepoUrlForComponent (componentName : jsstring) : option jsstring :=
  let repoUrl := REPO ++ js "/" ++ BRANCH ++ js "/components/ui/"
                      ++ componentName ++ js ".tsx" in
  if eqb repoUrl [] then None else Some repoUrl.

(** [getUtilsFolder]. *)
Definition getUtilsFolder (file : jsstring) : option jsstring :=
  let utils := REPO ++ js "/refs/heads/" ++ BRANCH ++ js "/utils/" ++ file in
  if eqb utils [] then None else Some utils.
End WithBranch.

End Repo.

(* ===================================================================== *)
(** * Values, effects and the environment of a run *)
(* ===================================================================== *)

Module Js.

(** Exceptions, with the [message] the handlers read. *)
Inductive Exn :=
| Error (message : jsstring)
| TypeError (message : jsstring)
| SyntaxError (message : jsstring).

Definition message (e : Exn) : jsstring :=
  match e with
  | Error m | TypeError m | SyntaxError m => m
  end.

(** A value produced by [JSON.parse] and then updated in place.  An
    object lists its own enumerable properties in enumeration order; an
    array is an object whose keys are its indices. *)
#[warnings="-register-all"]
Inductive JsVal :=
| VNull
| VBool (b : bool)
| VNum (q : QArith_base.Q)
| VStr (s : jsstring)
| VObj (isArray : bool) (props : list (jsstring * JsVal)).

(** [undefined] is [None]. *)
Definition truthy (v : option JsVal) : bool :=
  match v with
  | None | Some VNull => false
  | Some (VBool b) => b
  | Some (VNum q) => negb (QArith_base.Qnum q =? 0)%Z
  | Some (VStr s) => negb (eqb s [])
  | Some (VObj _ _) => true
  end.

Fixpoint lookupProp (props : list (jsstring * JsVal)) (k : jsstring) : option JsVal :=
  match props with
  | [] => None
  | (k', v) :: rest => if eqb k' k then Some v else lookupProp rest k
  end.

(** Assignment keeps the position of an existing key and appends a new one. *)
Fixpoint assignProp (props : list (jsstring * JsVal)) (k : jsstring) (x : JsVal)
  : list (jsstring * JsVal) :=
  match props with
  | [] => [(k, x)]
  | (k', v) :: rest =>
      if eqb k' k then (k', x) :: rest else (k', v) :: assignProp rest k x
  end.

(** [v.k]: reading a property of [null] throws; a primitive has none of
    the properties read here. *)
Definition getProp (v : JsVal) (k : jsstring) : Exn + option JsVal :=
  match v with
  | VNull => inl (TypeError (js "Cannot read properties of null (reading '" ++ k ++ js "')"))
  | VObj _ props => inr (lookupProp props k)
  | _ => inr None
  end.

(** [v.k = x] in strict mode (an ES module). *)
Definition setProp (v : JsVal) (k : jsstring) (x : JsVal) : Exn + JsVal :=
  match v with
  | VNull => inl (TypeError (js "Cannot set properties of null (setting '" ++ k ++ js "')"))
  | VObj a props => inr (VObj a (assignProp props k x))
  | _ => inl (TypeError (js "Cannot create property '" ++ k ++ js "' on a primitive"))
  end.

(** [k in v]. *)
Definition hasProp (v : JsVal) (k : jsstring) : Exn + bool :=
  match v with
  | VObj _ props => inr (match lookupProp props k with Some _ => true | None => false end)
  | _ => inl (TypeError (js "Cannot use 'in' operator to search for '" ++ k ++ js "'"))
  end.

(** [Object.keys(v)[0]] for a truthy [v]. *)
Definition firstKey (v : JsVal) : option jsstring :=
  match v with
  | VObj _ ((k, _) :: _) => Some k
  | VStr (_ :: _) => Some (js "0")
  | _ => None
  end.

End Js.
Export Js.

Module Eff.

(** How an awaited computation ends. *)
Inductive Outcome (A : Type) :=
| Ok (a : A)          (* it returned [a] *)
| Exit (code : Z)     (* [process.exit(code)] *)
| Throw (e : Exn)     (* an exception propagates to the caller *)
| Pending.            (* a prompt is still waiting for an answer *)
Arguments Ok {A} a.
Arguments Exit {A} code.
Arguments Throw {A} e.
Arguments Pending {A}.

(** The command-line flags; an absent flag is [false]. *)
Record Flags := { force : bool; yes : bool }.

(** What [fetch] resolves with. *)
Record Response := { status : Z; statusText : jsstring; body : jsstring }.

(** [response.ok]: the status is in the range 200-299. *)
Definition ok (r : Response) : bool :=
  ((200 <=? status r) && (status r <=? 299))%Z.

Inductive FetchResult :=
| FetchRejected (e : Exn)       (* network failure *)
| FetchResolved (r : Response).

(** The record handed to [configManager.createConfig]. *)
Record Config := {
  schema : jsstring;
  ui : jsstring;
  utils : jsstring;
  gray : option jsstring;
  css : jsstring;
  alias : option jsstring
}.

Inductive Spin :=
| SpinStart (text : jsstring)
| SpinSucceed (text : jsstring)
| SpinFail (text : jsstring)
| SpinWarn (text : jsstring)
| SpinInfo (text : jsstring)
| SpinText (text : jsstring)
| SpinStop.

Inductive Channel := LogError | LogInfo | ConsoleError | ConsoleInfo | ConsoleLog.

(** The observable actions of a run, in order. *)
Inductive Event :=
| Spinner (s : Spin)
| Log (ch : Channel) (args : list jsstring)
| Prompt (message default : jsstring)
| PromptRejected (shown : jsstring)
| Select (message : jsstring)
| WriteFile (path content : jsstring)
| Mkdir (path : jsstring)
| Unlink (path : jsstring)
| Spawn (command : jsstring)
| Fetch (url : jsstring)
| Sleep (ms : Z)
| StartNewProject
| ChangeGray (cssLocation : jsstring) (flags : Flags)
| AddUiPathToTsConfig
| CreateConfig (config : Config)
| Figlet (text : jsstring)
| Open (url : jsstring).

(** The host file system and the answers the user will still give.  An
    answer [None] accepts the prompt's default; [Some v] submits [v]. *)
Record State := {
  files : gmap jsstring jsstring;
  dirs : gset jsstring;
  answers : list (option jsstring)
}.

Inductive ProjectType := NextJsProject | LaravelProject | ViteProject | OtherProject.

(** Everything the three source files import or call but do not define. *)
Record Env := {
  (* @/utils/helpers *)
  isProjectExists : bool;
  isTailwindInstalled : bool;
  tailwindMajor : Z;
  isNextJs : bool;
  isLaravel : bool;
  isRemix : bool;
  hasFolder : jsstring -> bool;
  possibilityComponentsPath : jsstring;
  possibilityCssPath : jsstring;
  possibilityRootPath : jsstring;
  possibilityUtilsPath : jsstring;
  (* @/utils/git *)
  isRepoDirty : bool;
  (* @/utils/logging and chalk *)
  highlight : jsstring -> jsstring;
  chalkBlue : jsstring -> jsstring;
  chalkYellow : jsstring -> jsstring;
  chalkBlueBright : jsstring -> jsstring;
  (* @/utils/get-package-manager *)
  getPackageManager : jsstring;
  (* @/commands/change-gray *)
  changeGray : jsstring -> Flags -> Outcome (option jsstring);
  (* @/utils/config: [None] when the configuration was written *)
  createConfig : Config -> option Exn;
  (* the Node runtime *)
  stubs : jsstring;
  resourceDir : jsstring;
  cwd : jsstring;
  fetch : jsstring -> FetchResult;
  spawnExitCode : jsstring -> Z;
  writeError : jsstring -> option Exn;
  mkdirError : jsstring -> option Exn;
  stripJsonComments : jsstring -> jsstring;
  JSON_parse : jsstring -> Exn + JsVal;
  JSON_stringify : JsVal -> jsstring;
  figletText : jsstring -> jsstring;
  (* the answers to the [select] prompts of the older variant *)
  selectProjectType : ProjectType;
  selectHasSrc : bool;
  selectVisitRepo : bool
}.

(** Modelled from the spec: [isTailwind(v)] of [@/utils/helpers], which is
    not among the sources, holds when the major version of the installed
    Tailwind is [v] (major 3 is the legacy mode, any other the modern one). *)
Definition isTailwind (env : Env) (v : Z) : bool := (tailwindMajor env =? v)%Z.

(** The result of running a computation from a state. *)
Record Run (A : Type) := {
  outcome : Outcome A;
  final : State;
  emitted : list Event
}.
Arguments outcome {A} r.
Arguments final {A} r.
Arguments emitted {A} r.

(** A computation: state in, outcome, state and emitted events out. *)
Definition M (A : Type) : Type := State -> Run A.

Definition ret {A} (a : A) : M A :=
  fun s => {| outcome := Ok a; final := s; emitted := [] |}.

Definition bind {A B} (m : M A) (k : A -> M B) : M B :=
  fun s =>
    let r := m s in
    match outcome r with
    | Ok a =>
        let r' := k a (final r) in
        {| outcome := outcome r'; final := final r';
           emitted := emitted r ++ emitted r' |}
    | Exit c => {| outcome := Exit c; final := final r; emitted := emitted r |}
    | Throw e => {| outcome := Throw e; final := final r; emitted := emitted r |}
    | Pending => {| outcome := Pending; final := final r; emitted := emitted r |}
    end.

#[global] Instance M_ret : MRet M := @ret.
#[global] Instance M_bind : MBind M := fun A B k m => bind m k.

Definition emit (e : Event) : M unit :=
  fun s => {| outcome := Ok tt; final := s; emitted := [e] |}.

(** [process.exit(code)]. *)
Definition exit {A} (code : Z) : M A :=
  fun s => {| outcome := Exit code; final := s; emitted := [] |}.

(** [throw e]. *)
Definition throw {A} (e : Exn) : M A :=
  fun s => {| outcome := Throw e; final := s; emitted := [] |}.

(** [try { m } catch (e) { h e }]: only exceptions are caught. *)
Definition tryCatch {A} (m : M A) (h : Exn -> M A) : M A :=
  fun s =>
    let r := m s in
    match outcome r with
    | Throw e =>
        let r' := h e (final r) in
        {| outcome := outcome r'; final := final r';
           emitted := emitted r ++ emitted r' |}
    | _ => r
    end.

(** A step of plain JavaScript that either throws or yields a value. *)
Definition liftExn {A} (x : Exn + A) : M A :=
  match x with
  | inl e => throw e
  | inr a => ret a
  end.

(** The outcome of an awaited collaborator. *)
Definition liftOutcome {A} (o : Outcome A) : M A :=
  fun s => {| outcome := o; final := s; emitted := [] |}.

(** [fs.existsSync(p)]. *)
Definition existsSync (p : jsstring) : M bool :=
  fun s => ret (bool_decide (is_Some (files s !! p)) || bool_decide (p ∈ dirs s)) s.

Definition enoent (p : jsstring) : Exn :=
  Error (js "ENOENT: no such file or directory, open '" ++ p ++ js "'").

(** [fs.readFileSync(p, "utf8")]. *)
Definition readFileSync (p : jsstring) : M jsstring :=
  fun s =>
    match files s !! p with
    | Some content => ret content s
    | None => throw (enoent p) s
    end.

(** An interactive prompt of [@inquirer/prompts]: each submitted answer is
    validated, a rejected one shows the validator's message and the prompt
    asks again; it resolves with the first accepted answer. *)
Inductive Validation := Valid | Invalid (shown : jsstring).

Fixpoint promptLoop (default : jsstring) (validate : jsstring -> Validation)
    (submitted : list (option jsstring))
  : option jsstring * list (option jsstring) * list Event :=
  match submitted with
  | [] => (None, [], [])
  | sub :: rest =>
      let answer := match sub with Some v => v | None => default end in
      match validate answer with
      | Valid => (Some answer, rest, [])
      | Invalid shown =>
          let '(r, rest', ev) := promptLoop default validate rest in
          (r, rest', PromptRejected shown :: ev)
      end
  end.

Definition input (message default : jsstring)
    (validate : jsstring -> Validation) : M jsstring :=
  fun s =>
    let '(r, rest, ev) := promptLoop default validate (answers s) in
    {| outcome := match r with Some a => Ok a | None => Pending end;
       final := {| files := files s; dirs := dirs s; answers := rest |};
       emitted := Prompt message default :: ev |}.

(** A prompt without a [validate] option accepts every answer. *)
Definition acceptAll (_ : jsstring) : Validation := Valid.

(** The folders above a path, outermost first: its prefixes that end
    before a separator; [seen] is the prefix read so far, reversed. *)
Fixpoint foldersAbove (seen p : jsstring) : list jsstring :=
  match p with
  | [] => []
  | c :: t =>
      (if Path.isSlash c && negb (eqb seen []) then [rev seen] else [])
      ++ foldersAbove (c :: seen) t
  end.

Section WithEnv.
Variable env : Env.

(** [fs.writeFileSync(p, content, { flag: "w" })]. *)
Definition writeFileSync (p content : jsstring) : M unit :=
  fun s =>
    match writeError env p with
    | Some e => throw e s
    | None =>
        {| outcome := Ok tt;
           final := {| files := <[p := content]> (files s); dirs := dirs s;
                       answers := answers s |};
           emitted := [WriteFile p content] |}
    end.

(** [fs.mkdirSync(p, { recursive: true })]: the folder and the missing
    folders above it. *)
Definition mkdirSync (p : jsstring) : M unit :=
  fun s =>
    match mkdirError env p with
    | Some e => throw e s
    | None =>
        {| outcome := Ok tt;
           final := {| files := files s;
                       dirs := list_to_set (p :: foldersAbove [] p) ∪ dirs s;
                       answers := answers s |};
           emitted := [Mkdir p] |}
    end.

(** [fs.unlinkSync(p)]. *)
Definition unlinkSync (p : jsstring) : M unit :=
  fun s =>
    match files s !! p with
    | Some _ =>
        {| outcome := Ok tt;
           final := {| files := delete p (files s); dirs := dirs s;
                       answers := answers s |};
           emitted := [Unlink p] |}
    | None => throw (enoent p) s
    end.

(** [await fetch(url)]. *)
Definition doFetch (url : jsstring) : M Response :=
  emit (Fetch url);;
  match fetch env url with
  | FetchRejected e => throw e
  | FetchResolved r => ret r
  end.

(** [spawn(command, ...)] followed by the wait for the child's [close]
    event; the event carries the exit code of the child. *)
Definition spawnAndWaitClose (command : jsstring) : M Z :=
  emit (Spawn command);;
  mret (spawnExitCode env command).

End WithEnv.

End Eff.
Export Eff.
(* ===================================================================== *)
(** * The [init] command *)
(* ===================================================================== *)

Module Init.

(** The four locations [init] decides on. *)
Record Layout := {
  componentFolder : jsstring;
  uiFolder : jsstring;
  utilsFolder : jsstring;
  cssLocation : jsstring
}.

(** The three stub files chosen for the host framework. *)
Record Stubs := {
  twConfigStub : jsstring;
  themeProvider : jsstring;
  providers : jsstring
}.

(** The [validate] option of the three path prompts:
    [value.trim() !== "" || "Path cannot be empty. ..."]. *)
Definition validatePath (value : jsstring) : Validation :=
  if negb (eqb (trim value) []) then Valid
  else Invalid (js "Path cannot be empty. Please enter a valid path.").

(** [fileContent.replace(/['"]use client['"]\s*\n?/g, "")].  A match is a
    quote, [use client], a quote and the longest run of white space after
    it (which leaves nothing for the optional newline); matches are taken
    from left to right and removed. *)
Definition isQuote (c : N) : bool := ((c =? 39) || (c =? 34))%N.

(** The text after a directive that starts the string, if one does. *)
Definition afterDirective (s : jsstring) : option jsstring :=
  match s with
  | q :: t =>
      if isQuote q && startsWith t (js "use client") then
        match drop 10 t with
        | q' :: rest => if isQuote q' then Some rest else None
        | [] => None
        end
      else None
  | [] => None
  end.

Arguments afterDirective : simpl never.

Definition inspect {A : Type} (x : A) : { y : A | x = y } := exist _ x eq_refl.

Lemma dropWhile_length (f : N -> bool) (l : jsstring) :
  length (Path.dropWhile f l) <= length l.
Proof.
  induction l as [|x l IH]; simpl; [lia|]. destruct (f x); simpl; lia.
Qed.

Lemma afterDirective_length (s rest : jsstring) :
  afterDirective s = Some rest -> length rest + 12 <= length s.
Proof.
  destruct s as [|q t]; [done|]. unfold afterDirective.
  destruct (isQuote q && startsWith t (js "use client")); [|done].
  pose proof (length_drop t 10) as Hl.
  destruct (drop 10 t) as [|q' r]; [done|].
  destruct (isQuote q'); [|done]. intros [= ->]. simpl in *. lia.
Qed.

Equations? stripUseClient (s : jsstring) : jsstring by wf (length s) lt :=
  stripUseClient [] := [];
  stripUseClient (c :: t) with inspect (afterDirective (c :: t)) := {
    | exist _ (Some rest) E => stripUseClient (Path.dropWhile isWhiteSpace rest);
    | exist _ None E => c :: stripUseClient t }.
Proof.
  pose proof (afterDirective_length (c :: t) rest E) as Hr.
  pose proof (dropWhile_length isWhiteSpace rest) as Hd.
  simpl in Hr. lia.
Qed.

Section WithEnv.
Variable env : Env.

(** The module constant [BRANCH] of [utils/repo.ts]. *)
Definition BRANCH : jsstring := Repo.branchWorkingOn (isTailwind env 3).

(** [if (!flags.force) { ... }]: the check of the working tree. *)
Definition gitCheck (flags : Flags) : M unit :=
  if negb (force flags) then
    emit (Spinner (SpinStart (js "Checking.")));;
    if isRepoDirty env then
      emit (Spinner SpinStop);;
      emit (Log LogError
        [js "Git directory is not clean. Please stash or commit your changes before running the init command."]);;
      emit (Log LogInfo
        [js "You may use the " ++ highlight env (js "--force")
           ++ js " flag to silence this warning and perform the initialization anyway."]);;
      exit 1
    else emit (Spinner SpinStop)
  else mret tt.

(** The three path prompts. *)
Definition askComponentsFolder : M jsstring :=
  input (js "Components folder:") (possibilityComponentsPath env) validatePath.

Definition askUtilsFolder : M jsstring :=
  input (js "Utils folder:") (possibilityUtilsPath env) validatePath.

Definition askCssLocation : M jsstring :=
  input (js "Where would you like to place the CSS file?")
        (possibilityCssPath env) validatePath.

(** The locations, from the defaults of the probes ([--yes]) or from the
    three prompts. *)
Definition resolveLayout (flags : Flags) : M Layout :=
  if yes flags then
    let componentFolder := possibilityComponentsPath env in
    let uiFolder := Path.join [componentFolder; js "ui"] in
    let utilsFolder := possibilityUtilsPath env in
    let cssLocation := possibilityCssPath env in
    mret {| componentFolder := componentFolder; uiFolder := uiFolder;
            utilsFolder := utilsFolder; cssLocation := cssLocation |}
  else
    componentFolder ← askComponentsFolder;
    let uiFolder := Path.join [componentFolder; js "ui"] in
    utilsFolder ← askUtilsFolder;
    cssLocation ← askCssLocation;
    mret {| componentFolder := componentFolder; uiFolder := uiFolder;
            utilsFolder := utilsFolder; cssLocation := cssLocation |}.

Definition stub (name : jsstring) : jsstring := Path.join [stubs env; name].

(** The stub triple of the detected framework. *)
Definition selectStubs : Stubs :=
  if isNextJs env && hasFolder env (js "src") then
    {| twConfigStub := stub (js "1.x/tailwind.config.src.next.stub");
       themeProvider := stub (js "next/theme-provider.stub");
       providers := stub (js "next/providers.stub") |}
  else if isNextJs env && negb (hasFolder env (js "src")) then
    {| twConfigStub := stub (js "1.x/tailwind.config.next.stub");
       themeProvider := stub (js "next/theme-provider.stub");
       providers := stub (js "next/providers.stub") |}
  else if isLaravel env then
    {| twConfigStub := stub (js "1.x/tailwind.config.laravel.stub");
       themeProvider := stub (js "laravel/theme-provider.stub");
       providers := stub (js "laravel/providers.stub") |}
  else if isRemix env then
    {| twConfigStub := stub (js "1.x/tailwind.config.vite.stub");
       themeProvider := stub (js "remix/theme-provider.stub");
       providers := stub (js "remix/providers.stub") |}
  else
    {| twConfigStub := stub (js "1.x/tailwind.config.vite.stub");
       themeProvider := stub (js "next/theme-provider.stub");
       providers := stub (js "next/providers.stub") |}.

(** [const tailwindConfigTarget = fs.existsSync("tailwind.config.js")
      ? "tailwind.config.js" : "tailwind.config.ts"]. *)
Definition tailwindConfigTarget (jsExists : bool) : jsstring :=
  if jsExists then js "tailwind.config.js" else js "tailwind.config.ts".

(** [if (isTailwind(3)) { ... }]: the Tailwind configuration stub is
    copied; a failure is shown on the spinner and the run goes on. *)
Definition writeTailwindConfig (twConfigStub : jsstring) : M unit :=
  if isTailwind env 3 then
    jsExists ← existsSync (js "tailwind.config.js");
    let target := tailwindConfigTarget jsExists in
    tryCatch
      (tailwindConfigContent ← readFileSync twConfigStub;
       writeFileSync env target tailwindConfigContent)
      (fun error =>
         emit (Spinner (SpinFail
           (js "Failed to write Tailwind config to " ++ target ++ js ": "
              ++ message error))))
  else mret tt.

(** [if (!fs.existsSync(dir)) fs.mkdirSync(dir, { recursive: true })]. *)
Definition ensureFolder (dir : jsstring) : M unit :=
  present ← existsSync dir;
  if negb present then mkdirSync env dir else mret tt.

(** [JSON.parse(stripJsonComments(fs.readFileSync(p, "utf8")))]. *)
Definition readJson (p : jsstring) : M JsVal :=
  tsConfigRaw ← readFileSync p;
  let stripped := stripJsonComments env tsConfigRaw in
  liftExn (JSON_parse env stripped).

(** [if (!tsConfig.compilerOptions) tsConfig.compilerOptions = {}]. *)
Definition defaultCompilerOptions (tsConfig : JsVal) : M JsVal :=
  co ← liftExn (getProp tsConfig (js "compilerOptions"));
  if negb (truthy co)
  then liftExn (setProp tsConfig (js "compilerOptions") (VObj false []))
  else mret tsConfig.

(** The nested function [getUserAlias]. *)
Definition getUserAlias (flags : Flags) : M jsstring :=
  let appJson := Path.join [cwd env; js "tsconfig.app.json"] in
  let plainJson := Path.join [cwd env; js "tsconfig.json"] in
  appExists ← existsSync appJson;
  plainExists ← existsSync plainJson;
  if negb appExists && negb plainExists then
    emit (Log LogError [js "Neither tsconfig.app.json nor tsconfig.json was found."]);;
    exit 1
  else
    let tsConfigPath := if appExists then appJson else plainJson in
    tsConfig ← tryCatch (readJson tsConfigPath)
      (fun _ =>
         emit (Log LogError
           [js "Error reading " ++ tsConfigPath
              ++ js " file. Please check if it exists and is valid JSON."]);;
         exit 1);
    co ← liftExn (getProp tsConfig (js "compilerOptions"));
    '(tsConfigPath, tsConfig) ←
      (if negb (truthy co) then
         if endsWith tsConfigPath (js "tsconfig.app.json") then
           let tsConfigPath := plainJson in
           present ← existsSync tsConfigPath;
           if negb present then
             mret (tsConfigPath,
                   VObj false [(js "compilerOptions", VObj false [])])
           else
             tsConfig ← readJson tsConfigPath;
             tsConfig ← defaultCompilerOptions tsConfig;
             mret (tsConfigPath, tsConfig)
         else
           tsConfig ← liftExn (setProp tsConfig (js "compilerOptions") (VObj false []));
           mret (tsConfigPath, tsConfig)
       else mret (tsConfigPath, tsConfig));
    co ← liftExn (getProp tsConfig (js "compilerOptions"));
    let co := default VNull co in
    hasPaths ← liftExn (hasProp co (js "paths"));
    tsConfig ←
      (if negb hasPaths then
         let suggested := js "./" ++ possibilityRootPath env in
         rootPath ←
           (if yes flags then mret suggested
            else input (js "No paths key found in " ++ Path.basename tsConfigPath
                          ++ js ". Please enter the root directory path for the '@/':")
                       suggested acceptAll);
         let root := if eqb rootPath [] then js "./src" else rootPath in
         co ← liftExn (setProp co (js "paths")
                 (VObj false [(js "@/*", VObj true [(js "0", VStr (root ++ js "/*"))])]));
         tsConfig ← liftExn (setProp tsConfig (js "compilerOptions") co);
         emit (Spinner (SpinStart
           (js "Updating " ++ Path.basename tsConfigPath ++ js " with paths...")));;
         tryCatch
           (let updatedTsConfig := JSON_stringify env tsConfig in
            writeFileSync env tsConfigPath updatedTsConfig;;
            emit (Spinner (SpinSucceed
              (js "Paths added to " ++ Path.basename tsConfigPath ++ js "."))))
           (fun _ =>
              emit (Spinner (SpinFail
                (js "Failed to write to " ++ Path.basename tsConfigPath ++ js ".")));;
              exit 1);;
         mret tsConfig
       else mret tsConfig);
    emit AddUiPathToTsConfig;;
    co ← liftExn (getProp tsConfig (js "compilerOptions"));
    paths ← liftExn (getProp (default VNull co) (js "paths"));
    if truthy paths then
      match firstKey (default VNull paths) with
      | Some firstAliasKey => mret (replaceFirst firstAliasKey (js "/*") (js ""))
      | None => throw (TypeError (js "Cannot read properties of undefined (reading 'replace')"))
      end
    else exit 1.

(** The legacy CSS bootstrap and the choice of the gray palette:
    [if (isTailwind(3)) { copy 1.x/zinc.css }] and then
    [isTailwind(3) ? "zinc.css" : await changeGray(cssLocation, flags)]. *)
Definition selectGray (cssLocation : jsstring) (flags : Flags) : M (option jsstring) :=
  (if isTailwind env 3 then
     content ← readFileSync (stub (js "1.x/zinc.css"));
     writeFileSync env cssLocation content
   else mret tt);;
  if isTailwind env 3 then mret (Some (js "zinc.css"))
  else
    emit (ChangeGray cssLocation flags);;
    liftOutcome (changeGray env cssLocation flags).

(** The [Config] literal. *)
Definition makeConfig (l : Layout) (selectedGray : option jsstring)
    (currentAlias : jsstring) : Config :=
  {| schema := js "https://getjustd.com/schema.json";
     ui := uiFolder l;
     utils := utilsFolder l;
     gray := (fun g => replaceFirst g (js ".css") (js "")) <$> selectedGray;
     css := cssLocation l;
     alias := if eqb currentAlias [] then None else Some currentAlias |}.

Definition mainPackages : jsstring :=
  JsString.join (js " ") [js "react-aria-components"; js "justd-icons"].

Definition devPackages : jsstring :=
  JsString.join (js " ")
    [js "tailwind-variants"; js "tailwind-merge"; js "tailwindcss-animate"]
  ++ (if isTailwind env 3 then js " tailwindcss-react-aria-components" else [])
  ++ (if isNextJs env then js " next-themes" else [])
  ++ (if isRemix env then js " remix-themes" else []).

Definition installCommand : jsstring :=
  let packageManager := getPackageManager env in
  let action := if eqb packageManager (js "npm") then js "i" else js "add" in
  packageManager ++ js " " ++ action ++ js " " ++ mainPackages ++ js " && "
    ++ packageManager ++ js " " ++ action ++ js " -D " ++ devPackages
    ++ js "  --silent".

(** The dependencies are installed by a child process; the handler of
    its [close] event is [() => resolve()]. *)
Definition installDependencies : M unit :=
  emit (Spinner (SpinStart (js "Installing dependencies.")));;
  _ ← spawnAndWaitClose env installCommand;
  mret tt.

(** The primitive component: fetched, checked, transformed for Laravel
    and written with its index file. *)
Definition fetchPrimitive (uiFolder : jsstring) : M unit :=
  match Repo.getRepoUrlForComponent BRANCH (js "primitive") with
  | None => throw (Error (js "REPO_URL environment variable is not set"))
  | Some fileUrl =>
      response ← doFetch env fileUrl;
      if negb (ok response) then
        throw (Error (js "Failed to fetch component: " ++ statusText response))
      else
        let fileContent := body response in
        let fileContent :=
          if isLaravel env then stripUseClient fileContent else fileContent in
        writeFileSync env (Path.join [uiFolder; js "primitive.tsx"]) fileContent;;
        writeFileSync env (Path.join [uiFolder; js "index.ts"])
          (js "export * from './primitive';")
  end.

(** The utilities module [classes.ts]: fetched and written. *)
Definition fetchClasses (utilsFolder : jsstring) : M unit :=
  match Repo.getUtilsFolder BRANCH (js "classes.ts") with
  | None => throw (Error (js "REPO_URL environment variable is not set"))
  | Some url =>
      responseClasses ← doFetch env url;
      let fileContentClasses := body responseClasses in
      writeFileSync env (Path.join [utilsFolder; js "classes.ts"]) fileContentClasses
  end.

(** [if (themeProvider) { ...; if (providers) { ... } }]. *)
Definition writeProviders (componentFolder : jsstring) (st : Stubs) : M unit :=
  if negb (eqb (themeProvider st) []) then
    themeProviderContent ← readFileSync (themeProvider st);
    writeFileSync env (Path.join [componentFolder; js "theme-provider.tsx"])
      themeProviderContent;;
    if negb (eqb (providers st) []) then
      providersContent ← readFileSync (providers st);
      writeFileSync env (Path.join [componentFolder; js "providers.tsx"])
        providersContent
    else mret tt
  else mret tt.

(** [try { await configManager.createConfig(config) } catch (error) {
      error("Error writing to justd.json:", error?.message) }]: inside the
    handler [error] is the caught value, not the logger, so calling it
    throws. *)
Definition persistConfig (config : Config) : M unit :=
  tryCatch
    (emit (CreateConfig config);;
     match createConfig env config with
     | Some e => throw e
     | None => mret tt
     end)
    (fun error => throw (TypeError (js "error is not a function"))).

(** The closing messages; the banner is printed by the callback of
    [figlet.text], after the spinner stopped. *)
Definition summary (l : Layout) (st : Stubs) : M unit :=
  emit (Spinner (SpinSucceed (js "Installing dependencies.")));;
  emit (Spinner (SpinStart (js "Configuring.")));;
  emit (Sleep 1000);;
  emit (Spinner (SpinSucceed (js "Configuring.")));;
  ensureFolder (uiFolder l);;
  emit (Spinner (SpinSucceed
    (js "UI folder created at " ++ highlight env (uiFolder l))));;
  emit (Spinner (SpinSucceed
    (js "Primitive file saved to "
       ++ highlight env (uiFolder l ++ js "/primitive.tsx"))));;
  emit (Spinner (SpinSucceed
    (js "Classes file saved to "
       ++ highlight env (utilsFolder l ++ js "/classes.ts"))));;
  (if negb (eqb (themeProvider st) []) then
     emit (Spinner (SpinSucceed
       (js "Theme Provider file saved to "
          ++ highlight env ([34%N] ++ componentFolder l
                              ++ js "/theme-provider.tsx" ++ [34%N]))));;
     emit (Spinner (SpinSucceed
       (js "Providers file saved to "
          ++ highlight env ([34%N] ++ componentFolder l
                              ++ js "/providers.tsx" ++ [34%N]))))
   else mret tt);;
  emit (Spinner (SpinStart
    (js "Configuration saved to " ++ highlight env ([34%N] ++ js "justd.json" ++ [34%N]))));;
  emit (Sleep 500);;
  emit (Spinner (SpinSucceed
    (js "Configuration saved to " ++ highlight env (js "justd.json"))));;
  emit (Spinner (SpinSucceed (js "Installation complete.")));;
  emit (Log ConsoleInfo [[10%N; 10%N] ++ js "Not sure what to do next?"]);;
  emit (Log ConsoleInfo
    [js "Visit our documentation at: " ++ highlight env (js "https://getjustd.com")]);;
  emit (Log ConsoleInfo
    [[10%N] ++ js "Now try to add some components to your project"]);;
  emit (Log ConsoleInfo
    [js "by running: " ++ highlight env (js "npx justd-cli@latest add")]);;
  emit (Figlet (js "Justd"));;
  emit (Spinner SpinStop);;
  emit (Log ConsoleInfo [highlight env (figletText env (js "Justd"))]).

(** Everything after the install: the two remote assets, the provider
    stubs, the configuration file and the closing messages. *)
Definition afterInstall (l : Layout) (st : Stubs) (config : Config) : M unit :=
  fetchPrimitive (uiFolder l);;
  fetchClasses (utilsFolder l);;
  writeProviders (componentFolder l) st;;
  persistConfig config;;
  summary l st.

(** Everything after the two preconditions (clean tree, Tailwind
    installed). *)
Definition scaffold (flags : Flags) : M unit :=
  emit (Sleep 1000);;
  emit (Spinner (SpinText (js "Loading rainbows")));;
  emit (Spinner (SpinSucceed (js "Initializing.")));;
  l ← resolveLayout flags;
  let st := selectStubs in
  writeTailwindConfig (twConfigStub st);;
  ensureFolder (utilsFolder l);;
  ensureFolder (uiFolder l);;
  currentAlias ← getUserAlias flags;
  selectedGray ← selectGray (cssLocation l) flags;
  let config := makeConfig l selectedGray currentAlias in
  installDependencies;;
  afterInstall l st config.

(** [export async function init(flags)]. *)
Definition init (flags : Flags) : M unit :=
  if negb (isProjectExists env) then emit StartNewProject
  else
    gitCheck flags;;
    emit (Spinner (SpinStart (js "Initializing.")));;
    if negb (isTailwindInstalled env) then
      emit (Spinner (SpinFail
        (js "The tailwindcss package is not installed. Please install before running the init command.")));;
      emit (Spinner SpinStop)
    else scaffold flags.

End WithEnv.

End Init.
(* ===================================================================== *)
(** * The older variant of [init] *)
(* ===================================================================== *)

Module LegacyInit.

(** The locals [componentsFolder], [uiFolder], [cssLocation],
    [configSourcePath], [themeProvider] and [providers]; the last one
    stays [undefined] for Vite. *)
Record Layout := {
  componentsFolder : jsstring;
  uiFolder : jsstring;
  cssLocation : jsstring;
  configSourcePath : jsstring;
  themeProvider : jsstring;
  providers : option jsstring
}.

(** The object [cssPath]. *)
Record CssPath := {
  laravel : jsstring;
  vite : jsstring;
  nextHasSrc : jsstring;
  nextNoSrc : jsstring;
  other : jsstring
}.

Definition cssPath : CssPath :=
  {| laravel := js "resources/css/app.css";
     vite := js "src/index.css";
     nextHasSrc := js "src/app/globals.css";
     nextNoSrc := js "app/globals.css";
     other := js "styles/app.css" |}.

(** The two emoji of the closing messages, as surrogate pairs. *)
Definition glowingStar : jsstring := [55356%N; 57119%N].
Definition fire : jsstring := [55357%N; 56613%N].

Section WithEnv.
Variable env : Env.

Definition stub (name : jsstring) : jsstring := Path.join [stubs env; name].

(** A [select] prompt resolves with the choice the user makes. *)
Definition select {A} (message : jsstring) (choice : A) : M A :=
  emit (Select message);;
  mret choice.

(** The branches on [projectType]. *)
Definition resolveLayout (projectType : ProjectType) : M Layout :=
  match projectType with
  | LaravelProject =>
      let componentsFolder := js "resources/js/components" in
      mret {| componentsFolder := componentsFolder;
              uiFolder := Path.join [componentsFolder; js "ui"];
              cssLocation := laravel cssPath;
              configSourcePath := stub (js "laravel/tailwind.config.laravel.stub");
              themeProvider := stub (js "laravel/theme-provider.stub");
              providers := Some (stub (js "laravel/providers.stub")) |}
  | ViteProject =>
      let componentsFolder := js "src/components" in
      mret {| componentsFolder := componentsFolder;
              uiFolder := Path.join [componentsFolder; js "ui"];
              cssLocation := vite cssPath;
              configSourcePath := stub (js "vite/tailwind.config.vite.stub");
              themeProvider := stub (js "vite/theme-provider.stub");
              providers := None |}
  | NextJsProject =>
      projectTypeSrc ← select (js "Does this project have a src directory?")
                              (selectHasSrc env);
      let hasSrc := if projectTypeSrc : bool then js "src" else js "" in
      let componentsFolder := Path.join [hasSrc; js "components"] in
      mret {| componentsFolder := componentsFolder;
              uiFolder := Path.join [componentsFolder; js "ui"];
              cssLocation := if projectTypeSrc then nextHasSrc cssPath
                             else nextNoSrc cssPath;
              configSourcePath := stub (js "next/tailwind.config.next.stub");
              themeProvider := stub (js "next/theme-provider.stub");
              providers := Some (stub (js "next/providers.stub")) |}
  | OtherProject =>
      componentsFolder ← input (js "Enter the path to your components folder:")
                               (js "components") acceptAll;
      let uiFolder := Path.join [componentsFolder; js "ui"] in
      cssLocation ← input (js "Where would you like to place the CSS file?")
                          (other cssPath) acceptAll;
      mret {| componentsFolder := componentsFolder;
              uiFolder := uiFolder;
              cssLocation := cssLocation;
              configSourcePath := stub (js "next/tailwind.config.next.stub");
              themeProvider := stub (js "next/theme-provider.stub");
              providers := Some (stub (js "next/providers.stub")) |}
  end.

(** The UI folder and the CSS file. *)
Definition placeCss (l : Layout) : M unit :=
  uiExists ← existsSync (uiFolder l);
  (if negb uiExists then
     mkdirSync env (uiFolder l);;
     emit (Spinner (SpinSucceed (js "Created UI folder at " ++ uiFolder l)))
   else
     emit (Spinner (SpinSucceed (js "UI folder already exists at " ++ uiFolder l))));;
  let cssSourcePath := Path.join [resourceDir env; js "tailwind-css/app.css"] in
  let cssDir := Path.dirname (cssLocation l) in
  dirExists ← existsSync cssDir;
  (if negb dirExists then
     mkdirSync env cssDir;;
     emit (Spinner (SpinSucceed
       (js "Created directory for CSS at " ++ chalkBlue env cssDir)))
   else mret tt);;
  sourceExists ← existsSync cssSourcePath;
  if sourceExists : bool then
    tryCatch
      (cssContent ← readFileSync cssSourcePath;
       writeFileSync env (cssLocation l) cssContent;;
       emit (Spinner (SpinSucceed (js "CSS file copied to " ++ cssLocation l))))
      (fun error =>
         emit (Spinner (SpinFail
           (js "Failed to write CSS file to " ++ cssLocation l ++ js ": "
              ++ message error))))
  else
    emit (Spinner (SpinWarn
      (js "Source CSS file does not exist at " ++ cssSourcePath))).

Definition packages : jsstring :=
  JsString.join (js " ")
    [js "react-aria-components"; js "tailwindcss-react-aria-components";
     js "tailwind-variants"; js "tailwind-merge"; js "clsx"; js "justd-icons";
     js "tailwindcss-animate"].

Definition installCommand : jsstring :=
  let packageManager := getPackageManager env in
  let action := if eqb packageManager (js "npm") then js "i " else js "add " in
  packageManager ++ js " " ++ action ++ js " " ++ packages.

(** The dependencies are installed by a child process; the handler of
    its [close] event is [() => resolve()]. *)
Definition installDependencies : M unit :=
  emit (Spinner (SpinInfo (js "Installing dependencies...")));;
  _ ← spawnAndWaitClose env installCommand;
  mret tt.

(** The primitive component: fetched and written as received. *)
Definition fetchPrimitive (uiFolder : jsstring) : M unit :=
  match Repo.getRepoUrlForComponent (Init.BRANCH env) (js "primitive") with
  | None => throw (Error (js "REPO_URL environment variable is not set"))
  | Some fileUrl =>
      response ← doFetch env fileUrl;
      let fileContent := body response in
      writeFileSync env (Path.join [uiFolder; js "primitive.tsx"]) fileContent;;
      emit (Spinner (SpinSucceed (js "primitive.tsx file copied to " ++ uiFolder)))
  end.

Definition writeProviders (l : Layout) : M unit :=
  if negb (eqb (themeProvider l) []) then
    themeProviderContent ← readFileSync (themeProvider l);
    writeFileSync env (Path.join [componentsFolder l; js "theme-provider.tsx"])
      themeProviderContent;;
    match providers l with
    | Some p =>
        if negb (eqb p []) then
          providersContent ← readFileSync p;
          writeFileSync env (Path.join [componentsFolder l; js "providers.tsx"])
            providersContent
        else mret tt
    | None => mret tt
    end;;
    emit (Spinner (SpinSucceed
      (js "Theme provider and providers files copied to " ++ componentsFolder l)))
  else mret tt.

(** [justd.json] is written directly. *)
Definition saveConfig (l : Layout) : M unit :=
  stale ← existsSync (js "d.json");
  (if stale : bool then unlinkSync (js "d.json") else mret tt);;
  let config := VObj false [(js "$schema", VStr (js "https://getjustd.com"));
                            (js "ui", VStr (uiFolder l))] in
  writeFileSync env (js "justd.json") (JSON_stringify env config);;
  emit (Spinner (SpinSucceed (js "Configuration saved to justd.json")));;
  emit (Spinner (SpinSucceed (js "Installation complete."))).

(** The hand-over to [add] and the closing prompt; the messages after
    [open] are printed when its promise resolves, after the spinner
    stopped. *)
Definition farewell : M unit :=
  _ ← spawnAndWaitClose env (js "npx justd-cli@latest add");
  visitRepo ← select
    (js "Hey look! You made it this far! " ++ glowingStar
       ++ js " How about a quick star on our GitHub repo?")
    (selectVisitRepo env);
  if visitRepo : bool then
    emit (Open (js "https://github.com/justdlabs/justd"));;
    emit (Spinner SpinStop);;
    emit (Log ConsoleLog [chalkBlueBright env (js "-------------------------------------------")]);;
    emit (Log ConsoleLog [js " Thanks for your support! Happy coding! " ++ fire]);;
    emit (Log ConsoleLog [chalkBlueBright env (js "-------------------------------------------")])
  else
    emit (Log ConsoleLog [chalkBlueBright env (js "------------------------------")]);;
    emit (Log ConsoleLog [js " Happy coding! " ++ fire]);;
    emit (Log ConsoleLog [chalkBlueBright env (js "------------------------------")]);;
    emit (Spinner SpinStop).

(** Everything after the install. *)
Definition afterInstall (l : Layout) : M unit :=
  fetchPrimitive (uiFolder l);;
  writeProviders l;;
  saveConfig l;;
  farewell.

(** Everything after the check of the Tailwind configuration file. *)
Definition scaffold : M unit :=
  projectType ← select (js "Select the project type:") (selectProjectType env);
  l ← resolveLayout projectType;
  emit (Spinner (SpinStart (js "Initializing Justd...")));;
  placeCss l;;
  jsExists ← existsSync (js "tailwind.config.js");
  let tailwindConfigTarget := Init.tailwindConfigTarget jsExists in
  sourceExists ← existsSync (configSourcePath l);
  if negb sourceExists then
    emit (Spinner (SpinWarn (chalkYellow env
      (js "Source Tailwind config file does not exist at " ++ configSourcePath l))))
  else
    tryCatch
      (tailwindConfigContent ← readFileSync (configSourcePath l);
       writeFileSync env tailwindConfigTarget tailwindConfigContent)
      (fun error =>
         emit (Spinner (SpinFail
           (js "Failed to write Tailwind config to " ++ tailwindConfigTarget
              ++ js ": " ++ message error))));;
    installDependencies;;
    afterInstall l.

(** [export async function init()]. *)
Definition init : M unit :=
  configJsExists ← existsSync (js "tailwind.config.js");
  configTsExists ← existsSync (js "tailwind.config.ts");
  if negb configJsExists && negb configTsExists then
    emit (Log ConsoleError
      [js "No Tailwind configuration file found. Please ensure tailwind.config.ts or tailwind.config.js exists in the root directory."])
  else scaffold.

End WithEnv.

End LegacyInit.
(* ===================================================================== *)
(** * A host project to run the commands on *)
(* ===================================================================== *)

Module Sample.

(** Every request is answered [200 OK] with a body that names the asset. *)
Definition fetchOk (url : jsstring) : FetchResult :=
  FetchResolved {| status := 200; statusText := js "OK";
                   body := js "'use client'" ++ [10%N] ++ js "// " ++ url |}.

(** The utilities module is missing on the server; everything else is served. *)
Definition fetchClasses404 (url : jsstring) : FetchResult :=
  if endsWith url (js "/utils/classes.ts") then
    FetchResolved {| status := 404; statusText := js "Not Found";
                     body := js "404: Not Found" |}
  else fetchOk url.

(** The primitive component is missing on the server. *)
Definition fetchPrimitive404 (url : jsstring) : FetchResult :=
  if endsWith url (js "/components/ui/primitive.tsx") then
    FetchResolved {| status := 404; statusText := js "Not Found";
                     body := js "404: Not Found" |}
  else fetchOk url.

(** The parsed [tsconfig.json] of the project:
    [{ "compilerOptions": { "paths": { "@/*": ["./src/*"] } } }]. *)
Definition tsConfig : JsVal :=
  VObj false [(js "compilerOptions",
    VObj false [(js "paths",
      VObj false [(js "@/*", VObj true [(js "0", VStr (js "./src/*"))])])])].

(** A Next.js project with a [src] folder ([laravel = false]) or a
    Laravel project, with a clean or dirty working tree, the given
    Tailwind major version and the given network and install behaviour. *)
Definition framework (laravel : bool) (major : Z) (dirty : bool)
    (fetch : jsstring -> FetchResult) (exitCode : Z) : Env :=
  {| isProjectExists := true;
     isTailwindInstalled := true;
     tailwindMajor := major;
     isNextJs := negb laravel;
     isLaravel := laravel;
     isRemix := false;
     hasFolder := fun d => eqb d (js "src");
     possibilityComponentsPath := js "src/components";
     possibilityCssPath := js "src/app/globals.css";
     possibilityRootPath := js "src";
     possibilityUtilsPath := js "src/utils";
     isRepoDirty := dirty;
     highlight := fun s => s;
     chalkBlue := fun s => s;
     chalkYellow := fun s => s;
     chalkBlueBright := fun s => s;
     getPackageManager := js "npm";
     changeGray := fun _ _ => Ok (Some (js "slate.css"));
     createConfig := fun _ => None;
     stubs := js "/cli/src/resources/stubs";
     resourceDir := js "/cli/src/resources";
     cwd := js "/work";
     fetch := fetch;
     spawnExitCode := fun _ => exitCode;
     writeError := fun _ => None;
     mkdirError := fun _ => None;
     stripJsonComments := fun s => s;
     JSON_parse := fun _ => inr tsConfig;
     JSON_stringify := fun _ => js "{}";
     figletText := fun s => s;
     selectProjectType := NextJsProject;
     selectHasSrc := true;
     selectVisitRepo := false |}.

Definition project : Z -> bool -> (jsstring -> FetchResult) -> Z -> Env :=
  framework false.

(** The component starts with a directive line that ends in a semicolon. *)
Definition directiveBody : jsstring :=
  dquote ++ js "use client" ++ dquote ++ js ";" ++ newline ++ js "import x".

Definition fetchDirective (url : jsstring) : FetchResult :=
  FetchResolved {| status := 200; statusText := js "OK"; body := directiveBody |}.

(** The stub files shipped with the tool and the project's [tsconfig.json];
    no Tailwind configuration file is present. *)
Definition disk : gmap jsstring jsstring :=
  list_to_map
    [(js "/cli/src/resources/stubs/1.x/tailwind.config.src.next.stub", js "/* tailwind */");
     (js "/cli/src/resources/stubs/1.x/zinc.css", js "/* zinc */");
     (js "/cli/src/resources/stubs/1.x/tailwind.config.laravel.stub", js "/* tailwind */");
     (js "/cli/src/resources/stubs/laravel/theme-provider.stub", js "/* theme */");
     (js "/cli/src/resources/stubs/laravel/providers.stub", js "/* providers */");
     (js "/cli/src/resources/stubs/next/theme-provider.stub", js "/* theme */");
     (js "/cli/src/resources/stubs/next/providers.stub", js "/* providers */");
     (js "/cli/src/resources/stubs/next/tailwind.config.next.stub", js "/* tailwind */");
     (js "/cli/src/resources/tailwind-css/app.css", js "/* app */");
     (js "/work/tsconfig.json", js "{}")].

Definition host (answers : list (option jsstring)) : State :=
  {| files := disk; dirs := ∅; answers := answers |}.

Definition flagsYes : Flags := {| force := false; yes := true |}.
Definition flagsNone : Flags := {| force := false; yes := false |}.
Definition flagsForce : Flags := {| force := true; yes := true |}.

End Sample.

(* ===================================================================== *)
(** * Variations of an environment and properties of runs *)
(* ===================================================================== *)

(** The same environment with other exit codes of the child processes. *)
Definition withSpawnExitCode (codes : jsstring -> Z) (env : Env) : Env :=
  {| isProjectExists := isProjectExists env;
     isTailwindInstalled := isTailwindInstalled env;
     tailwindMajor := tailwindMajor env;
     isNextJs := isNextJs env;
     isLaravel := isLaravel env;
     isRemix := isRemix env;
     hasFolder := hasFolder env;
     possibilityComponentsPath := possibilityComponentsPath env;
     possibilityCssPath := possibilityCssPath env;
     possibilityRootPath := possibilityRootPath env;
     possibilityUtilsPath := possibilityUtilsPath env;
     isRepoDirty := isRepoDirty env;
     highlight := highlight env;
     chalkBlue := chalkBlue env;
     chalkYellow := chalkYellow env;
     chalkBlueBright := chalkBlueBright env;
     getPackageManager := getPackageManager env;
     changeGray := changeGray env;
     createConfig := createConfig env;
     stubs := stubs env;
     resourceDir := resourceDir env;
     cwd := cwd env;
     fetch := fetch env;
     spawnExitCode := codes;
     writeError := writeError env;
     mkdirError := mkdirError env;
     stripJsonComments := stripJsonComments env;
     JSON_parse := JSON_parse env;
     JSON_stringify := JSON_stringify env;
     figletText := figletText env;
     selectProjectType := selectProjectType env;
     selectHasSrc := selectHasSrc env;
     selectVisitRepo := selectVisitRepo env |}.

(** The same environment with another state of the working tree. *)
Definition withRepoDirty (dirty : bool) (env : Env) : Env :=
  {| isProjectExists := isProjectExists env;
     isTailwindInstalled := isTailwindInstalled env;
     tailwindMajor := tailwindMajor env;
     isNextJs := isNextJs env;
     isLaravel := isLaravel env;
     isRemix := isRemix env;
     hasFolder := hasFolder env;
     possibilityComponentsPath := possibilityComponentsPath env;
     possibilityCssPath := possibilityCssPath env;
     possibilityRootPath := possibilityRootPath env;
     possibilityUtilsPath := possibilityUtilsPath env;
     isRepoDirty := dirty;
     highlight := highlight env;
     chalkBlue := chalkBlue env;
     chalkYellow := chalkYellow env;
     chalkBlueBright := chalkBlueBright env;
     getPackageManager := getPackageManager env;
     changeGray := changeGray env;
     createConfig := createConfig env;
     stubs := stubs env;
     resourceDir := resourceDir env;
     cwd := cwd env;
     fetch := fetch env;
     spawnExitCode := spawnExitCode env;
     writeError := writeError env;
     mkdirError := mkdirError env;
     stripJsonComments := stripJsonComments env;
     JSON_parse := JSON_parse env;
     JSON_stringify := JSON_stringify env;
     figletText := figletText env;
     selectProjectType := selectProjectType env;
     selectHasSrc := selectHasSrc env;
     selectVisitRepo := selectVisitRepo env |}.

(** Every emitted event satisfies [P]. *)
Definition emitsOnly {A} (P : Event -> Prop) (m : M A) : Prop :=
  forall s, Forall P (emitted (m s)).

(** Every returned value satisfies [Q]. *)
Definition returns {A} (Q : A -> Prop) (m : M A) : Prop :=
  forall s a, outcome (m s) = Ok a -> Q a.

(** [existsSync] answers [false] for the path. *)
Definition absent (s : State) (p : jsstring) : Prop :=
  files s !! p = None /\ p ∉ dirs s.

(** The state after a successful [writeFileSync]. *)
Definition written (s : State) (p content : jsstring) : State :=
  {| files := <[p := content]> (files s); dirs := dirs s; answers := answers s |}.

(** A segment that [path.normalize] keeps as it is. *)
Definition plainSegment (seg : jsstring) : bool :=
  negb (eqb seg [] || eqb seg [Path.dot] || eqb seg [Path.dot; Path.dot]).

(** A relative path made of such segments: no empty, [.] or [..] segment,
    so no leading, trailing or doubled separator either. *)
Definition plainPath (p : jsstring) : bool := forallb plainSegment (Path.segments p).

(** The prompts of the path fields of the layout. *)
Definition pathPrompts (env : Env) : list (M jsstring) :=
  [Init.askComponentsFolder env; Init.askUtilsFolder env; Init.askCssLocation env].

(** Empty or made of white space only. *)
Definition blank (v : jsstring) : bool := forallb isWhiteSpace v.

Definition rejection : jsstring :=
  js "Path cannot be empty. Please enter a valid path.".

(** The state with other pending answers. *)
Definition withAnswers (s : State) (a : list (option jsstring)) : State :=
  {| files := files s; dirs := dirs s; answers := a |}.

(** No directive starts anywhere in the text. *)
Fixpoint noDirective (s : jsstring) : bool :=
  match s with
  | [] => true
  | _ :: t =>
      match Init.afterDirective s with
      | Some _ => false
      | None => noDirective t
      end
  end.

(** The text is empty or ends with a line feed: what follows it starts a line. *)
Definition endsLine (pre : jsstring) : Prop := pre = [] \/ last pre = Some 10%N.

(** The frameworks and the default-path table of the specification. *)
Module Spec.

(** The transform as the specification words it: every line that is
    exactly the directive literal followed by a semicolon is taken out,
    the other lines stay. *)
Definition isDirectiveLine (line : jsstring) : bool :=
  eqb line (dquote ++ js "use client" ++ dquote ++ js ";")
  || eqb line (squote ++ js "use client" ++ squote ++ js ";").

Definition removeDirectiveLines (text : jsstring) : jsstring :=
  JsString.join newline
    (List.filter (fun line => negb (isDirectiveLine line)) (split 10%N text)).

Inductive Framework := NextSrc | NextNoSrc | Laravel | RemixVite | Other.

Definition defaultComponentsFolder (f : Framework) : jsstring :=
  match f with
  | NextSrc => js "src/components"
  | NextNoSrc => js "components"
  | Laravel => js "resources/js/components"
  | RemixVite => js "src/components"
  | Other => js "components"
  end.

Definition defaultCssFilePath (f : Framework) : jsstring :=
  match f with
  | NextSrc => js "src/app/globals.css"
  | NextNoSrc => js "app/globals.css"
  | Laravel => js "resources/css/app.css"
  | RemixVite => js "src/index.css"
  | Other => js "styles/app.css"
  end.

(** The answers to the two [select] prompts that pick the framework. *)
Definition chosen (env : Env) (f : Framework) : Prop :=
  match f with
  | NextSrc => selectProjectType env = NextJsProject /\ selectHasSrc env = true
  | NextNoSrc => selectProjectType env = NextJsProject /\ selectHasSrc env = false
  | Laravel => selectProjectType env = LaravelProject
  | RemixVite => selectProjectType env = ViteProject
  | Other => selectProjectType env = OtherProject
  end.

End Spec.

(** The URLs of the two assets [init] fetches. *)
Definition primitiveUrl (env : Env) : jsstring :=
  Repo.REPO ++ js "/" ++ Init.BRANCH env ++ js "/components/ui/primitive.tsx".

Definition classesUrl (env : Env) : jsstring :=
  Repo.REPO ++ js "/refs/heads/" ++ Init.BRANCH env ++ js "/utils/classes.ts".

(** The events that choose a palette or persist the configuration. *)
Definition configEvent (e : Event) : bool :=
  match e with
  | ChangeGray _ _ | CreateConfig _ => true
  | _ => false
  end.

(** No configuration is persisted. *)
Definition noConfig (e : Event) : Prop :=
  match e with
  | CreateConfig _ => False
  | _ => True
  end.

(** The request for the primitive component fails: the network fails or
    the status of the response is outside 200-299. *)
Definition primitiveRefused (env : Env) : Prop :=
  match fetch env (primitiveUrl env) with
  | FetchRejected _ => True
  | FetchResolved r => ok r = false
  end.

(** In legacy mode no event calls the palette selection and the
    configuration is persisted with the gray [zinc]. *)
Definition legacyGray (e : Event) : Prop :=
  match e with
  | ChangeGray _ _ => False
  | CreateConfig c => gray c = Some (js "zinc")
  | _ => True
  end.

(* ===================================================================== *)
(** * What follows the install step *)
(* ===================================================================== *)

(** The run returned. *)
Definition ended {A} (r : Run A) : Prop := exists a, outcome r = Ok a.

(** A child process was started. *)
Definition spawned (evs : list Event) : Prop := exists cmd, In (Spawn cmd) evs.

Definition noSpawn (e : Event) : Prop :=
  match e with
  | Spawn _ => False
  | _ => True
  end.

(** The start of the command [cmd] is directly followed by the request
    for [url]. *)
Definition fetchFollows (cmd url : jsstring) (evs : list Event) : Prop :=
  exists pre post, evs = pre ++ [Spawn cmd; Fetch url] ++ post.

(** The downloads, the file writes and the call of the configuration
    manager of the current [init], in the order of the code. *)
Definition installedAssets (env : Env) (l : Init.Layout) (c : Config)
    (content classes theme providers : jsstring) : list Event :=
  [Fetch (primitiveUrl env);
   WriteFile (Path.join [Init.uiFolder l; js "primitive.tsx"]) content;
   WriteFile (Path.join [Init.uiFolder l; js "index.ts"])
     (js "export * from './primitive';");
   Fetch (classesUrl env);
   WriteFile (Path.join [Init.utilsFolder l; js "classes.ts"]) classes;
   WriteFile (Path.join [Init.componentFolder l; js "theme-provider.tsx"]) theme;
   WriteFile (Path.join [Init.componentFolder l; js "providers.tsx"]) providers;
   CreateConfig c].

(** The start of the install command is directly followed by all of
    them, for some layout, palette and alias. *)
Definition assetsFollow (env : Env) (evs : list Event) : Prop :=
  exists pre l g a content classes theme providers post,
    evs = pre ++ Spawn (Init.installCommand env)
            :: installedAssets env l (Init.makeConfig l g a)
                 content classes theme providers
            ++ post.

(** The download and the file write that follow the install in the
    older variant, and its write of [justd.json]. *)
Definition legacyInstalledAssets (env : Env) (l : LegacyInit.Layout)
    (body : jsstring) : list Event :=
  [Fetch (primitiveUrl env);
   WriteFile (Path.join [LegacyInit.uiFolder l; js "primitive.tsx"]) body;
   Spinner (SpinSucceed (js "primitive.tsx file copied to " ++ LegacyInit.uiFolder l))].

Definition legacyConfigWritten (env : Env) (l : LegacyInit.Layout) : list Event :=
  [WriteFile (js "justd.json")
     (JSON_stringify env
        (VObj false [(js "$schema", VStr (js "https://getjustd.com"));
                     (js "ui", VStr (LegacyInit.uiFolder l))]));
   Spinner (SpinSucceed (js "Configuration saved to justd.json"));
   Spinner (SpinSucceed (js "Installation complete."))].

(** In the older variant the start of the install command is directly
    followed by the download and the write of the component and, after
    the provider files ([mid]), by the write of [justd.json]. *)
Definition legacyAssetsFollow (env : Env) (evs : list Event) : Prop :=
  exists pre l body mid post,
    evs = pre ++ Spawn (LegacyInit.installCommand env)
            :: legacyInstalledAssets env l body ++ mid
            ++ legacyConfigWritten env l ++ post.

(** A run in which a child process was started (and, when [need] is
    set, that returned) has a trace that satisfies [T]. *)
Definition afterSpawn {A} (need : bool) (T : list Event -> Prop) (r : Run A) : Prop :=
  (need = true -> ended r) -> spawned (emitted r) -> T (emitted r).

(** The host project with a Tailwind configuration file, as the older
    variant requires. *)
Definition legacyHost (answers : list (option jsstring)) : State :=
  {| files := <[js "tailwind.config.ts" := js "/* config */"]> Sample.disk;
     dirs := ∅; answers := answers |}.

(* ===================================================================== *)
(** * Further predicates on events and states *)
(* ===================================================================== *)

(** The event only reports: a spinner, a log line or the hand-over to
    [startNewProject]. *)
Definition reportOnly (e : Event) : Prop :=
  match e with
  | Spinner _ | Log _ _ | StartNewProject => True
  | _ => False
  end.

(** The two places where [getUserAlias] looks for the TypeScript
    configuration. *)
Definition tsconfigApp (env : Env) : jsstring :=
  Path.join [cwd env; js "tsconfig.app.json"].

Definition tsconfigPlain (env : Env) : jsstring :=
  Path.join [cwd env; js "tsconfig.json"].

(** The value assigned to [compilerOptions.paths] when the key is
    missing: [{ "@/*": [`${rootPath}/*`] }]. *)
Definition defaultPaths (rootPath : jsstring) : JsVal :=
  VObj false [(js "@/*", VObj true [(js "0", VStr (rootPath ++ js "/*"))])].

(** [getUserAlias] writes the TypeScript configuration only and does
    nothing else to the host. *)
Definition tsconfigOnly (env : Env) (e : Event) : Prop :=
  match e with
  | WriteFile p _ => p = tsconfigApp env \/ p = tsconfigPlain env
  | Mkdir _ | Unlink _ | Spawn _ | Fetch _ | CreateConfig _ | ChangeGray _ _
  | StartNewProject | Open _ | Select _ => False
  | _ => True
  end.

(** The same environment with another JSON parser result. *)
Definition withJsonParse (parse : jsstring -> Exn + JsVal) (env : Env) : Env :=
  {| isProjectExists := isProjectExists env;
     isTailwindInstalled := isTailwindInstalled env;
     tailwindMajor := tailwindMajor env;
     isNextJs := isNextJs env;
     isLaravel := isLaravel env;
     isRemix := isRemix env;
     hasFolder := hasFolder env;
     possibilityComponentsPath := possibilityComponentsPath env;
     possibilityCssPath := possibilityCssPath env;
     possibilityRootPath := possibilityRootPath env;
     possibilityUtilsPath := possibilityUtilsPath env;
     isRepoDirty := isRepoDirty env;
     highlight := highlight env;
     chalkBlue := chalkBlue env;
     chalkYellow := chalkYellow env;
     chalkBlueBright := chalkBlueBright env;
     getPackageManager := getPackageManager env;
     changeGray := changeGray env;
     createConfig := createConfig env;
     stubs := stubs env;
     resourceDir := resourceDir env;
     cwd := cwd env;
     fetch := fetch env;
     spawnExitCode := spawnExitCode env;
     writeError := writeError env;
     mkdirError := mkdirError env;
     stripJsonComments := stripJsonComments env;
     JSON_parse := parse;
     JSON_stringify := JSON_stringify env;
     figletText := figletText env;
     selectProjectType := selectProjectType env;
     selectHasSrc := selectHasSrc env;
     selectVisitRepo := selectVisitRepo env |}.

(** A project whose only configuration file is [tsconfig.app.json]. *)
Definition appOnly : State :=
  {| files := {[ js "/work/tsconfig.app.json" := js "{}" ]}; dirs := ∅; answers := [] |}.

(** A project without TypeScript configuration. *)
Definition bare : State := {| files := ∅; dirs := ∅; answers := [] |}.

(** [{ "compilerOptions": { "strict": true } }] and
    [{ "compilerOptions": { "paths": {} } }]. *)
Definition strictOnly : JsVal :=
  VObj false [(js "compilerOptions", VObj false [(js "strict", VBool true)])].
Definition emptyPaths : JsVal :=
  VObj false [(js "compilerOptions", VObj false [(js "paths", VObj false [])])].

(** What a run of the current [init] may reach outside the project
    folder: one child process and two downloads. *)
Definition initReach (env : Env) (e : Event) : Prop :=
  match e with
  | Spawn cmd => cmd = Init.installCommand env
  | Fetch url => url = primitiveUrl env \/ url = classesUrl env
  | Unlink _ | Open _ | Select _ => False
  | _ => True
  end.

(** The same for the older variant, which hands over to the [add]
    command, may open the repository page and writes [justd.json] itself. *)
Definition legacyReach (env : Env) (e : Event) : Prop :=
  match e with
  | Spawn cmd =>
      cmd = LegacyInit.installCommand env \/ cmd = js "npx justd-cli@latest add"
  | Fetch url => url = primitiveUrl env
  | Unlink p => p = js "d.json"
  | Open url => url = js "https://github.com/justdlabs/justd"
  | StartNewProject | ChangeGray _ _ | CreateConfig _ | AddUiPathToTsConfig
  | Figlet _ | Sleep _ => False
  | _ => True
  end.

(** No question is put to the user. *)
Definition noPrompt (e : Event) : Prop :=
  match e with
  | Prompt _ _ | PromptRejected _ | Select _ => False
  | _ => True
  end.

(** Every run leaves the state in relation [R] with the state it
    started from. *)
Definition keeps {A} (R : State -> State -> Prop) (m : M A) : Prop :=
  forall s, R s (final (m s)).

(** The prompts consumed nothing. *)
Definition sameAnswers (s s' : State) : Prop := answers s' = answers s.

(** Nothing was removed: every file and folder is still there. *)
Definition nothingRemoved (s s' : State) : Prop :=
  (forall p, is_Some (files s !! p) -> is_Some (files s' !! p))
  /\ dirs s ⊆ dirs s'.

(** A relation between the state before and after that every step of
    the current [init] but a prompt respects: it is a preorder, and
    writing a file or creating folders keeps it. *)
Record Monotone (R : State -> State -> Prop) : Prop := {
  monotone_refl : forall s, R s s;
  monotone_trans : forall s1 s2 s3, R s1 s2 -> R s2 s3 -> R s1 s3;
  monotone_write : forall s p c, R s (written s p c);
  monotone_mkdir : forall s ds,
    R s {| files := files s; dirs := ds ∪ dirs s; answers := answers s |}
}.

(** In a list of events, every event that satisfies [F] comes after
    one that satisfies [E]. *)
Definition precededBy (E F : Event -> Prop) (evs : list Event) : Prop :=
  forall pre e post, evs = pre ++ e :: post -> F e -> exists e', In e' pre /\ E e'.

Definition ordered {A} (E F : Event -> Prop) (m : M A) : Prop :=
  forall s, precededBy E F (emitted (m s)).

(** The install command of the current [init] is started. *)
Definition installStarted (env : Env) (e : Event) : Prop :=
  e = Spawn (Init.installCommand env).

(** A download, or the call of the configuration manager. *)
Definition remoteOrConfig (e : Event) : Prop :=
  match e with
  | Fetch _ | CreateConfig _ => True
  | _ => False
  end.

(** The same environment with another configuration manager. *)
Definition withCreateConfig (create : Config -> option Exn) (env : Env) : Env :=
  {| isProjectExists := isProjectExists env;
     isTailwindInstalled := isTailwindInstalled env;
     tailwindMajor := tailwindMajor env;
     isNextJs := isNextJs env;
     isLaravel := isLaravel env;
     isRemix := isRemix env;
     hasFolder := hasFolder env;
     possibilityComponentsPath := possibilityComponentsPath env;
     possibilityCssPath := possibilityCssPath env;
     possibilityRootPath := possibilityRootPath env;
     possibilityUtilsPath := possibilityUtilsPath env;
     isRepoDirty := isRepoDirty env;
     highlight := highlight env;
     chalkBlue := chalkBlue env;
     chalkYellow := chalkYellow env;
     chalkBlueBright := chalkBlueBright env;
     getPackageManager := getPackageManager env;
     changeGray := changeGray env;
     createConfig := create;
     stubs := stubs env;
     resourceDir := resourceDir env;
     cwd := cwd env;
     fetch := fetch env;
     spawnExitCode := spawnExitCode env;
     writeError := writeError env;
     mkdirError := mkdirError env;
     stripJsonComments := stripJsonComments env;
     JSON_parse := JSON_parse env;
     JSON_stringify := JSON_stringify env;
     figletText := figletText env;
     selectProjectType := selectProjectType env;
     selectHasSrc := selectHasSrc env;
     selectVisitRepo := selectVisitRepo env |}.

(** If the run called the configuration manager and the call failed,
    the run ended with the [TypeError] of the handler. *)
Definition configFailureIsFatal {A} (env : Env) (r : Run A) : Prop :=
  forall c, In (CreateConfig c) (emitted r) -> createConfig env c <> None ->
    outcome r = Throw (TypeError (js "error is not a function")).

(** Nothing but the file [gone] was removed. *)
Definition nothingRemovedBut (gone : jsstring) (s s' : State) : Prop :=
  (forall p, p <> gone -> is_Some (files s !! p) -> is_Some (files s' !! p))
  /\ dirs s ⊆ dirs s'.

(** The same environment with another answer to the project-type
    selection of the older variant. *)
Definition withProjectType (t : ProjectType) (env : Env) : Env :=
  {| isProjectExists := isProjectExists env;
     isTailwindInstalled := isTailwindInstalled env;
     tailwindMajor := tailwindMajor env;
     isNextJs := isNextJs env;
     isLaravel := isLaravel env;
     isRemix := isRemix env;
     hasFolder := hasFolder env;
     possibilityComponentsPath := possibilityComponentsPath env;
     possibilityCssPath := possibilityCssPath env;
     possibilityRootPath := possibilityRootPath env;
     possibilityUtilsPath := possibilityUtilsPath env;
     isRepoDirty := isRepoDirty env;
     highlight := highlight env;
     chalkBlue := chalkBlue env;
     chalkYellow := chalkYellow env;
     chalkBlueBright := chalkBlueBright env;
     getPackageManager := getPackageManager env;
     changeGray := changeGray env;
     createConfig := createConfig env;
     stubs := stubs env;
     resourceDir := resourceDir env;
     cwd := cwd env;
     fetch := fetch env;
     spawnExitCode := spawnExitCode env;
     writeError := writeError env;
     mkdirError := mkdirError env;
     stripJsonComments := stripJsonComments env;
     JSON_parse := JSON_parse env;
     JSON_stringify := JSON_stringify env;
     figletText := figletText env;
     selectProjectType := t;
     selectHasSrc := selectHasSrc env;
     selectVisitRepo := selectVisitRepo env |}.

(** No file named [providers.tsx] is written into [src/components]. *)
Definition noProvidersFile (e : Event) : Prop :=
  match e with
  | WriteFile p _ => p <> js "src/components/providers.tsx"
  | _ => True
  end.

(** The same environment with other write failures. *)
Definition withWriteError (failure : jsstring -> option Exn) (env : Env) : Env :=
  {| isProjectExists := isProjectExists env;
     isTailwindInstalled := isTailwindInstalled env;
     tailwindMajor := tailwindMajor env;
     isNextJs := isNextJs env;
     isLaravel := isLaravel env;
     isRemix := isRemix env;
     hasFolder := hasFolder env;
     possibilityComponentsPath := possibilityComponentsPath env;
     possibilityCssPath := possibilityCssPath env;
     possibilityRootPath := possibilityRootPath env;
     possibilityUtilsPath := possibilityUtilsPath env;
     isRepoDirty := isRepoDirty env;
     highlight := highlight env;
     chalkBlue := chalkBlue env;
     chalkYellow := chalkYellow env;
     chalkBlueBright := chalkBlueBright env;
     getPackageManager := getPackageManager env;
     changeGray := changeGray env;
     createConfig := createConfig env;
     stubs := stubs env;
     resourceDir := resourceDir env;
     cwd := cwd env;
     fetch := fetch env;
     spawnExitCode := spawnExitCode env;
     writeError := failure;
     mkdirError := mkdirError env;
     stripJsonComments := stripJsonComments env;
     JSON_parse := JSON_parse env;
     JSON_stringify := JSON_stringify env;
     figletText := figletText env;
     selectProjectType := selectProjectType env;
     selectHasSrc := selectHasSrc env;
     selectVisitRepo := selectVisitRepo env |}.

(** The computation always returns. *)
Definition settles {A} (m : M A) : Prop := forall s, exists a, outcome (m s) = Ok a.

(** The computation returns or throws: it neither exits nor waits. *)
Definition returnsOrThrows {A} (m : M A) : Prop :=
  forall s, (exists a, outcome (m s) = Ok a) \/ (exists e, outcome (m s) = Throw e).

(** A Vite project for the older variant: a Tailwind configuration
    file, and the stubs the tool ships for Vite. *)
Definition viteDisk : gmap jsstring jsstring :=
  list_to_map
    [(js "tailwind.config.ts", js "/* config */");
     (js "/cli/src/resources/stubs/vite/tailwind.config.vite.stub", js "/* tailwind */");
     (js "/cli/src/resources/stubs/vite/theme-provider.stub", js "/* theme */");
     (js "/cli/src/resources/tailwind-css/app.css", js "/* app */")].

Definition viteHost : State := {| files := viteDisk; dirs := ∅; answers := [] |}.
(* ===================================================================== *)
(** * Properties *)
(* ===================================================================== *)

Example path_join_ui :
  Path.join [js "src/components"; js "ui"] = js "src/components/ui".
Proof. vm_compute. reflexivity. Qed.

Example path_join_empty_head :
  Path.join [js ""; js "components"] = js "components".
Proof. vm_compute. reflexivity. Qed.

Example path_join_dots :
  Path.join [js "./a/../b//c/"; js "ui"] = js "b/c/ui".
Proof. vm_compute. reflexivity. Qed.

Example path_dirname_css :
  Path.dirname (js "src/app/globals.css") = js "src/app".
Proof. vm_compute. reflexivity. Qed.

Example path_basename_ts :
  Path.basename (js "/work/app/tsconfig.app.json") = js "tsconfig.app.json".
Proof. vm_compute. reflexivity. Qed.

Example path_dirname_cases :
  Path.dirname (js "//a") = js "//" /\ Path.dirname (js "a/b") = js "a" /\
  Path.dirname (js "/a") = js "/" /\ Path.dirname (js "a//b/") = js "a/" /\
  Path.dirname (js "app.css") = js ".".
Proof. vm_compute. repeat split; reflexivity. Qed.

(* --------------------------------------------------------------------- *)
(** ** Strings *)
(* --------------------------------------------------------------------- *)

Lemma eqb_spec (a b : jsstring) : reflect (a = b) (eqb a b).
Proof.
  revert b; induction a as [|x a IH]; intros [|y b]; simpl;
    try (constructor; congruence).
  destruct (N.eqb_spec x y) as [->|Hne]; simpl.
  - destruct (IH b) as [->|Hne]; constructor; congruence.
  - constructor; congruence.
Qed.

Lemma eqb_refl (a : jsstring) : eqb a a = true.
Proof. destruct (eqb_spec a a); congruence. Qed.

Lemma eqb_cons_nil (c : N) (a : jsstring) : eqb (c :: a) [] = false.
Proof. reflexivity. Qed.

Lemma startsWith_app (p r : jsstring) : startsWith (p ++ r) p = true.
Proof. induction p as [|c p IH]; simpl; [done|]. by rewrite N.eqb_refl. Qed.

Lemma includes_here (s p : jsstring) : startsWith s p = true -> includes s p = true.
Proof. intros H. destruct s; simpl in *; rewrite H; done. Qed.

(** An occurrence anywhere is found. *)
Lemma includes_app_intro (l p r : jsstring) : includes (l ++ p ++ r) p = true.
Proof.
  induction l as [|c l IH]; simpl.
  - apply includes_here, startsWith_app.
  - rewrite IH. apply orb_true_r.
Qed.

(** A match of a non-empty pattern ends with the pattern's last unit. *)
Lemma startsWith_last (s p : jsstring) (c : N) :
  startsWith s p = true -> last p = Some c -> c ∈ s.
Proof.
  revert s; induction p as [|a p IH]; intros s Hs Hl; [discriminate Hl|].
  destruct s as [|b s]; simpl in Hs; [done|].
  apply andb_true_iff in Hs as [Hab Hs]. apply N.eqb_eq in Hab as ->.
  destruct p as [|a' p].
  - simpl in Hl. injection Hl as ->. apply list_elem_of_here.
  - apply list_elem_of_further, IH; [done|]. exact Hl.
Qed.

Lemma includes_last (s p : jsstring) (c : N) :
  includes s p = true -> last p = Some c -> c ∈ s.
Proof.
  induction s as [|b s IH]; simpl; intros H Hl.
  - rewrite orb_false_r in H. destruct p; [done | discriminate].
  - apply orb_true_iff in H as [H|H].
    + by eapply (startsWith_last (b :: s)).
    + apply list_elem_of_further; auto.
Qed.

(** A suffix that lacks the pattern's last unit neither completes nor
    contains a match. *)
Lemma startsWith_app_suffix (s t p : jsstring) (c : N) :
  last p = Some c -> c ∉ t -> startsWith (s ++ t) p = startsWith s p.
Proof.
  revert s; induction p as [|a p IH]; intros s Hl Hc; [discriminate Hl|].
  destruct s as [|b s]; simpl.
  - destruct (startsWith t (a :: p)) eqn:E; [|by destruct t].
    exfalso. apply Hc. by eapply startsWith_last.
  - destruct p as [|a' p]; [done|].
    rewrite IH; [done | exact Hl | done].
Qed.

Lemma includes_app_suffix (s t p : jsstring) (c : N) :
  last p = Some c -> c ∉ t -> includes (s ++ t) p = includes s p.
Proof.
  intros Hl Hc. induction s as [|b s IH].
  - simpl. rewrite orb_false_r.
    destruct (includes t p) eqn:E.
    + exfalso. apply Hc. by eapply includes_last.
    + destruct p; [done | reflexivity].
  - change (includes ((b :: s) ++ t) p)
      with (startsWith ((b :: s) ++ t) p || includes (s ++ t) p).
    rewrite (startsWith_app_suffix (b :: s) t p c Hl Hc), IH. reflexivity.
Qed.

(* --------------------------------------------------------------------- *)
(** ** Remote asset URLs *)
(* --------------------------------------------------------------------- *)

Lemma component_url_shape (BRANCH name : jsstring) :
  Repo.getRepoUrlForComponent BRANCH name =
  Some (Repo.REPO ++ js "/" ++ BRANCH ++ js "/components/ui/" ++ name ++ js ".tsx").
Proof. reflexivity. Qed.

Lemma utils_url_shape (BRANCH file : jsstring) :
  Repo.getUtilsFolder BRANCH file =
  Some (Repo.REPO ++ js "/refs/heads/" ++ BRANCH ++ js "/utils/" ++ file).
Proof. reflexivity. Qed.

(** With the two branches the module computes, a component URL has
    ["refs/heads/"] inside exactly when the component name has. *)
Lemma component_url_refs_heads (isTailwind3 : bool) (name : jsstring) :
  includes (Repo.REPO ++ js "/" ++ Repo.branchWorkingOn isTailwind3
              ++ js "/components/ui/" ++ name ++ js ".tsx") (js "refs/heads/")
  = includes name (js "refs/heads/").
Proof.
  transitivity (includes (name ++ js ".tsx") (js "refs/heads/")).
  - destruct isTailwind3; reflexivity.
  - apply (includes_app_suffix name (js ".tsx") (js "refs/heads/") 47%N).
    + reflexivity.
    + vm_compute. intros H. repeat (apply elem_of_cons in H as [H|H]; [discriminate H|]).
      by apply elem_of_nil in H.
Qed.

(** The branch segment is present in every utilities URL. *)
Lemma utils_url_refs_heads (BRANCH file : jsstring) :
  includes (Repo.REPO ++ js "/refs/heads/" ++ BRANCH ++ js "/utils/" ++ file)
           (js "refs/heads/" ++ BRANCH ++ js "/") = true.
Proof.
  change (js "/refs/heads/") with (js "/" ++ js "refs/heads/").
  change (js "/utils/") with (js "/" ++ js "utils/").
  rewrite <- !app_assoc.
  rewrite (app_assoc Repo.REPO (js "/")).
  rewrite (app_assoc (js "refs/heads/") BRANCH).
  rewrite (app_assoc (js "refs/heads/" ++ BRANCH) (js "/")).
  rewrite <- (app_assoc (js "refs/heads/") BRANCH (js "/")).
  apply includes_app_intro.
Qed.

Lemma theme_url_refs_heads (BRANCH gray : jsstring) :
  includes (Repo.THEMES_URL BRANCH ++ js "/" ++ gray ++ js ".css")
           (js "refs/heads/" ++ BRANCH ++ js "/") = true.
Proof.
  unfold Repo.THEMES_URL.
  change (js "/refs/heads/") with (js "/" ++ js "refs/heads/").
  change (js "/resources/styles/themes") with (js "/" ++ js "resources/styles/themes").
  rewrite <- !app_assoc.
  rewrite (app_assoc Repo.REPO (js "/")).
  rewrite (app_assoc (js "refs/heads/") BRANCH).
  rewrite (app_assoc (js "refs/heads/" ++ BRANCH) (js "/")).
  rewrite <- (app_assoc (js "refs/heads/") BRANCH (js "/")).
  apply includes_app_intro.
Qed.

Example foldersAbove_ui :
  foldersAbove [] (js "src/components/ui") = [js "src"; js "src/components"].
Proof. vm_compute. reflexivity. Qed.

(* --------------------------------------------------------------------- *)
(** ** Paths *)
(* --------------------------------------------------------------------- *)

Lemma split_cons (sep : N) (s : jsstring) : exists h t, split sep s = h :: t.
Proof.
  induction s as [|c s (h & t & IH)]; simpl; [by eexists _, _|].
  destruct (c =? sep)%N; [by eexists _, _|]. rewrite IH. by eexists _, _.
Qed.

Lemma split_app_sep (sep : N) (a b : jsstring) :
  split sep (a ++ sep :: b) = split sep a ++ split sep b.
Proof.
  induction a as [|c a IH]; simpl.
  - by rewrite N.eqb_refl.
  - destruct (c =? sep)%N; [by rewrite IH|].
    rewrite IH. by destruct (split_cons sep a) as (h & t & ->).
Qed.

Lemma join_cons_cons (sep x y : jsstring) (r : list jsstring) :
  JsString.join sep (x :: y :: r) = x ++ sep ++ JsString.join sep (y :: r).
Proof. reflexivity. Qed.

Lemma split_unfold (sep c : N) (s : jsstring) :
  split sep (c :: s) =
  if (c =? sep)%N then [] :: split sep s
  else match split sep s with
       | piece :: rest => (c :: piece) :: rest
       | [] => [[c]]
       end.
Proof. reflexivity. Qed.

(** Joining the pieces with the separator gives the string back. *)
Lemma join_split (sep : N) (s : jsstring) :
  JsString.join [sep] (split sep s) = s.
Proof.
  induction s as [|c s IH]; [done|].
  rewrite split_unfold.
  destruct (split_cons sep s) as (h & t & E). rewrite E in *.
  destruct (N.eqb_spec c sep) as [->|Hne].
  - by rewrite join_cons_cons, IH.
  - destruct t as [|h' t].
    + simpl in *. by rewrite IH.
    + rewrite join_cons_cons in *. simpl. by rewrite <- IH.
Qed.

Lemma pushSegment_plain (b : bool) (acc : list jsstring) (seg : jsstring) :
  plainSegment seg = true -> Path.pushSegment b acc seg = seg :: acc.
Proof.
  unfold plainSegment, Path.pushSegment.
  intros [[H1 H2]%orb_false_iff H3]%negb_true_iff%orb_false_iff.
  by rewrite H1, H2, H3.
Qed.

Lemma fold_pushSegment_plain (b : bool) (segs acc : list jsstring) :
  forallb plainSegment segs = true ->
  fold_left (Path.pushSegment b) segs acc = rev segs ++ acc.
Proof.
  revert acc; induction segs as [|seg segs IH]; intros acc; [done|].
  simpl. intros [Hs Hr]%andb_true_iff.
  rewrite (pushSegment_plain b acc seg Hs), (IH _ Hr).
  by rewrite <- app_assoc.
Qed.

Lemma normalizeString_plain (p : jsstring) (b : bool) :
  plainPath p = true -> Path.normalizeString p b = p.
Proof.
  intros H. unfold Path.normalizeString.
  rewrite (fold_pushSegment_plain b _ [] H), app_nil_r, rev_involutive.
  apply join_split.
Qed.

Lemma plainPath_head (c : N) (p : jsstring) :
  plainPath (c :: p) = true -> (c =? Path.slash)%N = false.
Proof.
  unfold plainPath, Path.segments. rewrite split_unfold.
  destruct (c =? Path.slash)%N; [|done]. intros H. by simpl in H.
Qed.

Lemma split_last_nil (sep : N) (s : jsstring) :
  last s = Some sep -> last (split sep s) = Some [].
Proof.
  intros [s' ->]%last_Some. rewrite split_app_sep. apply last_snoc.
Qed.

Lemma plainPath_no_trailing (p : jsstring) :
  plainPath p = true -> endsWith p [Path.slash] = false.
Proof.
  intros H. unfold endsWith. change (rev [Path.slash]) with [Path.slash].
  destruct (rev p) as [|c r] eqn:E; [done|].
  change (startsWith (c :: r) [Path.slash]) with ((Path.slash =? c)%N && true).
  rewrite andb_true_r.
  destruct (N.eqb_spec Path.slash c) as [<-|Hne]; [|done]. exfalso.
  assert (Hl : last p = Some Path.slash).
  { rewrite <- (rev_involutive p), E. simpl. apply last_snoc. }
  apply (split_last_nil Path.slash) in Hl.
  apply last_Some in Hl as [l' Hl].
  unfold plainPath, Path.segments in H. rewrite Hl, forallb_app in H.
  simpl in H. by rewrite andb_false_r in H.
Qed.

(** [path.normalize] leaves a plain path as it is. *)
Lemma normalize_plain (p : jsstring) : plainPath p = true -> Path.normalize p = p.
Proof.
  intros H. destruct p as [|c p]; [done|]. unfold Path.normalize.
  rewrite (plainPath_head c p H), (plainPath_no_trailing _ H). cbv zeta. simpl negb.
  rewrite (normalizeString_plain _ true H). simpl. by rewrite app_nil_r.
Qed.

(** Joining a plain components folder with [ui] appends [/ui]. *)
Lemma join_ui_plain (componentFolder : jsstring) :
  plainPath componentFolder = true ->
  Path.join [componentFolder; js "ui"] = componentFolder ++ js "/ui".
Proof.
  intros H. unfold Path.join.
  destruct componentFolder as [|c p]; [done|].
  change (filter _ _) with [c :: p; js "ui"].
  change (JsString.join [Path.slash] [c :: p; js "ui"])
    with ((c :: p) ++ Path.slash :: js "ui").
  change ((c :: p) ++ js "/ui") with ((c :: p) ++ Path.slash :: js "ui").
  apply normalize_plain. unfold plainPath, Path.segments.
  rewrite split_app_sep, forallb_app. unfold plainPath, Path.segments in H.
  by rewrite H.
Qed.

(* --------------------------------------------------------------------- *)
(** ** Runs *)
(* --------------------------------------------------------------------- *)

Lemma existsSync_absent (s : State) (p : jsstring) :
  absent s p -> existsSync p s = {| outcome := Ok false; final := s; emitted := [] |}.
Proof.
  intros [Hf Hd]. unfold existsSync, ret. rewrite Hf.
  rewrite (bool_decide_eq_false_2 _ Hd).
  rewrite bool_decide_eq_false_2; [done|]. by intros [? ?].
Qed.

Lemma run_bind_ok {A B} (m : M A) (k : A -> M B) (s s' : State) (a : A)
    (ev : list Event) :
  m s = {| outcome := Ok a; final := s'; emitted := ev |} ->
  (m ≫= k) s = {| outcome := outcome (k a s'); final := final (k a s');
                  emitted := ev ++ emitted (k a s') |}.
Proof. intros H. unfold mbind, M_bind, bind. by rewrite H. Qed.

Lemma run_bind_throw {A B} (m : M A) (k : A -> M B) (s s' : State) (e : Exn)
    (ev : list Event) :
  m s = {| outcome := Throw e; final := s'; emitted := ev |} ->
  (m ≫= k) s = {| outcome := Throw e; final := s'; emitted := ev |}.
Proof. intros H. unfold mbind, M_bind, bind. by rewrite H. Qed.

Lemma run_tryCatch_ok {A} (m : M A) (h : Exn -> M A) (s s' : State) (a : A)
    (ev : list Event) :
  m s = {| outcome := Ok a; final := s'; emitted := ev |} ->
  tryCatch m h s = {| outcome := Ok a; final := s'; emitted := ev |}.
Proof. intros H. unfold tryCatch. by rewrite H. Qed.

Lemma run_tryCatch_throw {A} (m : M A) (h : Exn -> M A) (s s' : State) (e : Exn)
    (ev : list Event) :
  m s = {| outcome := Throw e; final := s'; emitted := ev |} ->
  tryCatch m h s = {| outcome := outcome (h e s'); final := final (h e s');
                      emitted := ev ++ emitted (h e s') |}.
Proof. intros H. unfold tryCatch. by rewrite H. Qed.

Lemma run_eta {A} (r : Run A) :
  {| outcome := outcome r; final := final r; emitted := emitted r |} = r.
Proof. by destruct r. Qed.

Lemma readFileSync_some (p content : jsstring) (s : State) :
  files s !! p = Some content ->
  readFileSync p s = {| outcome := Ok content; final := s; emitted := [] |}.
Proof. intros H. unfold readFileSync. by rewrite H. Qed.

Lemma readFileSync_none (p : jsstring) (s : State) :
  files s !! p = None ->
  readFileSync p s = {| outcome := Throw (enoent p); final := s; emitted := [] |}.
Proof. intros H. unfold readFileSync. by rewrite H. Qed.

Lemma writeFileSync_ok (env : Env) (p content : jsstring) (s : State) :
  writeError env p = None ->
  writeFileSync env p content s
  = {| outcome := Ok tt; final := written s p content;
       emitted := [WriteFile p content] |}.
Proof. intros H. unfold writeFileSync. by rewrite H. Qed.

(** The exit code of the install is read by nobody. *)
Lemma init_ignores_exit_code (env : Env) (codes : jsstring -> Z) (flags : Flags) :
  Init.init (withSpawnExitCode codes env) flags = Init.init env flags.
Proof. reflexivity. Qed.

Lemma legacy_init_ignores_exit_code (env : Env) (codes : jsstring -> Z) :
  LegacyInit.init (withSpawnExitCode codes env) = LegacyInit.init env.
Proof. reflexivity. Qed.

Lemma init_force_ignores_dirty_tree (env : Env) (dirty : bool) (y : bool) :
  Init.init (withRepoDirty dirty env) {| force := true; yes := y |}
  = Init.init env {| force := true; yes := y |}.
Proof. reflexivity. Qed.

Lemma ok_bind_inv {A B} (m : M A) (k : A -> M B) (s : State) (b : B) :
  outcome ((m ≫= k) s) = Ok b ->
  exists a, outcome (m s) = Ok a /\ outcome (k a (final (m s))) = Ok b.
Proof.
  unfold mbind, M_bind, bind. destruct (outcome (m s)) as [a| | |]; simpl; try done.
  intros H. by exists a.
Qed.

Lemma resolveLayout_ui (env : Env) (flags : Flags) (s : State) (l : Init.Layout) :
  outcome (Init.resolveLayout env flags s) = Ok l ->
  Init.uiFolder l = Path.join [Init.componentFolder l; js "ui"].
Proof.
  unfold Init.resolveLayout. destruct (yes flags).
  - intros [= <-]. reflexivity.
  - intros H.
    apply ok_bind_inv in H as (c & _ & H).
    apply ok_bind_inv in H as (u & _ & H).
    apply ok_bind_inv in H as (x & _ & H).
    injection H as <-. reflexivity.
Qed.

Lemma legacy_resolveLayout_ui (env : Env) (projectType : ProjectType)
    (s : State) (l : LegacyInit.Layout) :
  outcome (LegacyInit.resolveLayout env projectType s) = Ok l ->
  LegacyInit.uiFolder l = Path.join [LegacyInit.componentsFolder l; js "ui"].
Proof.
  destruct projectType; simpl; intros H;
    try (injection H as <-; reflexivity).
  - unfold LegacyInit.resolveLayout in H.
    apply ok_bind_inv in H as (c & _ & H).
    apply ok_bind_inv in H as (x & _ & H).
    injection H as <-. reflexivity.
Qed.

(* --------------------------------------------------------------------- *)
(** ** Validation of the path prompts *)
(* --------------------------------------------------------------------- *)

Lemma trimStart_blank (v : jsstring) : blank v = true -> trimStart v = [].
Proof.
  induction v as [|c v IH]; simpl; [done|].
  intros [Hc Hv]%andb_true_iff. rewrite Hc. auto.
Qed.

Lemma trimStart_nil_blank (v : jsstring) : trimStart v = [] -> blank v = true.
Proof.
  induction v as [|c v IH]; simpl; [done|].
  destruct (isWhiteSpace c); [auto | done].
Qed.

Lemma trimStart_head (v : jsstring) (c : N) (t : jsstring) :
  trimStart v = c :: t -> isWhiteSpace c = false.
Proof.
  induction v as [|x v IH]; simpl; [done|].
  destruct (isWhiteSpace x) eqn:E; [auto|]. by intros [= <- <-].
Qed.

Lemma blank_app (a b : jsstring) : blank (a ++ b) = blank a && blank b.
Proof. apply forallb_app. Qed.

Lemma blank_rev (v : jsstring) : blank (rev v) = blank v.
Proof.
  induction v as [|c v IH]; [done|].
  change (rev (c :: v)) with (rev v ++ [c]).
  rewrite blank_app, IH. simpl.
  rewrite andb_true_r. apply andb_comm.
Qed.

(** [value.trim()] is empty exactly for the blank values. *)
Lemma trim_nil_iff (v : jsstring) : trim v = [] <-> blank v = true.
Proof.
  unfold trim, trimEnd. split.
  - intros H. apply (f_equal (@rev N)) in H. rewrite rev_involutive in H.
    simpl in H. apply trimStart_nil_blank in H. rewrite blank_rev in H.
    destruct (trimStart v) as [|c t] eqn:E; [by apply trimStart_nil_blank|].
    apply trimStart_head in E. simpl in H. by rewrite E in H.
  - intros H. by rewrite (trimStart_blank v H).
Qed.

Lemma validatePath_blank (v : jsstring) :
  blank v = true -> Init.validatePath v = Invalid rejection.
Proof.
  intros H. unfold Init.validatePath. apply trim_nil_iff in H. by rewrite H.
Qed.

Lemma validatePath_filled (v : jsstring) :
  blank v = false -> Init.validatePath v = Valid.
Proof.
  intros H. unfold Init.validatePath.
  destruct (eqb_spec (trim v) []) as [E|E]; [|done].
  apply trim_nil_iff in E. congruence.
Qed.

Lemma validatePath_valid_filled (v : jsstring) :
  Init.validatePath v = Valid -> blank v = false.
Proof.
  destruct (blank v) eqn:E; [|done]. by rewrite (validatePath_blank v E).
Qed.

(** Whatever a validated prompt resolves with passed the validator. *)
Lemma promptLoop_valid (d : jsstring) (validate : jsstring -> Validation)
    (subs rest : list (option jsstring)) (a : jsstring) (ev : list Event) :
  promptLoop d validate subs = (Some a, rest, ev) -> validate a = Valid.
Proof.
  revert rest ev; induction subs as [|sub subs IH]; intros rest ev; simpl; [done|].
  destruct (validate (match sub with Some v => v | None => d end)) eqn:E.
  - by intros [= <- _ _].
  - destruct (promptLoop d validate subs) as [[r rest'] ev'].
    intros [= -> -> _]. eauto.
Qed.

Lemma input_valid (m d : jsstring) (validate : jsstring -> Validation)
    (s : State) (a : jsstring) :
  outcome (input m d validate s) = Ok a -> validate a = Valid.
Proof.
  unfold input.
  destruct (promptLoop d validate (answers s)) as [[[r|] rest] ev] eqn:E; simpl; [|done].
  intros [= ->]. by eapply promptLoop_valid.
Qed.

(** A blank submission is turned down and the prompt asks again. *)
Lemma input_blank (m d v : jsstring) (s : State) (rest : list (option jsstring)) :
  blank v = true ->
  let r := input m d Init.validatePath (withAnswers s (Some v :: rest)) in
  let r' := input m d Init.validatePath (withAnswers s rest) in
  outcome r = outcome r' /\ final r = final r' /\
  emitted r = Prompt m d :: PromptRejected rejection :: tail (emitted r').
Proof.
  intros H. unfold input, withAnswers; simpl.
  rewrite (validatePath_blank v H).
  by destruct (promptLoop d Init.validatePath rest) as [[r rest'] ev].
Qed.

(** A filled submission is taken, whatever the default. *)
Lemma input_filled (m d v : jsstring) (s : State) (rest : list (option jsstring)) :
  blank v = false ->
  input m d Init.validatePath (withAnswers s (Some v :: rest))
  = {| outcome := Ok v; final := withAnswers s rest; emitted := [Prompt m d] |}.
Proof.
  intros H. unfold input, withAnswers; simpl.
  by rewrite (validatePath_filled v H).
Qed.

Lemma resolveLayout_filled (env : Env) (flags : Flags) (s : State) (l : Init.Layout) :
  yes flags = false ->
  outcome (Init.resolveLayout env flags s) = Ok l ->
  blank (Init.componentFolder l) = false /\ blank (Init.utilsFolder l) = false
  /\ blank (Init.cssLocation l) = false.
Proof.
  unfold Init.resolveLayout. intros -> H.
  apply ok_bind_inv in H as (c & Hc & H).
  apply ok_bind_inv in H as (u & Hu & H).
  apply ok_bind_inv in H as (x & Hx & H).
  injection H as <-. simpl.
  apply input_valid, validatePath_valid_filled in Hc, Hu, Hx. done.
Qed.

(* --------------------------------------------------------------------- *)
(** ** The check of the working tree *)
(* --------------------------------------------------------------------- *)

Lemma init_dirty_tree (env : Env) (y : bool) (s : State) :
  isProjectExists env = true ->
  isRepoDirty env = true ->
  Init.init env {| force := false; yes := y |} s
  = {| outcome := Exit 1; final := s;
       emitted :=
         [Spinner (SpinStart (js "Checking."));
          Spinner SpinStop;
          Log LogError
            [js "Git directory is not clean. Please stash or commit your changes before running the init command."];
          Log LogInfo
            [js "You may use the " ++ highlight env (js "--force")
               ++ js " flag to silence this warning and perform the initialization anyway."]] |}.
Proof.
  intros Hp Hd. unfold Init.init, Init.gitCheck. rewrite Hp, Hd. reflexivity.
Qed.

Lemma gitCheck_forced (env : Env) (y : bool) (s : State) :
  Init.gitCheck env {| force := true; yes := y |} s
  = {| outcome := Ok tt; final := s; emitted := [] |}.
Proof. reflexivity. Qed.

(* --------------------------------------------------------------------- *)
(** ** The Tailwind configuration file *)
(* --------------------------------------------------------------------- *)

(** Without a [tailwind.config.js] the stub goes to [tailwind.config.ts],
    whether that file exists or not. *)
Lemma writeTailwindConfig_fallback (env : Env) (stub content : jsstring) (s : State) :
  tailwindMajor env = 3%Z ->
  absent s (js "tailwind.config.js") ->
  files s !! stub = Some content ->
  writeError env (js "tailwind.config.ts") = None ->
  Init.writeTailwindConfig env stub s
  = {| outcome := Ok tt;
       final := written s (js "tailwind.config.ts") content;
       emitted := [WriteFile (js "tailwind.config.ts") content] |}.
Proof.
  intros Hm Ha Hs Hw. unfold Init.writeTailwindConfig, isTailwind. rewrite Hm.
  change (3 =? 3)%Z with true. cbv iota.
  rewrite (run_bind_ok _ _ _ _ _ _ (existsSync_absent _ _ Ha)).
  cbv zeta. change (Init.tailwindConfigTarget false) with (js "tailwind.config.ts").
  rewrite (run_tryCatch_ok _ _ s (written s (js "tailwind.config.ts") content) tt
             [WriteFile (js "tailwind.config.ts") content]); [reflexivity|].
  rewrite (run_bind_ok _ _ _ _ _ _ (readFileSync_some _ _ _ Hs)).
  by rewrite (writeFileSync_ok _ _ _ _ Hw).
Qed.

(** A stub that cannot be read is reported on the spinner and the step
    ends normally. *)
Lemma writeTailwindConfig_unreadable (env : Env) (stub : jsstring) (s : State) :
  tailwindMajor env = 3%Z ->
  absent s (js "tailwind.config.js") ->
  files s !! stub = None ->
  Init.writeTailwindConfig env stub s
  = {| outcome := Ok tt; final := s;
       emitted := [Spinner (SpinFail
         (js "Failed to write Tailwind config to tailwind.config.ts: "
            ++ message (enoent stub)))] |}.
Proof.
  intros Hm Ha Hs. unfold Init.writeTailwindConfig, isTailwind. rewrite Hm.
  change (3 =? 3)%Z with true. cbv iota.
  rewrite (run_bind_ok _ _ _ _ _ _ (existsSync_absent _ _ Ha)).
  cbv zeta. change (Init.tailwindConfigTarget false) with (js "tailwind.config.ts").
  rewrite (run_tryCatch_throw _ _ s s (enoent stub) []); [reflexivity|].
  by rewrite (run_bind_throw _ _ _ _ _ _ (readFileSync_none _ _ Hs)).
Qed.

(** The older variant stops at once when neither file exists. *)
Lemma legacy_init_without_config (env : Env) (s : State) :
  absent s (js "tailwind.config.js") ->
  absent s (js "tailwind.config.ts") ->
  LegacyInit.init env s
  = {| outcome := Ok tt; final := s;
       emitted := [Log ConsoleError
         [js "No Tailwind configuration file found. Please ensure tailwind.config.ts or tailwind.config.js exists in the root directory."]] |}.
Proof.
  intros Hj Ht. unfold LegacyInit.init.
  rewrite (run_bind_ok _ _ _ _ _ _ (existsSync_absent _ _ Hj)).
  rewrite (run_bind_ok _ _ _ _ _ _ (existsSync_absent _ _ Ht)).
  reflexivity.
Qed.

(* --------------------------------------------------------------------- *)
(** ** The gray palette *)
(* --------------------------------------------------------------------- *)

Lemma selectGray_legacy (env : Env) (css content : jsstring) (flags : Flags) (s : State) :
  tailwindMajor env = 3%Z ->
  files s !! Init.stub env (js "1.x/zinc.css") = Some content ->
  writeError env css = None ->
  Init.selectGray env css flags s
  = {| outcome := Ok (Some (js "zinc.css"));
       final := written s css content;
       emitted := [WriteFile css content] |}.
Proof.
  intros Hm Hs Hw. unfold Init.selectGray, isTailwind. rewrite Hm.
  change (3 =? 3)%Z with true. cbv iota.
  rewrite (run_bind_ok _ _ s (written s css content) tt [WriteFile css content]);
    [reflexivity|].
  rewrite (run_bind_ok _ _ _ _ _ _ (readFileSync_some _ _ _ Hs)).
  by rewrite (writeFileSync_ok _ _ _ _ Hw).
Qed.

Lemma selectGray_modern (env : Env) (css : jsstring) (flags : Flags) (s : State) :
  tailwindMajor env <> 3%Z ->
  Init.selectGray env css flags s
  = {| outcome := changeGray env css flags; final := s;
       emitted := [ChangeGray css flags] |}.
Proof.
  intros Hm. unfold Init.selectGray, isTailwind.
  apply Z.eqb_neq in Hm. rewrite Hm. cbv iota.
  unfold mbind, M_bind, bind, liftOutcome, mret, M_ret, ret, emit. simpl.
  by destruct (changeGray env css flags).
Qed.

Lemma makeConfig_zinc (l : Init.Layout) (currentAlias : jsstring) :
  gray (Init.makeConfig l (Some (js "zinc.css")) currentAlias) = Some (js "zinc").
Proof. reflexivity. Qed.

Lemma selectGray_legacy_returns (env : Env) (css : jsstring) (flags : Flags) :
  tailwindMajor env = 3%Z ->
  returns (fun g => g = Some (js "zinc.css")) (Init.selectGray env css flags).
Proof.
  intros Hm s g. unfold Init.selectGray, isTailwind. rewrite Hm.
  change (3 =? 3)%Z with true. cbv iota.
  intros (_ & _ & H)%ok_bind_inv. by injection H as <-.
Qed.

(* --------------------------------------------------------------------- *)
(** ** The client directive *)
(* --------------------------------------------------------------------- *)

Lemma stripUseClient_cons (c : N) (t : jsstring) :
  Init.stripUseClient (c :: t) =
  match Init.afterDirective (c :: t) with
  | Some rest => Init.stripUseClient (Path.dropWhile isWhiteSpace rest)
  | None => c :: Init.stripUseClient t
  end.
Proof.
  rewrite Init.stripUseClient_equation_2. unfold Init.inspect.
  assert (H : forall (o : option jsstring) (E : Init.afterDirective (c :: t) = o),
             Init.stripUseClient_unfold_clause_2 c t (exist _ o E) =
             match o with
             | Some rest => Init.stripUseClient (Path.dropWhile isWhiteSpace rest)
             | None => c :: Init.stripUseClient t
             end).
  { intros [rest|] E.
    - apply Init.stripUseClient_clause_2_equation_1.
    - apply Init.stripUseClient_clause_2_equation_2. }
  apply H.
Qed.

Lemma afterDirective_intro (q1 q2 : N) (s : jsstring) :
  Init.isQuote q1 = true -> Init.isQuote q2 = true ->
  Init.afterDirective (q1 :: js "use client" ++ q2 :: s) = Some s.
Proof.
  intros H1 H2. unfold Init.afterDirective.
  rewrite H1, startsWith_app. simpl. by rewrite H2.
Qed.

Lemma startsWith_inv (s p : jsstring) :
  startsWith s p = true -> s = p ++ drop (length p) s.
Proof.
  revert s; induction p as [|a p IH]; intros s; [done|].
  destruct s as [|b s]; simpl; [done|].
  intros [Hab Hs]%andb_true_iff. apply N.eqb_eq in Hab as ->.
  f_equal. by apply IH.
Qed.

Lemma afterDirective_inv (s rest : jsstring) :
  Init.afterDirective s = Some rest ->
  exists q1 q2, Init.isQuote q1 = true /\ Init.isQuote q2 = true
    /\ s = (q1 :: js "use client" ++ [q2]) ++ rest.
Proof.
  destruct s as [|q1 t]; [done|]. unfold Init.afterDirective.
  destruct (Init.isQuote q1) eqn:H1; [|done].
  destruct (startsWith t (js "use client")) eqn:Hs; [|done]. simpl.
  apply startsWith_inv in Hs. change (length (js "use client")) with 10 in Hs.
  destruct (drop 10 t) as [|q2 r] eqn:Ed; [done|].
  destruct (Init.isQuote q2) eqn:H2; [|done]. intros [= <-].
  exists q1, q2. repeat split; [done..|].
  rewrite Hs. reflexivity.
Qed.

(** The directive is removed together with the white space after it. *)
Lemma stripUseClient_directive (q1 q2 : N) (s : jsstring) :
  Init.isQuote q1 = true -> Init.isQuote q2 = true ->
  Init.stripUseClient (q1 :: js "use client" ++ q2 :: s)
  = Init.stripUseClient (Path.dropWhile isWhiteSpace s).
Proof.
  intros H1 H2.
  change (q1 :: js "use client" ++ q2 :: s) with (q1 :: (js "use client" ++ q2 :: s)).
  rewrite stripUseClient_cons.
  change (q1 :: (js "use client" ++ q2 :: s)) with (q1 :: js "use client" ++ q2 :: s).
  by rewrite afterDirective_intro.
Qed.

(** Text without a directive is left as it is. *)
Lemma stripUseClient_noDirective (s : jsstring) :
  noDirective s = true -> Init.stripUseClient s = s.
Proof.
  induction s as [|c t IH]; [intros _; apply Init.stripUseClient_equation_1|].
  rewrite stripUseClient_cons. simpl noDirective.
  destruct (Init.afterDirective (c :: t)); [done|].
  intros H. by rewrite IH.
Qed.

Lemma dropWhile_blank_app (ws post : jsstring) :
  blank ws = true -> Path.dropWhile isWhiteSpace post = post ->
  Path.dropWhile isWhiteSpace (ws ++ post) = post.
Proof.
  intros Hw Hp. induction ws as [|c ws IH]; [done|].
  simpl in *. apply andb_true_iff in Hw as [-> Hw]. auto.
Qed.

(** No unit of a directive is a line feed. *)
Lemma directive_no_newline (q1 q2 : N) :
  Init.isQuote q1 = true -> Init.isQuote q2 = true ->
  10%N ∉ q1 :: js "use client" ++ [q2].
Proof.
  intros H1 H2 Hin.
  apply elem_of_cons in Hin as [<-|Hin]; [discriminate H1|].
  apply elem_of_app in Hin as [Hin|Hin].
  - vm_compute in Hin.
    repeat (apply elem_of_cons in Hin as [Hin|Hin]; [discriminate Hin|]).
    by apply elem_of_nil in Hin.
  - apply list_elem_of_singleton in Hin. subst q2. discriminate H2.
Qed.

(** A directive cannot begin before a line break and end after it. *)
Lemma afterDirective_across_line (pre s : jsstring) (c : N) :
  Init.afterDirective (c :: pre) = None ->
  last (c :: pre) = Some 10%N ->
  Init.afterDirective (c :: pre ++ s) = None.
Proof.
  intros Hn Hl.
  destruct (Init.afterDirective (c :: pre ++ s)) as [rest|] eqn:E; [|done].
  exfalso. apply afterDirective_inv in E as (q1 & q2 & H1 & H2 & E).
  change (c :: pre ++ s) with ((c :: pre) ++ s) in E.
  apply app_eq_app in E as [l [[Ea Eb]|[Ea Eb]]].
  - rewrite Ea in Hn.
    change ((q1 :: js "use client" ++ [q2]) ++ l)
      with (q1 :: (js "use client" ++ [q2] ++ l)) in Hn.
    change (js "use client" ++ [q2] ++ l) with (js "use client" ++ q2 :: l) in Hn.
    by rewrite afterDirective_intro in Hn.
  - apply (directive_no_newline q1 q2 H1 H2). rewrite Ea.
    apply elem_of_app. left.
    apply last_Some in Hl as [l' ->]. apply elem_of_app. right.
    apply list_elem_of_here.
Qed.

Lemma last_cons_cons {A} (a b : A) (l : list A) : last (a :: b :: l) = last (b :: l).
Proof. reflexivity. Qed.

(** Text that holds no directive and ends a line passes unchanged, and
    what follows it is treated on its own. *)
Lemma stripUseClient_app (pre s : jsstring) :
  noDirective pre = true -> endsLine pre ->
  Init.stripUseClient (pre ++ s) = pre ++ Init.stripUseClient s.
Proof.
  intros Hn [->|Hl]; [done|].
  induction pre as [|c pre IH]; [done|].
  change ((c :: pre) ++ s) with (c :: pre ++ s).
  rewrite stripUseClient_cons. simpl noDirective in Hn.
  destruct (Init.afterDirective (c :: pre)) eqn:E; [done|].
  rewrite (afterDirective_across_line pre s c E Hl).
  destruct pre as [|b pre]; [done|].
  rewrite last_cons_cons in Hl. by rewrite (IH Hn Hl).
Qed.

(** A directive that starts a line goes away with the white space after
    it; the text before and after stays. *)
Lemma stripUseClient_line (pre ws post : jsstring) (q1 q2 : N) :
  noDirective pre = true -> endsLine pre ->
  Init.isQuote q1 = true -> Init.isQuote q2 = true ->
  blank ws = true ->
  Path.dropWhile isWhiteSpace post = post ->
  noDirective post = true ->
  Init.stripUseClient (pre ++ q1 :: js "use client" ++ q2 :: ws ++ post)
  = pre ++ post.
Proof.
  intros Hpre Hl H1 H2 Hws Hhead Hpost.
  rewrite (stripUseClient_app _ _ Hpre Hl).
  rewrite (stripUseClient_directive _ _ _ H1 H2).
  rewrite (dropWhile_blank_app _ _ Hws Hhead).
  by rewrite (stripUseClient_noDirective _ Hpost).
Qed.

(* --------------------------------------------------------------------- *)
(** ** The two remote assets *)
(* --------------------------------------------------------------------- *)

Lemma doFetch_resolved (env : Env) (url : jsstring) (r : Response) (s : State) :
  fetch env url = FetchResolved r ->
  doFetch env url s = {| outcome := Ok r; final := s; emitted := [Fetch url] |}.
Proof. intros H. unfold doFetch. rewrite H. reflexivity. Qed.

Lemma doFetch_rejected (env : Env) (url : jsstring) (e : Exn) (s : State) :
  fetch env url = FetchRejected e ->
  doFetch env url s = {| outcome := Throw e; final := s; emitted := [Fetch url] |}.
Proof. intros H. unfold doFetch. rewrite H. reflexivity. Qed.

(** A successful response: the component is written, transformed for
    Laravel only, and then the index file. *)
Lemma fetchPrimitive_ok (env : Env) (uiFolder : jsstring) (r : Response) (s : State) :
  let target := Path.join [uiFolder; js "primitive.tsx"] in
  let index := Path.join [uiFolder; js "index.ts"] in
  let content := if isLaravel env then Init.stripUseClient (body r) else body r in
  fetch env (primitiveUrl env) = FetchResolved r ->
  ok r = true ->
  writeError env target = None ->
  writeError env index = None ->
  Init.fetchPrimitive env uiFolder s
  = {| outcome := Ok tt;
       final := written (written s target content) index
                  (js "export * from './primitive';");
       emitted := [Fetch (primitiveUrl env); WriteFile target content;
                   WriteFile index (js "export * from './primitive';")] |}.
Proof.
  intros target index content Hf Hok Ht Hi.
  unfold Init.fetchPrimitive. rewrite component_url_shape.
  rewrite (run_bind_ok _ _ _ _ _ _ (doFetch_resolved _ _ _ _ Hf)).
  rewrite Hok. cbv iota zeta. change (negb true) with false. cbv iota.
  rewrite (run_bind_ok _ _ _ _ _ _ (writeFileSync_ok _ _ _ _ Ht)).
  fold target content.
  by rewrite (writeFileSync_ok _ _ _ _ Hi).
Qed.

(** A response outside 200-299: the run throws with the status text
    and nothing is written. *)
Lemma fetchPrimitive_refused (env : Env) (uiFolder : jsstring) (r : Response) (s : State) :
  fetch env (primitiveUrl env) = FetchResolved r ->
  ok r = false ->
  Init.fetchPrimitive env uiFolder s
  = {| outcome := Throw (Error (js "Failed to fetch component: " ++ statusText r));
       final := s; emitted := [Fetch (primitiveUrl env)] |}.
Proof.
  intros Hf Hok. unfold Init.fetchPrimitive. rewrite component_url_shape.
  rewrite (run_bind_ok _ _ _ _ _ _ (doFetch_resolved _ _ _ _ Hf)).
  rewrite Hok. reflexivity.
Qed.

(** A network failure: the rejection propagates and nothing is written. *)
Lemma fetchPrimitive_rejected (env : Env) (uiFolder : jsstring) (e : Exn) (s : State) :
  fetch env (primitiveUrl env) = FetchRejected e ->
  Init.fetchPrimitive env uiFolder s
  = {| outcome := Throw e; final := s; emitted := [Fetch (primitiveUrl env)] |}.
Proof.
  intros Hf. unfold Init.fetchPrimitive. rewrite component_url_shape.
  by rewrite (run_bind_throw _ _ _ _ _ _ (doFetch_rejected _ _ _ _ Hf)).
Qed.

(** The utilities module is written whatever the status of the response. *)
Lemma fetchClasses_resolved (env : Env) (utilsFolder : jsstring) (r : Response) (s : State) :
  let target := Path.join [utilsFolder; js "classes.ts"] in
  fetch env (classesUrl env) = FetchResolved r ->
  writeError env target = None ->
  Init.fetchClasses env utilsFolder s
  = {| outcome := Ok tt; final := written s target (body r);
       emitted := [Fetch (classesUrl env); WriteFile target (body r)] |}.
Proof.
  intros target Hf Hw. unfold Init.fetchClasses. rewrite utils_url_shape.
  rewrite (run_bind_ok _ _ _ _ _ _ (doFetch_resolved _ _ _ _ Hf)).
  cbv zeta. by rewrite (writeFileSync_ok _ _ _ _ Hw).
Qed.

Lemma fetchClasses_rejected (env : Env) (utilsFolder : jsstring) (e : Exn) (s : State) :
  fetch env (classesUrl env) = FetchRejected e ->
  Init.fetchClasses env utilsFolder s
  = {| outcome := Throw e; final := s; emitted := [Fetch (classesUrl env)] |}.
Proof.
  intros Hf. unfold Init.fetchClasses. rewrite utils_url_shape.
  by rewrite (run_bind_throw _ _ _ _ _ _ (doFetch_rejected _ _ _ _ Hf)).
Qed.

(** The install step ends normally whatever the child's exit code. *)
Lemma installDependencies_run (env : Env) (s : State) :
  Init.installDependencies env s
  = {| outcome := Ok tt; final := s;
       emitted := [Spinner (SpinStart (js "Installing dependencies."));
                   Spawn (Init.installCommand env)] |}.
Proof. reflexivity. Qed.

Lemma legacy_installDependencies_run (env : Env) (s : State) :
  LegacyInit.installDependencies env s
  = {| outcome := Ok tt; final := s;
       emitted := [Spinner (SpinInfo (js "Installing dependencies..."));
                   Spawn (LegacyInit.installCommand env)] |}.
Proof. reflexivity. Qed.

(* --------------------------------------------------------------------- *)
(** ** What a whole run may emit *)
(* --------------------------------------------------------------------- *)

Section EmitsOnly.
Context (P : Event -> Prop).

Lemma emitsOnly_ret {A} (a : A) : emitsOnly P (mret a).
Proof. intros s. constructor. Qed.

Lemma emitsOnly_emit (e : Event) : P e -> emitsOnly P (emit e).
Proof. intros H s. by repeat constructor. Qed.

Lemma emitsOnly_exit {A} (c : Z) : emitsOnly P (@exit A c).
Proof. intros s. constructor. Qed.

Lemma emitsOnly_throw {A} (e : Exn) : emitsOnly P (@throw A e).
Proof. intros s. constructor. Qed.

Lemma emitsOnly_liftExn {A} (x : Exn + A) : emitsOnly P (liftExn x).
Proof. destruct x; intros s; constructor. Qed.

Lemma emitsOnly_liftOutcome {A} (o : Outcome A) : emitsOnly P (liftOutcome o).
Proof. intros s. constructor. Qed.

Lemma emitsOnly_existsSync (p : jsstring) : emitsOnly P (existsSync p).
Proof. intros s. constructor. Qed.

Lemma emitsOnly_readFileSync (p : jsstring) : emitsOnly P (readFileSync p).
Proof. intros s. unfold readFileSync. destruct (files s !! p); constructor. Qed.

Lemma emitsOnly_writeFileSync (env : Env) (p c : jsstring) :
  P (WriteFile p c) -> emitsOnly P (writeFileSync env p c).
Proof.
  intros H s. unfold writeFileSync. destruct (writeError env p); by repeat constructor.
Qed.

Lemma emitsOnly_mkdirSync (env : Env) (p : jsstring) :
  P (Mkdir p) -> emitsOnly P (mkdirSync env p).
Proof.
  intros H s. unfold mkdirSync. destruct (mkdirError env p); by repeat constructor.
Qed.

Lemma emitsOnly_bind {A B} (m : M A) (k : A -> M B) :
  emitsOnly P m -> (forall a, emitsOnly P (k a)) -> emitsOnly P (m ≫= k).
Proof.
  intros Hm Hk s. unfold mbind, M_bind, bind. specialize (Hm s).
  destruct (outcome (m s)); simpl; [|done..].
  apply Forall_app. split; [done | apply Hk].
Qed.

Lemma emitsOnly_bind_returns {A B} (Q : A -> Prop) (m : M A) (k : A -> M B) :
  emitsOnly P m -> returns Q m -> (forall a, Q a -> emitsOnly P (k a)) ->
  emitsOnly P (m ≫= k).
Proof.
  intros Hm Hq Hk s. unfold mbind, M_bind, bind. specialize (Hm s).
  destruct (outcome (m s)) eqn:E; simpl; [|done..].
  apply Forall_app. split; [done | apply Hk]. by eapply Hq.
Qed.

Lemma emitsOnly_tryCatch {A} (m : M A) (h : Exn -> M A) :
  emitsOnly P m -> (forall e, emitsOnly P (h e)) -> emitsOnly P (tryCatch m h).
Proof.
  intros Hm Hh s. unfold tryCatch. specialize (Hm s).
  destruct (outcome (m s)); simpl; try done.
  apply Forall_app. split; [done | apply Hh].
Qed.

Lemma emitsOnly_input (m d : jsstring) (validate : jsstring -> Validation) :
  P (Prompt m d) -> (forall shown, P (PromptRejected shown)) ->
  emitsOnly P (input m d validate).
Proof.
  intros Hp Hr s. unfold input.
  assert (H : forall subs, Forall P (promptLoop d validate subs).2).
  { induction subs as [|sub subs IH]; simpl; [constructor|].
    destruct (validate _); [constructor|].
    destruct (promptLoop d validate subs) as [[r rest] ev]. simpl in *.
    by constructor. }
  specialize (H (answers s)).
  destruct (promptLoop d validate (answers s)) as [[r rest] ev]. simpl in *.
  by constructor.
Qed.

Lemma emitsOnly_doFetch (env : Env) (url : jsstring) :
  P (Fetch url) -> emitsOnly P (doFetch env url).
Proof.
  intros H. unfold doFetch. apply emitsOnly_bind; [by apply emitsOnly_emit|].
  intros _. destruct (fetch env url); [apply emitsOnly_throw | apply emitsOnly_ret].
Qed.

Lemma emitsOnly_spawn (env : Env) (cmd : jsstring) :
  P (Spawn cmd) -> emitsOnly P (spawnAndWaitClose env cmd).
Proof.
  intros H. unfold spawnAndWaitClose.
  apply emitsOnly_bind; [by apply emitsOnly_emit | intros _; apply emitsOnly_ret].
Qed.

End EmitsOnly.

(** One syntax-directed step of a proof that a computation emits only
    events that satisfy a predicate; [HP] proves the predicate for the
    events that are not configuration events. *)
Ltac emits_step HP :=
  lazymatch goal with
  | |- emitsOnly _ (mbind _ _) => apply emitsOnly_bind; [| intros ?]
  | |- emitsOnly _ (mret _) => apply emitsOnly_ret
  | |- emitsOnly _ (emit _) => apply emitsOnly_emit; apply HP; reflexivity
  | |- emitsOnly _ (exit _) => apply emitsOnly_exit
  | |- emitsOnly _ (throw _) => apply emitsOnly_throw
  | |- emitsOnly _ (liftExn _) => apply emitsOnly_liftExn
  | |- emitsOnly _ (liftOutcome _) => apply emitsOnly_liftOutcome
  | |- emitsOnly _ (existsSync _) => apply emitsOnly_existsSync
  | |- emitsOnly _ (readFileSync _) => apply emitsOnly_readFileSync
  | |- emitsOnly _ (writeFileSync _ _ _) =>
      apply emitsOnly_writeFileSync; apply HP; reflexivity
  | |- emitsOnly _ (mkdirSync _ _) => apply emitsOnly_mkdirSync; apply HP; reflexivity
  | |- emitsOnly _ (input _ _ _) =>
      apply emitsOnly_input; [| intros ?]; apply HP; reflexivity
  | |- emitsOnly _ (doFetch _ _) => apply emitsOnly_doFetch; apply HP; reflexivity
  | |- emitsOnly _ (spawnAndWaitClose _ _) =>
      apply emitsOnly_spawn; apply HP; reflexivity
  | |- emitsOnly _ (tryCatch _ _) => apply emitsOnly_tryCatch; [| intros ?]
  | |- emitsOnly _ (if ?b then _ else _) => destruct b
  | |- emitsOnly _ (match ?x with _ => _ end) => destruct x
  | |- emitsOnly _ (let _ := _ in _) => cbv zeta
  end.

Ltac emits HP := repeat emits_step HP.

Section Phases.
Context (P : Event -> Prop).
Hypothesis HP : forall e, configEvent e = false -> P e.
Variable env : Env.

Lemma ensureFolder_emits (dir : jsstring) : emitsOnly P (Init.ensureFolder env dir).
Proof using HP. unfold Init.ensureFolder. emits HP. Qed.

Lemma gitCheck_emits (flags : Flags) : emitsOnly P (Init.gitCheck env flags).
Proof using HP. unfold Init.gitCheck. emits HP. Qed.

Lemma resolveLayout_emits (flags : Flags) : emitsOnly P (Init.resolveLayout env flags).
Proof using HP.
  unfold Init.resolveLayout, Init.askComponentsFolder, Init.askUtilsFolder,
    Init.askCssLocation. emits HP.
Qed.

Lemma writeTailwindConfig_emits (stub : jsstring) :
  emitsOnly P (Init.writeTailwindConfig env stub).
Proof using HP. unfold Init.writeTailwindConfig. emits HP. Qed.

Lemma getUserAlias_emits (flags : Flags) : emitsOnly P (Init.getUserAlias env flags).
Proof using HP.
  unfold Init.getUserAlias, Init.readJson, Init.defaultCompilerOptions. emits HP.
Qed.

Lemma installDependencies_emits : emitsOnly P (Init.installDependencies env).
Proof using HP. unfold Init.installDependencies. emits HP. Qed.

Lemma fetchPrimitive_emits (uiFolder : jsstring) :
  emitsOnly P (Init.fetchPrimitive env uiFolder).
Proof using HP. unfold Init.fetchPrimitive. emits HP. Qed.

Lemma fetchClasses_emits (utilsFolder : jsstring) :
  emitsOnly P (Init.fetchClasses env utilsFolder).
Proof using HP. unfold Init.fetchClasses. emits HP. Qed.

Lemma writeProviders_emits (componentFolder : jsstring) (st : Init.Stubs) :
  emitsOnly P (Init.writeProviders env componentFolder st).
Proof using HP. unfold Init.writeProviders. emits HP. Qed.

Lemma summary_emits (l : Init.Layout) (st : Init.Stubs) :
  emitsOnly P (Init.summary env l st).
Proof using HP.
  unfold Init.summary. repeat first [apply ensureFolder_emits | emits_step HP].
Qed.

Lemma persistConfig_emits (c : Config) :
  P (CreateConfig c) -> emitsOnly P (Init.persistConfig env c).
Proof using HP.
  intros Hc. unfold Init.persistConfig.
  repeat first [apply emitsOnly_emit; exact Hc | emits_step HP].
Qed.

Lemma afterInstall_emits (l : Init.Layout) (st : Init.Stubs) (c : Config) :
  P (CreateConfig c) -> emitsOnly P (Init.afterInstall env l st c).
Proof using HP.
  intros Hc. unfold Init.afterInstall.
  repeat first
    [ apply fetchPrimitive_emits | apply fetchClasses_emits
    | apply writeProviders_emits | by apply persistConfig_emits
    | apply summary_emits | emits_step HP ].
Qed.

(** The whole command, given what the palette step emits and returns
    ([Q]) and what follows the install for such a palette. *)
Lemma init_emits (Q : option jsstring -> Prop) (flags : Flags) :
  (forall css, emitsOnly P (Init.selectGray env css flags)) ->
  (forall css, returns Q (Init.selectGray env css flags)) ->
  (forall l st g a, Q g ->
     emitsOnly P (Init.afterInstall env l st (Init.makeConfig l g a))) ->
  emitsOnly P (Init.init env flags).
Proof using HP.
  intros Hgray Hret Hafter. unfold Init.init, Init.scaffold.
  repeat first
    [ apply gitCheck_emits | apply resolveLayout_emits
    | apply writeTailwindConfig_emits | apply ensureFolder_emits
    | apply getUserAlias_emits | apply installDependencies_emits
    | lazymatch goal with
      | |- emitsOnly _ (mbind _ (Init.selectGray _ _ _)) =>
          apply (emitsOnly_bind_returns _ Q); [apply Hgray | apply Hret | intros ? ?]
      | |- emitsOnly _ (Init.afterInstall _ _ _ _) => by apply Hafter
      end
    | emits_step HP ].
Qed.

End Phases.

Lemma legacyGray_quiet (e : Event) : configEvent e = false -> legacyGray e.
Proof. by destruct e. Qed.

Lemma noConfig_quiet (e : Event) : configEvent e = false -> noConfig e.
Proof. by destruct e. Qed.

Lemma selectGray_legacy_emits (env : Env) (css : jsstring) (flags : Flags) :
  tailwindMajor env = 3%Z ->
  emitsOnly legacyGray (Init.selectGray env css flags).
Proof.
  intros Hm. unfold Init.selectGray, isTailwind. rewrite Hm.
  change (3 =? 3)%Z with true. cbv iota. emits legacyGray_quiet.
Qed.

(** In legacy mode a run never calls the palette selection, and if it
    persists a configuration, its gray is [zinc]. *)
Lemma init_legacy_gray (env : Env) (flags : Flags) :
  tailwindMajor env = 3%Z ->
  emitsOnly legacyGray (Init.init env flags).
Proof.
  intros Hm.
  apply (init_emits legacyGray legacyGray_quiet env
           (fun g => g = Some (js "zinc.css"))).
  - intros css. by apply selectGray_legacy_emits.
  - intros css. by apply selectGray_legacy_returns.
  - intros l st g a ->. by apply afterInstall_emits; [apply legacyGray_quiet|].
Qed.

Lemma selectGray_noConfig (env : Env) (css : jsstring) (flags : Flags) :
  emitsOnly noConfig (Init.selectGray env css flags).
Proof.
  unfold Init.selectGray.
  repeat first [apply emitsOnly_emit; exact I | emits_step noConfig_quiet].
Qed.

Lemma fetchPrimitive_refused_returns (env : Env) (uiFolder : jsstring) :
  primitiveRefused env ->
  returns (fun _ => False) (Init.fetchPrimitive env uiFolder).
Proof.
  unfold primitiveRefused. intros H s a.
  destruct (fetch env (primitiveUrl env)) as [e|r] eqn:E.
  - by rewrite (fetchPrimitive_rejected env uiFolder e s E).
  - by rewrite (fetchPrimitive_refused env uiFolder r s E H).
Qed.

(** When the request for the primitive component fails, no run of
    [init] persists a configuration. *)
Lemma init_primitive_refused_no_config (env : Env) (flags : Flags) :
  primitiveRefused env ->
  emitsOnly noConfig (Init.init env flags).
Proof.
  intros H.
  apply (init_emits noConfig noConfig_quiet env (fun _ => True)).
  - intros css. apply selectGray_noConfig.
  - by intros css s g _.
  - intros l st g a _. unfold Init.afterInstall.
    apply (emitsOnly_bind_returns _ (fun _ => False)).
    + apply fetchPrimitive_emits, noConfig_quiet.
    + by apply fetchPrimitive_refused_returns.
    + by intros a' [].
Qed.
(* --------------------------------------------------------------------- *)
(** ** What follows the install step *)
(* --------------------------------------------------------------------- *)

Lemma emitsOnly_unlinkSync (P : Event -> Prop) (p : jsstring) :
  P (Unlink p) -> emitsOnly P (unlinkSync p).
Proof.
  intros H s. unfold unlinkSync. destruct (files s !! p); by repeat constructor.
Qed.

(** One syntax-directed step of a proof that a computation emits only
    events that satisfy a predicate; [tac] proves the predicate for an
    event. *)
Ltac emits_by_step tac :=
  lazymatch goal with
  | |- emitsOnly _ (mbind _ _) => apply emitsOnly_bind; [| intros ?]
  | |- emitsOnly _ (mret _) => apply emitsOnly_ret
  | |- emitsOnly _ (emit _) => apply emitsOnly_emit; tac
  | |- emitsOnly _ (exit _) => apply emitsOnly_exit
  | |- emitsOnly _ (throw _) => apply emitsOnly_throw
  | |- emitsOnly _ (liftExn _) => apply emitsOnly_liftExn
  | |- emitsOnly _ (liftOutcome _) => apply emitsOnly_liftOutcome
  | |- emitsOnly _ (existsSync _) => apply emitsOnly_existsSync
  | |- emitsOnly _ (readFileSync _) => apply emitsOnly_readFileSync
  | |- emitsOnly _ (writeFileSync _ _ _) => apply emitsOnly_writeFileSync; tac
  | |- emitsOnly _ (mkdirSync _ _) => apply emitsOnly_mkdirSync; tac
  | |- emitsOnly _ (unlinkSync _) => apply emitsOnly_unlinkSync; tac
  | |- emitsOnly _ (input _ _ _) => apply emitsOnly_input; [| intros ?]; tac
  | |- emitsOnly _ (doFetch _ _) => apply emitsOnly_doFetch; tac
  | |- emitsOnly _ (spawnAndWaitClose _ _) => apply emitsOnly_spawn; tac
  | |- emitsOnly _ (tryCatch _ _) => apply emitsOnly_tryCatch; [| intros ?]
  | |- emitsOnly _ (if ?b then _ else _) => destruct b
  | |- emitsOnly _ (match ?x with _ => _ end) => destruct x
  | |- emitsOnly _ (let _ := _ in _) => cbv zeta
  end.

Ltac emits_by tac := repeat emits_by_step tac.

Lemma normalize_nonempty (p : jsstring) : eqb (Path.normalize p) [] = false.
Proof.
  destruct p as [|c p]; [done|]. unfold Path.normalize. cbv zeta.
  destruct (Path.normalizeString (c :: p) _) as [|k q];
    by destruct (c =? Path.slash)%N, (endsWith (c :: p) [Path.slash]).
Qed.

(** [path.join] never returns the empty string. *)
Lemma join_nonempty (args : list jsstring) : eqb (Path.join args) [] = false.
Proof.
  unfold Path.join. destruct (filter _ args); [done | apply normalize_nonempty].
Qed.

Lemma selectStubs_nonempty (env : Env) :
  eqb (Init.themeProvider (Init.selectStubs env)) [] = false
  /\ eqb (Init.providers (Init.selectStubs env)) [] = false.
Proof.
  unfold Init.selectStubs, Init.stub.
  by destruct (isNextJs env && hasFolder env (js "src")),
    (isNextJs env && negb (hasFolder env (js "src"))), (isLaravel env), (isRemix env);
    split; apply join_nonempty.
Qed.


Lemma bind_ended_inv {A B} (m : M A) (k : A -> M B) (s : State) :
  ended ((m ≫= k) s) ->
  exists a, outcome (m s) = Ok a /\ ended (k a (final (m s)))
    /\ emitted ((m ≫= k) s) = emitted (m s) ++ emitted (k a (final (m s))).
Proof.
  unfold ended, mbind, M_bind, bind.
  destruct (outcome (m s)) as [a| | |]; simpl; try (by intros [? ?]).
  intros H. by exists a.
Qed.

Lemma bind_emitted_head {A B} (m : M A) (k : A -> M B) (s : State) (e : Event) :
  (exists rest, emitted (m s) = e :: rest) ->
  exists rest, emitted ((m ≫= k) s) = e :: rest.
Proof.
  intros [rest H]. unfold mbind, M_bind, bind.
  destruct (outcome (m s)); simpl; rewrite H; simpl; eauto.
Qed.

Lemma noSpawn_spawned (evs : list Event) : Forall noSpawn evs -> ~ spawned evs.
Proof.
  intros H [cmd Hin]. rewrite List.Forall_forall in H. exact (H _ Hin).
Qed.

(** A step that starts no process does not count. *)
Lemma afterSpawn_quiet {A} (need : bool) (T : list Event -> Prop) (m : M A) :
  emitsOnly noSpawn m -> forall s, afterSpawn need T (m s).
Proof. intros H s _ Hs. by destruct (noSpawn_spawned _ (H s)). Qed.

Lemma afterSpawn_bind {A B} (need : bool) (T : list Event -> Prop)
    (m : M A) (k : A -> M B) :
  (forall ev evs, T evs -> T (ev ++ evs)) ->
  emitsOnly noSpawn m -> (forall a s, afterSpawn need T (k a s)) ->
  forall s, afterSpawn need T ((m ≫= k) s).
Proof.
  intros Hpre Hm Hk s Hend Hsp. specialize (Hm s).
  revert Hend Hsp. unfold mbind, M_bind, bind, ended.
  destruct (outcome (m s)) as [a| | |]; simpl;
    try (intros _ Hsp; by destruct (noSpawn_spawned _ Hm)).
  intros Hend [cmd Hin]. apply Hpre, Hk; [exact Hend|].
  apply in_app_or in Hin as [Hin|Hin]; [|by exists cmd].
  destruct (noSpawn_spawned _ Hm). by exists cmd.
Qed.

Lemma fetchFollows_prefix (cmd url : jsstring) (ev evs : list Event) :
  fetchFollows cmd url evs -> fetchFollows cmd url (ev ++ evs).
Proof.
  intros (pre & post & ->). exists (ev ++ pre), post. by rewrite <- app_assoc.
Qed.

Lemma assetsFollow_prefix (env : Env) (ev evs : list Event) :
  assetsFollow env evs -> assetsFollow env (ev ++ evs).
Proof.
  intros (pre & l & g & a & content & classes & theme & providers & post & ->).
  exists (ev ++ pre), l, g, a, content, classes, theme, providers, post.
  by rewrite <- app_assoc.
Qed.

Lemma legacyAssetsFollow_prefix (env : Env) (ev evs : list Event) :
  legacyAssetsFollow env evs -> legacyAssetsFollow env (ev ++ evs).
Proof.
  intros (pre & l & body & mid & post & ->).
  exists (ev ++ pre), l, body, mid, post. by rewrite <- app_assoc.
Qed.

(** *** The steps of the current [init] after the install *)

Lemma fetchPrimitive_head (env : Env) (uiFolder : jsstring) (s : State) :
  exists rest, emitted (Init.fetchPrimitive env uiFolder s)
               = Fetch (primitiveUrl env) :: rest.
Proof.
  unfold Init.fetchPrimitive. rewrite component_url_shape.
  apply bind_emitted_head. unfold doFetch. apply bind_emitted_head. by exists [].
Qed.

Lemma afterInstall_head (env : Env) (l : Init.Layout) (st : Init.Stubs)
    (c : Config) (s : State) :
  exists rest, emitted (Init.afterInstall env l st c s)
               = Fetch (primitiveUrl env) :: rest.
Proof. unfold Init.afterInstall. apply bind_emitted_head, fetchPrimitive_head. Qed.

Lemma fetchPrimitive_ended (env : Env) (uiFolder : jsstring) (s : State) :
  ended (Init.fetchPrimitive env uiFolder s) ->
  exists content,
    emitted (Init.fetchPrimitive env uiFolder s)
    = [Fetch (primitiveUrl env);
       WriteFile (Path.join [uiFolder; js "primitive.tsx"]) content;
       WriteFile (Path.join [uiFolder; js "index.ts"])
         (js "export * from './primitive';")].
Proof.
  unfold Init.fetchPrimitive. rewrite component_url_shape.
  fold (primitiveUrl env).
  destruct (fetch env (primitiveUrl env)) as [e|r] eqn:Ef.
  - rewrite (run_bind_throw _ _ _ _ _ _ (doFetch_rejected _ _ _ _ Ef)).
    by intros [? ?].
  - rewrite (run_bind_ok _ _ _ _ _ _ (doFetch_resolved _ _ _ _ Ef)).
    destruct (ok r); cbn [negb]; cbv iota zeta; [|by intros [? ?]].
    unfold mbind, M_bind, bind, writeFileSync, ended.
    destruct (writeError env (Path.join [uiFolder; js "primitive.tsx"]));
      simpl; [by intros [? ?]|].
    destruct (writeError env (Path.join [uiFolder; js "index.ts"]));
      simpl; [by intros [? ?]|].
    intros _. by eexists.
Qed.

Lemma fetchClasses_ended (env : Env) (utilsFolder : jsstring) (s : State) :
  ended (Init.fetchClasses env utilsFolder s) ->
  exists classes,
    emitted (Init.fetchClasses env utilsFolder s)
    = [Fetch (classesUrl env);
       WriteFile (Path.join [utilsFolder; js "classes.ts"]) classes].
Proof.
  unfold Init.fetchClasses. rewrite utils_url_shape.
  fold (classesUrl env).
  destruct (fetch env (classesUrl env)) as [e|r] eqn:Ef.
  - rewrite (run_bind_throw _ _ _ _ _ _ (doFetch_rejected _ _ _ _ Ef)).
    by intros [? ?].
  - rewrite (run_bind_ok _ _ _ _ _ _ (doFetch_resolved _ _ _ _ Ef)).
    cbv zeta. unfold writeFileSync, ended.
    destruct (writeError env (Path.join [utilsFolder; js "classes.ts"]));
      simpl; [by intros [? ?]|].
    intros _. by eexists.
Qed.

Lemma writeProviders_ended (env : Env) (componentFolder : jsstring) (s : State) :
  ended (Init.writeProviders env componentFolder (Init.selectStubs env) s) ->
  exists theme providers,
    emitted (Init.writeProviders env componentFolder (Init.selectStubs env) s)
    = [WriteFile (Path.join [componentFolder; js "theme-provider.tsx"]) theme;
       WriteFile (Path.join [componentFolder; js "providers.tsx"]) providers].
Proof.
  unfold Init.writeProviders.
  destruct (selectStubs_nonempty env) as [-> ->]. cbn [negb]. cbv iota.
  unfold mbind, M_bind, bind, readFileSync, writeFileSync, ended.
  destruct (files s !! Init.themeProvider (Init.selectStubs env)) as [theme|];
    simpl; [|by intros [? ?]].
  destruct (writeError env (Path.join [componentFolder; js "theme-provider.tsx"]));
    simpl; [by intros [? ?]|].
  destruct (_ !! Init.providers (Init.selectStubs env)) as [providers|];
    simpl; [|by intros [? ?]].
  destruct (writeError env (Path.join [componentFolder; js "providers.tsx"]));
    simpl; [by intros [? ?]|].
  intros _. by eexists _, _.
Qed.

Lemma persistConfig_ended (env : Env) (c : Config) (s : State) :
  ended (Init.persistConfig env c s) ->
  emitted (Init.persistConfig env c s) = [CreateConfig c].
Proof.
  unfold Init.persistConfig, tryCatch, mbind, M_bind, bind, ended. simpl.
  by destruct (createConfig env c); simpl; [intros [? ?]|].
Qed.

(** Whatever the state, the install step is followed by the request
    for the component. *)
Lemma install_then_fetch (env : Env) (l : Init.Layout) (st : Init.Stubs)
    (c : Config) (s : State) :
  fetchFollows (Init.installCommand env) (primitiveUrl env)
    (emitted ((Init.installDependencies env;; Init.afterInstall env l st c) s)).
Proof.
  rewrite (run_bind_ok _ _ _ _ _ _ (installDependencies_run env s)). simpl.
  destruct (afterInstall_head env l st c s) as [rest ->].
  by exists [Spinner (SpinStart (js "Installing dependencies."))], rest.
Qed.

(** When the run returns, the install step was followed by both
    downloads, the five file writes and the call of the configuration
    manager. *)
Lemma install_then_assets (env : Env) (l : Init.Layout) (g : option jsstring)
    (a : jsstring) (s : State) :
  ended ((Init.installDependencies env;;
          Init.afterInstall env l (Init.selectStubs env) (Init.makeConfig l g a)) s) ->
  assetsFollow env
    (emitted ((Init.installDependencies env;;
               Init.afterInstall env l (Init.selectStubs env)
                 (Init.makeConfig l g a)) s)).
Proof.
  intros H.
  apply bind_ended_inv in H as ([] & _ & H & ->).
  rewrite (installDependencies_run env s) in *. cbn [final emitted] in *.
  unfold Init.afterInstall in *.
  apply bind_ended_inv in H as (u1 & H1 & H & ->).
  destruct (fetchPrimitive_ended env _ s (ex_intro _ u1 H1)) as [content ->].
  apply bind_ended_inv in H as (u2 & H2 & H & ->).
  destruct (fetchClasses_ended env _ _ (ex_intro _ u2 H2)) as [classes ->].
  apply bind_ended_inv in H as (u3 & H3 & H & ->).
  destruct (writeProviders_ended env _ _ (ex_intro _ u3 H3)) as (theme & providers & ->).
  apply bind_ended_inv in H as (u4 & H4 & H & ->).
  rewrite (persistConfig_ended _ _ _ (ex_intro _ u4 H4)).
  exists [Spinner (SpinStart (js "Installing dependencies."))], l, g, a,
    content, classes, theme, providers.
  eexists. reflexivity.
Qed.

(** Every run of the current [init] in which a process was started. *)
Lemma init_afterSpawn (env : Env) (need : bool) (T : list Event -> Prop) :
  (forall ev evs, T evs -> T (ev ++ evs)) ->
  (forall l g a s,
     afterSpawn need T
       ((Init.installDependencies env;;
         Init.afterInstall env l (Init.selectStubs env) (Init.makeConfig l g a)) s)) ->
  forall flags s, afterSpawn need T (Init.init env flags s).
Proof.
  intros Hpre Htail flags. unfold Init.init, Init.scaffold.
  destruct (negb (isProjectExists env));
    [apply afterSpawn_quiet; emits_by ltac:(exact I) |].
  apply afterSpawn_bind;
    [done | unfold Init.gitCheck; emits_by ltac:(exact I) | intros _].
  apply afterSpawn_bind; [done | emits_by ltac:(exact I) | intros _].
  destruct (negb (isTailwindInstalled env));
    [apply afterSpawn_quiet; emits_by ltac:(exact I) |].
  do 3 (apply afterSpawn_bind; [done | emits_by ltac:(exact I) | intros _]).
  apply afterSpawn_bind;
    [done
    | unfold Init.resolveLayout, Init.askComponentsFolder, Init.askUtilsFolder,
        Init.askCssLocation; emits_by ltac:(exact I)
    | intros l].
  cbv zeta.
  apply afterSpawn_bind;
    [done | unfold Init.writeTailwindConfig; emits_by ltac:(exact I) | intros _].
  do 2 (apply afterSpawn_bind;
    [done | unfold Init.ensureFolder; emits_by ltac:(exact I) | intros _]).
  apply afterSpawn_bind;
    [done
    | unfold Init.getUserAlias, Init.readJson, Init.defaultCompilerOptions;
      emits_by ltac:(exact I)
    | intros currentAlias].
  apply afterSpawn_bind;
    [done | unfold Init.selectGray; emits_by ltac:(exact I) | intros selectedGray].
  apply Htail.
Qed.

(** *** The steps of the older [init] after the install *)

Lemma legacy_fetchPrimitive_head (env : Env) (uiFolder : jsstring) (s : State) :
  exists rest, emitted (LegacyInit.fetchPrimitive env uiFolder s)
               = Fetch (primitiveUrl env) :: rest.
Proof.
  unfold LegacyInit.fetchPrimitive. rewrite component_url_shape.
  apply bind_emitted_head. unfold doFetch. apply bind_emitted_head. by exists [].
Qed.

Lemma legacy_fetchPrimitive_ended (env : Env) (uiFolder : jsstring) (s : State) :
  ended (LegacyInit.fetchPrimitive env uiFolder s) ->
  exists body,
    emitted (LegacyInit.fetchPrimitive env uiFolder s)
    = [Fetch (primitiveUrl env);
       WriteFile (Path.join [uiFolder; js "primitive.tsx"]) body;
       Spinner (SpinSucceed (js "primitive.tsx file copied to " ++ uiFolder))].
Proof.
  unfold LegacyInit.fetchPrimitive. rewrite component_url_shape.
  fold (primitiveUrl env).
  destruct (fetch env (primitiveUrl env)) as [e|r] eqn:Ef.
  - rewrite (run_bind_throw _ _ _ _ _ _ (doFetch_rejected _ _ _ _ Ef)).
    by intros [? ?].
  - rewrite (run_bind_ok _ _ _ _ _ _ (doFetch_resolved _ _ _ _ Ef)).
    cbv zeta. unfold mbind, M_bind, bind, writeFileSync, ended.
    destruct (writeError env (Path.join [uiFolder; js "primitive.tsx"]));
      simpl; [by intros [? ?]|].
    intros _. by eexists.
Qed.

Lemma legacy_saveConfig_ended (env : Env) (l : LegacyInit.Layout) (s : State) :
  ended (LegacyInit.saveConfig env l s) ->
  exists removed,
    emitted (LegacyInit.saveConfig env l s) = removed ++ legacyConfigWritten env l.
Proof.
  intros H. unfold LegacyInit.saveConfig in *.
  apply bind_ended_inv in H as (stale & _ & H & ->).
  apply bind_ended_inv in H as (u & _ & H & ->).
  cbv zeta in *.
  apply bind_ended_inv in H as (u' & Hw & _ & ->).
  revert Hw. unfold writeFileSync.
  destruct (writeError env (js "justd.json")); [done|]. intros _.
  eexists (_ ++ _). rewrite <- app_assoc. reflexivity.
Qed.

Lemma legacy_install_then_fetch (env : Env) (l : LegacyInit.Layout) (s : State) :
  fetchFollows (LegacyInit.installCommand env) (primitiveUrl env)
    (emitted ((LegacyInit.installDependencies env;; LegacyInit.afterInstall env l) s)).
Proof.
  rewrite (run_bind_ok _ _ _ _ _ _ (legacy_installDependencies_run env s)). simpl.
  unfold LegacyInit.afterInstall.
  destruct (bind_emitted_head _ (fun _ => LegacyInit.writeProviders env l;;
                                          LegacyInit.saveConfig env l;;
                                          LegacyInit.farewell env) s _
              (legacy_fetchPrimitive_head env (LegacyInit.uiFolder l) s))
    as [rest ->].
  by exists [Spinner (SpinInfo (js "Installing dependencies..."))], rest.
Qed.

Lemma legacy_install_then_assets (env : Env) (l : LegacyInit.Layout) (s : State) :
  ended ((LegacyInit.installDependencies env;; LegacyInit.afterInstall env l) s) ->
  legacyAssetsFollow env
    (emitted ((LegacyInit.installDependencies env;; LegacyInit.afterInstall env l) s)).
Proof.
  intros H.
  apply bind_ended_inv in H as ([] & _ & H & ->).
  rewrite (legacy_installDependencies_run env s) in *. cbn [final emitted] in *.
  unfold LegacyInit.afterInstall in *.
  apply bind_ended_inv in H as (u1 & H1 & H & ->).
  destruct (legacy_fetchPrimitive_ended env _ s (ex_intro _ u1 H1)) as [body ->].
  apply bind_ended_inv in H as (u2 & H2 & H & ->).
  apply bind_ended_inv in H as (u3 & H3 & H & ->).
  destruct (legacy_saveConfig_ended env l _ (ex_intro _ u3 H3)) as [removed ->].
  set (copied := emitted (LegacyInit.writeProviders env l _)).
  set (closing := emitted (LegacyInit.farewell env _)).
  exists [Spinner (SpinInfo (js "Installing dependencies..."))], l, body,
    (copied ++ removed), closing.
  unfold legacyInstalledAssets. cbn [app]. by rewrite <- !app_assoc.
Qed.

(** Every run of the older [init] in which a process was started. *)
Lemma legacy_init_afterSpawn (env : Env) (need : bool) (T : list Event -> Prop) :
  (forall ev evs, T evs -> T (ev ++ evs)) ->
  (forall l s,
     afterSpawn need T
       ((LegacyInit.installDependencies env;; LegacyInit.afterInstall env l) s)) ->
  forall s, afterSpawn need T (LegacyInit.init env s).
Proof.
  intros Hpre Htail. unfold LegacyInit.init, LegacyInit.scaffold.
  apply afterSpawn_bind; [done | emits_by ltac:(exact I) | intros configJsExists].
  apply afterSpawn_bind; [done | emits_by ltac:(exact I) | intros configTsExists].
  destruct (negb configJsExists && negb configTsExists);
    [apply afterSpawn_quiet; emits_by ltac:(exact I) |].
  apply afterSpawn_bind;
    [done | unfold LegacyInit.select; emits_by ltac:(exact I) | intros projectType].
  apply afterSpawn_bind;
    [done
    | unfold LegacyInit.resolveLayout, LegacyInit.select; emits_by ltac:(exact I)
    | intros l].
  apply afterSpawn_bind; [done | emits_by ltac:(exact I) | intros _].
  apply afterSpawn_bind;
    [done | unfold LegacyInit.placeCss; emits_by ltac:(exact I) | intros _].
  apply afterSpawn_bind; [done | emits_by ltac:(exact I) | intros jsExists].
  cbv zeta.
  apply afterSpawn_bind; [done | emits_by ltac:(exact I) | intros sourceExists].
  destruct (negb sourceExists);
    [apply afterSpawn_quiet; emits_by ltac:(exact I) |].
  apply afterSpawn_bind; [done | emits_by ltac:(exact I) | intros _].
  apply Htail.
Qed.

(* ===================================================================== *)
(** * The claims of the specification *)
(* ===================================================================== *)

(** C1 (the code departs from the claim).  [init --yes] on a Next.js
    project whose server answers the request for [utils/classes.ts] with
    [404 Not Found]: the run is not aborted; the body of the error
    response is written as [src/utils/classes.ts], the configuration is
    handed to [configManager.createConfig] and the run completes. *)
Theorem init_classes_404_not_fatal :
  let env := Sample.project 4 false Sample.fetchClasses404 0 in
  let run := Init.init env Sample.flagsYes (Sample.host []) in
  fetch env (classesUrl env)
    = FetchResolved {| status := 404; statusText := js "Not Found";
                       body := js "404: Not Found" |}
  /\ outcome run = Ok tt
  /\ In (WriteFile (js "src/utils/classes.ts") (js "404: Not Found")) (emitted run)
  /\ files (final run) !! js "src/utils/classes.ts" = Some (js "404: Not Found")
  /\ In (CreateConfig
           {| schema := js "https://getjustd.com/schema.json";
              ui := js "src/components/ui";
              utils := js "src/utils";
              gray := Some (js "slate");
              css := js "src/app/globals.css";
              alias := Some (js "@") |}) (emitted run).
Proof.
  vm_compute. repeat split.
  - repeat first [left; reflexivity | right].
  - repeat first [left; reflexivity | right].
Qed.

(** The sibling request does abort: with [404 Not Found] for the
    primitive component the run throws with the status text before it
    writes the component or persists the configuration. *)
Example init_primitive_404_aborts :
  let run := Init.init (Sample.project 4 false Sample.fetchPrimitive404 0)
               Sample.flagsYes (Sample.host []) in
  outcome run = Throw (Error (js "Failed to fetch component: Not Found"))
  /\ List.filter (fun e => match e with
                           | Fetch _ | CreateConfig _ => true
                           | WriteFile p _ => endsWith p (js "primitive.tsx")
                           | _ => false
                           end) (emitted run)
     = [Fetch (js "https://raw.githubusercontent.com/irsyadadl/justd/2.x/components/ui/primitive.tsx")].
Proof. split; vm_compute; reflexivity. Qed.

(** C2.  In the older variant, for each framework of the default-path
    table (Next.js with [src], Next.js without, Laravel, Vite, other),
    choosing it and accepting the defaults of the prompts resolves the
    components folder and the CSS file of the table. *)
Theorem legacy_layout_defaults (env : Env) (f : Spec.Framework) (s : State)
    (rest : list (option jsstring)) :
  Spec.chosen env f ->
  answers s = None :: None :: rest ->
  exists l,
    outcome (LegacyInit.resolveLayout env (selectProjectType env) s) = Ok l
    /\ LegacyInit.componentsFolder l = Spec.defaultComponentsFolder f
    /\ LegacyInit.cssLocation l = Spec.defaultCssFilePath f.
Proof.
  intros Hf Ha. destruct f; simpl in Hf.
  - destruct Hf as [-> Hs]. simpl. rewrite Hs. eexists; split; [reflexivity|]. by split.
  - destruct Hf as [-> Hs]. simpl. rewrite Hs. eexists; split; [reflexivity|]. by split.
  - rewrite Hf. simpl. eexists; split; [reflexivity|]. by split.
  - rewrite Hf. simpl. eexists; split; [reflexivity|]. by split.
  - rewrite Hf. unfold LegacyInit.resolveLayout, input, mbind, M_bind, bind.
    rewrite Ha. simpl. eexists; split; [reflexivity|]. by split.
Qed.

Lemma legacy_layout_defaults_witness :
  exists l,
    outcome (LegacyInit.resolveLayout (Sample.project 3 false Sample.fetchOk 0)
               NextJsProject (Sample.host [None; None])) = Ok l
    /\ LegacyInit.componentsFolder l = js "src/components"
    /\ LegacyInit.cssLocation l = js "src/app/globals.css".
Proof.
  apply (legacy_layout_defaults (Sample.project 3 false Sample.fetchOk 0)
           Spec.NextSrc (Sample.host [None; None]) []).
  - split; reflexivity.
  - reflexivity.
Defined.

(** C3, as stated, fails: a component name that holds ["refs/heads/"]
    yields a component URL that holds it. *)
Lemma component_url_counterexample :
  Repo.getRepoUrlForComponent (Repo.branchWorkingOn false) (js "refs/heads/x")
  = Some (js "https://raw.githubusercontent.com/irsyadadl/justd/2.x/components/ui/refs/heads/x.tsx")
  /\ includes
       (js "https://raw.githubusercontent.com/irsyadadl/justd/2.x/components/ui/refs/heads/x.tsx")
       (js "refs/heads/") = true.
Proof. split; reflexivity. Qed.

(** C3, amended.  With either branch the module computes, the component
    URL is [base/{branch}/components/ui/{name}.tsx] and holds
    ["refs/heads/"] exactly when the component name does; for every
    branch, the utilities URL and every theme URL that is returned hold
    ["refs/heads/{branch}/"], and no theme URL is returned for a gray
    outside the available ones. *)
Theorem remote_urls_refs_heads (isTailwind3 : bool) (BRANCH name file gray : jsstring)
    (availablesGrays : list jsstring) :
  (exists url,
     Repo.getRepoUrlForComponent (Repo.branchWorkingOn isTailwind3) name = Some url
     /\ url = Repo.REPO ++ js "/" ++ Repo.branchWorkingOn isTailwind3
                ++ js "/components/ui/" ++ name ++ js ".tsx"
     /\ includes url (js "refs/heads/") = includes name (js "refs/heads/"))
  /\ (exists url,
        Repo.getUtilsFolder BRANCH file = Some url
        /\ includes url (js "refs/heads/" ++ BRANCH ++ js "/") = true)
  /\ match Repo.getThemesRepoUrl BRANCH availablesGrays gray with
     | Repo.ThemeUrlOk url =>
         includes url (js "refs/heads/" ++ BRANCH ++ js "/") = true
     | Repo.ThemeExit _ code =>
         arrayIncludes availablesGrays gray = false /\ code = 1%Z
     end.
Proof.
  split; [|split].
  - eexists. split; [apply component_url_shape|]. split; [reflexivity|].
    apply component_url_refs_heads.
  - eexists. split; [apply utils_url_shape|]. apply utils_url_refs_heads.
  - unfold Repo.getThemesRepoUrl.
    destruct (arrayIncludes availablesGrays gray); simpl; [|done].
    apply theme_url_refs_heads.
Qed.




(** C5, as stated, fails: [init --yes] in legacy mode (Tailwind 3) on a
    project that has neither [tailwind.config.js] nor
    [tailwind.config.ts] writes the stub to [tailwind.config.ts] and
    runs to completion. *)
Lemma init_without_tailwind_config_counterexample :
  let env := Sample.project 3 false Sample.fetchOk 0 in
  let run := Init.init env Sample.flagsYes (Sample.host []) in
  absent (Sample.host []) (js "tailwind.config.js")
  /\ absent (Sample.host []) (js "tailwind.config.ts")
  /\ outcome run = Ok tt
  /\ In (WriteFile (js "tailwind.config.ts") (js "/* tailwind */")) (emitted run).
Proof.
  repeat split; try (vm_compute; reflexivity); try apply not_elem_of_empty.
  vm_compute. repeat first [left; reflexivity | right].
Qed.

(** C5, amended.  When neither [tailwind.config.js] nor
    [tailwind.config.ts] exists, the older variant of [init] reports it
    and returns before it asks, writes or installs anything; the current
    [init] in legacy mode (Tailwind 3) copies the stub to
    [tailwind.config.ts] and goes on. *)
Theorem tailwind_config_missing (env : Env) (s : State) (stub content : jsstring) :
  absent s (js "tailwind.config.js") ->
  absent s (js "tailwind.config.ts") ->
  tailwindMajor env = 3%Z ->
  files s !! stub = Some content ->
  writeError env (js "tailwind.config.ts") = None ->
  LegacyInit.init env s
  = {| outcome := Ok tt; final := s;
       emitted := [Log ConsoleError
         [js "No Tailwind configuration file found. Please ensure tailwind.config.ts or tailwind.config.js exists in the root directory."]] |}
  /\ Init.writeTailwindConfig env stub s
     = {| outcome := Ok tt;
          final := written s (js "tailwind.config.ts") content;
          emitted := [WriteFile (js "tailwind.config.ts") content] |}.
Proof.
  intros Hj Ht Hm Hs Hw. split.
  - by apply legacy_init_without_config.
  - by apply writeTailwindConfig_fallback.
Qed.

Lemma tailwind_config_missing_witness :
  LegacyInit.init (Sample.project 3 false Sample.fetchOk 0) (Sample.host [])
  = {| outcome := Ok tt; final := Sample.host [];
       emitted := [Log ConsoleError
         [js "No Tailwind configuration file found. Please ensure tailwind.config.ts or tailwind.config.js exists in the root directory."]] |}
  /\ Init.writeTailwindConfig (Sample.project 3 false Sample.fetchOk 0)
       (js "/cli/src/resources/stubs/1.x/tailwind.config.src.next.stub")
       (Sample.host [])
     = {| outcome := Ok tt;
          final := written (Sample.host []) (js "tailwind.config.ts") (js "/* tailwind */");
          emitted := [WriteFile (js "tailwind.config.ts") (js "/* tailwind */")] |}.
Proof.
  apply (tailwind_config_missing (Sample.project 3 false Sample.fetchOk 0)
           (Sample.host [])
           (js "/cli/src/resources/stubs/1.x/tailwind.config.src.next.stub")
           (js "/* tailwind */")).
  - split; [vm_compute; reflexivity | apply not_elem_of_empty].
  - split; [vm_compute; reflexivity | apply not_elem_of_empty].
  - reflexivity.
  - vm_compute; reflexivity.
  - reflexivity.
Defined.



(** The two prompts of the older variant have no validator: a blank
    components folder is taken as it is. *)
Example legacy_prompt_takes_blank :
  let l := outcome (LegacyInit.resolveLayout (Sample.project 3 false Sample.fetchOk 0)
                      OtherProject (Sample.host [Some (js "  "); None])) in
  l = Ok {| LegacyInit.componentsFolder := js "  ";
            LegacyInit.uiFolder := js "  /ui";
            LegacyInit.cssLocation := js "styles/app.css";
            LegacyInit.configSourcePath :=
              js "/cli/src/resources/stubs/next/tailwind.config.next.stub";
            LegacyInit.themeProvider :=
              js "/cli/src/resources/stubs/next/theme-provider.stub";
            LegacyInit.providers :=
              Some (js "/cli/src/resources/stubs/next/providers.stub") |}.
Proof. vm_compute. reflexivity. Qed.



(** C8.  On an existing project with uncommitted changes: without the
    force flag [init] reports the dirty tree (an error and a hint at
    [--force]) and exits with status 1 before anything else happens;
    with the force flag the check does nothing and the run is the run on
    a clean tree. *)
Theorem init_git_gate (env : Env) (y : bool) (s : State) :
  isProjectExists env = true ->
  isRepoDirty env = true ->
  Init.init env {| force := false; yes := y |} s
  = {| outcome := Exit 1; final := s;
       emitted :=
         [Spinner (SpinStart (js "Checking."));
          Spinner SpinStop;
          Log LogError
            [js "Git directory is not clean. Please stash or commit your changes before running the init command."];
          Log LogInfo
            [js "You may use the " ++ highlight env (js "--force")
               ++ js " flag to silence this warning and perform the initialization anyway."]] |}
  /\ Init.gitCheck env {| force := true; yes := y |} s
     = {| outcome := Ok tt; final := s; emitted := [] |}
  /\ Init.init env {| force := true; yes := y |}
     = Init.init (withRepoDirty false env) {| force := true; yes := y |}.
Proof.
  intros Hp Hd. split; [|split].
  - by apply init_dirty_tree.
  - apply gitCheck_forced.
  - symmetry. apply init_force_ignores_dirty_tree.
Qed.

Lemma init_git_gate_witness :
  outcome (Init.init (Sample.project 4 true Sample.fetchOk 0)
             {| force := false; yes := true |} (Sample.host [])) = Exit 1.
Proof.
  rewrite (proj1 (init_git_gate (Sample.project 4 true Sample.fetchOk 0) true
                    (Sample.host []) eq_refl eq_refl)).
  reflexivity.
Defined.

(** C9.  In every layout that either variant of [init] resolves, from
    the defaults or from the answers to the prompts, the UI folder is the
    components folder joined with [ui]; the configuration records that
    UI folder. *)
Theorem ui_folder_is_components_ui (env : Env) (flags : Flags)
    (projectType : ProjectType) (s s' : State)
    (l : Init.Layout) (l' : LegacyInit.Layout)
    (selectedGray : option jsstring) (currentAlias : jsstring) :
  outcome (Init.resolveLayout env flags s) = Ok l ->
  outcome (LegacyInit.resolveLayout env projectType s') = Ok l' ->
  Init.uiFolder l = Path.join [Init.componentFolder l; js "ui"]
  /\ LegacyInit.uiFolder l' = Path.join [LegacyInit.componentsFolder l'; js "ui"]
  /\ ui (Init.makeConfig l selectedGray currentAlias) = Init.uiFolder l.
Proof.
  intros H H'. split; [|split].
  - by eapply resolveLayout_ui.
  - by eapply legacy_resolveLayout_ui.
  - reflexivity.
Qed.

Lemma ui_folder_is_components_ui_witness :
  Path.join [js "lib/components/"; js "ui"] = js "lib/components/ui".
Proof.
  pose proof (ui_folder_is_components_ui
    (Sample.project 4 false Sample.fetchOk 0) Sample.flagsNone OtherProject
    (Sample.host [Some (js "lib/components/"); None; None])
    (Sample.host [None; None])
    {| Init.componentFolder := js "lib/components/";
       Init.uiFolder := js "lib/components/ui";
       Init.utilsFolder := js "src/utils";
       Init.cssLocation := js "src/app/globals.css" |}
    {| LegacyInit.componentsFolder := js "components";
       LegacyInit.uiFolder := js "components/ui";
       LegacyInit.cssLocation := js "styles/app.css";
       LegacyInit.configSourcePath := js "/cli/src/resources/stubs/next/tailwind.config.next.stub";
       LegacyInit.themeProvider := js "/cli/src/resources/stubs/next/theme-provider.stub";
       LegacyInit.providers := Some (js "/cli/src/resources/stubs/next/providers.stub") |}
    None (js "@")) as H.
  destruct H as (H & _ & _).
  - vm_compute; reflexivity.
  - vm_compute; reflexivity.
  - symmetry. exact H.
Defined.

(** C10.  In both variants of [init] the exit code of the install is
    read by nobody: for every exit code the install step ends normally
    with the same events, and the whole run is the same.  What follows
    the install is the rest of the command.  In every run in which a
    process was started, the start of the install command is directly
    followed by the request for the primitive component; and when such a
    run returns, it is followed by both downloads, the file writes and
    the call of the configuration manager (in the older variant: by the
    download, the write of the component and the write of
    [justd.json]). *)
Theorem install_exit_code_ignored (env : Env) (codes : jsstring -> Z)
    (flags : Flags) (s : State) :
  Init.installDependencies (withSpawnExitCode codes env) s
  = {| outcome := Ok tt; final := s;
       emitted := [Spinner (SpinStart (js "Installing dependencies."));
                   Spawn (Init.installCommand env)] |}
  /\ LegacyInit.installDependencies (withSpawnExitCode codes env) s
     = {| outcome := Ok tt; final := s;
          emitted := [Spinner (SpinInfo (js "Installing dependencies..."));
                      Spawn (LegacyInit.installCommand env)] |}
  /\ Init.init (withSpawnExitCode codes env) flags = Init.init env flags
  /\ LegacyInit.init (withSpawnExitCode codes env) = LegacyInit.init env
  /\ (spawned (emitted (Init.init (withSpawnExitCode codes env) flags s)) ->
      fetchFollows (Init.installCommand env) (primitiveUrl env)
        (emitted (Init.init (withSpawnExitCode codes env) flags s)))
  /\ (spawned (emitted (LegacyInit.init (withSpawnExitCode codes env) s)) ->
      fetchFollows (LegacyInit.installCommand env) (primitiveUrl env)
        (emitted (LegacyInit.init (withSpawnExitCode codes env) s)))
  /\ (outcome (Init.init (withSpawnExitCode codes env) flags s) = Ok tt ->
      spawned (emitted (Init.init (withSpawnExitCode codes env) flags s)) ->
      assetsFollow env (emitted (Init.init (withSpawnExitCode codes env) flags s)))
  /\ (outcome (LegacyInit.init (withSpawnExitCode codes env) s) = Ok tt ->
      spawned (emitted (LegacyInit.init (withSpawnExitCode codes env) s)) ->
      legacyAssetsFollow env
        (emitted (LegacyInit.init (withSpawnExitCode codes env) s))).
Proof.
  rewrite init_ignores_exit_code, legacy_init_ignores_exit_code.
  repeat split.
  - intros Hs.
    apply (init_afterSpawn env false
             (fetchFollows (Init.installCommand env) (primitiveUrl env)));
      [apply fetchFollows_prefix | | done | exact Hs].
    intros l g a s' _ _. apply install_then_fetch.
  - intros Hs.
    apply (legacy_init_afterSpawn env false
             (fetchFollows (LegacyInit.installCommand env) (primitiveUrl env)));
      [apply fetchFollows_prefix | | done | exact Hs].
    intros l s' _ _. apply legacy_install_then_fetch.
  - intros Hok Hs.
    apply (init_afterSpawn env true (assetsFollow env));
      [apply assetsFollow_prefix | | by exists tt | exact Hs].
    intros l g a s' He _. by apply install_then_assets, He.
  - intros Hok Hs.
    apply (legacy_init_afterSpawn env true (legacyAssetsFollow env));
      [apply legacyAssetsFollow_prefix | | by exists tt | exact Hs].
    intros l s' He _. by apply legacy_install_then_assets, He.
Qed.

Lemma install_exit_code_ignored_witness :
  assetsFollow (Sample.project 4 false Sample.fetchOk 0)
    (emitted (Init.init
                (withSpawnExitCode (fun _ => 1%Z) (Sample.project 4 false Sample.fetchOk 0))
                Sample.flagsYes (Sample.host [])))
  /\ legacyAssetsFollow (Sample.project 3 false Sample.fetchOk 0)
       (emitted (LegacyInit.init
                   (withSpawnExitCode (fun _ => 1%Z)
                      (Sample.project 3 false Sample.fetchOk 0))
                   (legacyHost []))).
Proof.
  split.
  - apply (install_exit_code_ignored (Sample.project 4 false Sample.fetchOk 0)
             (fun _ => 1%Z) Sample.flagsYes (Sample.host [])).
    + vm_compute. reflexivity.
    + exists (Init.installCommand (Sample.project 4 false Sample.fetchOk 0)).
      vm_compute. repeat (first [left; reflexivity | right]).
  - apply (install_exit_code_ignored (Sample.project 3 false Sample.fetchOk 0)
             (fun _ => 1%Z) Sample.flagsYes (legacyHost [])).
    + vm_compute. reflexivity.
    + exists (LegacyInit.installCommand (Sample.project 3 false Sample.fetchOk 0)).
      vm_compute. repeat (first [left; reflexivity | right]).
Defined.

(** A failed install (exit code 1) is followed by the two fetches, the
    writes and the configuration. *)
Example init_after_failed_install :
  let run := Init.init (Sample.project 4 false Sample.fetchOk 1)
               Sample.flagsYes (Sample.host []) in
  outcome run = Ok tt
  /\ List.filter (fun e => match e with
                           | Spawn _ | Fetch _ | WriteFile _ _ | CreateConfig _ => true
                           | _ => false
                           end) (emitted run)
     = [Spawn (js "npm i react-aria-components justd-icons && npm i -D tailwind-variants tailwind-merge tailwindcss-animate next-themes  --silent");
        Fetch (js "https://raw.githubusercontent.com/irsyadadl/justd/2.x/components/ui/primitive.tsx");
        WriteFile (js "src/components/ui/primitive.tsx")
          (js "'use client'" ++ newline
             ++ js "// https://raw.githubusercontent.com/irsyadadl/justd/2.x/components/ui/primitive.tsx");
        WriteFile (js "src/components/ui/index.ts") (js "export * from './primitive';");
        Fetch (js "https://raw.githubusercontent.com/irsyadadl/justd/refs/heads/2.x/utils/classes.ts");
        WriteFile (js "src/utils/classes.ts")
          (js "'use client'" ++ newline
             ++ js "// https://raw.githubusercontent.com/irsyadadl/justd/refs/heads/2.x/utils/classes.ts");
        WriteFile (js "src/components/theme-provider.tsx") (js "/* theme */");
        WriteFile (js "src/components/providers.tsx") (js "/* providers */");
        CreateConfig
          {| schema := js "https://getjustd.com/schema.json";
             ui := js "src/components/ui";
             utils := js "src/utils";
             gray := Some (js "slate");
             css := js "src/app/globals.css";
             alias := Some (js "@") |}].
Proof. split; vm_compute; reflexivity. Qed.

(* ===================================================================== *)
(** * Further properties of the code *)
(* ===================================================================== *)

(* --------------------------------------------------------------------- *)
(** ** The URL builders *)
(* --------------------------------------------------------------------- *)

Lemma arrayIncludes_In (xs : list jsstring) (x : jsstring) :
  arrayIncludes xs x = true <-> In x xs.
Proof.
  unfold arrayIncludes. rewrite existsb_exists. split.
  - intros (y & Hy & E). by destruct (eqb_spec x y) as [->|].
  - intros H. exists x. split; [done | apply eqb_refl].
Qed.

(** X1.  A theme URL is returned for the available grays only, and it
    tells the grays apart: one URL is never returned for two grays. *)
Theorem themes_url_injective (BRANCH g1 g2 url : jsstring) (availablesGrays : list jsstring) :
  Repo.getThemesRepoUrl BRANCH availablesGrays g1 = Repo.ThemeUrlOk url ->
  Repo.getThemesRepoUrl BRANCH availablesGrays g2 = Repo.ThemeUrlOk url ->
  g1 = g2 /\ In g1 availablesGrays.
Proof.
  unfold Repo.getThemesRepoUrl.
  destruct (arrayIncludes availablesGrays g1) eqn:E1; [|done].
  destruct (arrayIncludes availablesGrays g2) eqn:E2; [|done].
  simpl. intros [= <-] [= H]. split; [|by apply arrayIncludes_In].
  apply app_inv_head in H. injection H as H.
  by apply app_inv_tail in H.
Qed.

Lemma themes_url_injective_witness :
  js "zinc" = js "zinc" /\ In (js "zinc") [js "slate"; js "zinc"].
Proof.
  apply (themes_url_injective (js "2.x") (js "zinc") (js "zinc")
           (js "https://raw.githubusercontent.com/irsyadadl/justd/refs/heads/2.x/resources/styles/themes/zinc.css")
           [js "slate"; js "zinc"]); reflexivity.
Defined.

(** X2.  A component URL determines the branch and the component name
    it was built from, and it is never the URL of a utilities file. *)
Theorem component_url_injective (t1 t2 t3 : bool) (n1 n2 file url : jsstring) :
  Repo.getRepoUrlForComponent (Repo.branchWorkingOn t1) n1 = Some url ->
  Repo.getRepoUrlForComponent (Repo.branchWorkingOn t2) n2 = Some url ->
  t1 = t2 /\ n1 = n2
  /\ Repo.getUtilsFolder (Repo.branchWorkingOn t3) file <> Some url.
Proof.
  rewrite !component_url_shape, utils_url_shape. intros H1 H2.
  assert (H : Repo.REPO ++ js "/" ++ Repo.branchWorkingOn t1 ++ js "/components/ui/"
                ++ n1 ++ js ".tsx"
              = Repo.REPO ++ js "/" ++ Repo.branchWorkingOn t2 ++ js "/components/ui/"
                ++ n2 ++ js ".tsx") by congruence.
  apply (app_inv_head Repo.REPO), (app_inv_head (js "/")) in H.
  split; [|split].
  - destruct t1, t2; try done; discriminate H.
  - destruct t1, t2; try discriminate H.
    + apply (app_inv_head (js "1.x")), (app_inv_head (js "/components/ui/")) in H.
      by apply app_inv_tail in H.
    + apply (app_inv_head (js "2.x")), (app_inv_head (js "/components/ui/")) in H.
      by apply app_inv_tail in H.
  - intros E.
    assert (E' : Repo.REPO ++ js "/refs/heads/" ++ Repo.branchWorkingOn t3
                   ++ js "/utils/" ++ file
                 = Repo.REPO ++ js "/" ++ Repo.branchWorkingOn t1
                   ++ js "/components/ui/" ++ n1 ++ js ".tsx") by congruence.
    apply (app_inv_head Repo.REPO) in E'.
    apply (app_inv_head (js "/")
             (js "refs/heads/" ++ Repo.branchWorkingOn t3 ++ js "/utils/" ++ file)) in E'.
    destruct t1; discriminate E'.
Qed.

Lemma component_url_injective_witness :
  false = false /\ js "button" = js "button"
  /\ Repo.getUtilsFolder (Repo.branchWorkingOn true) (js "classes.ts")
     <> Some (js "https://raw.githubusercontent.com/irsyadadl/justd/2.x/components/ui/button.tsx").
Proof.
  apply (component_url_injective false false true (js "button") (js "button")
           (js "classes.ts")); reflexivity.
Defined.

(* --------------------------------------------------------------------- *)
(** ** The preconditions of [init] *)
(* --------------------------------------------------------------------- *)

(** X3.  When the project is missing, the working tree is dirty and the
    run is not forced, or Tailwind is not installed, [init] only reports:
    it asks nothing, writes nothing, creates no folder, starts no child
    process, fetches nothing and persists no configuration. *)
Theorem init_preconditions_gate (env : Env) (flags : Flags) (s : State) :
  isProjectExists env = false
  \/ (force flags = false /\ isRepoDirty env = true)
  \/ isTailwindInstalled env = false ->
  Forall reportOnly (emitted (Init.init env flags s))
  /\ answers (final (Init.init env flags s)) = answers s
  /\ (outcome (Init.init env flags s) = Ok tt
      \/ outcome (Init.init env flags s) = Exit 1).
Proof.
  intros H. unfold Init.init, Init.gitCheck.
  destruct (isProjectExists env) eqn:Ep; simpl.
  2: { split; [repeat constructor|]. by split; [|left]. }
  destruct H as [H|[[Hf Hd]|Ht]]; [done| |].
  - rewrite Hf, Hd. simpl. split; [repeat constructor|]. by split; [|right].
  - rewrite Ht. destruct (force flags), (isRepoDirty env); simpl;
      (split; [repeat constructor|]); (split; [done|]); by (left + right).
Qed.

Lemma init_preconditions_gate_witness :
  outcome (Init.init (Sample.project 4 true Sample.fetchOk 0)
             Sample.flagsYes (Sample.host [])) = Ok tt
  \/ outcome (Init.init (Sample.project 4 true Sample.fetchOk 0)
                Sample.flagsYes (Sample.host [])) = Exit 1.
Proof.
  apply (init_preconditions_gate (Sample.project 4 true Sample.fetchOk 0)
           Sample.flagsYes (Sample.host [])).
  right; left. split; reflexivity.
Defined.

(* --------------------------------------------------------------------- *)
(** ** The transform for Laravel *)
(* --------------------------------------------------------------------- *)

Lemma dropWhile_sublist (f : N -> bool) (l : jsstring) :
  Path.dropWhile f l `sublist_of` l.
Proof.
  induction l as [|c l IH]; simpl; [done|].
  destruct (f c); [by apply sublist_cons | done].
Qed.

Lemma stripUseClient_sublist_bounded (n : nat) (s : jsstring) :
  length s <= n -> Init.stripUseClient s `sublist_of` s.
Proof.
  revert s; induction n as [|n IH]; intros s Hn.
  - destruct s; [|simpl in Hn; lia]. by rewrite Init.stripUseClient_equation_1.
  - destruct s as [|c t]; [by rewrite Init.stripUseClient_equation_1|].
    rewrite stripUseClient_cons.
    destruct (Init.afterDirective (c :: t)) as [rest|] eqn:E.
    + pose proof (Init.afterDirective_length _ _ E) as Hl.
      pose proof (Init.dropWhile_length isWhiteSpace rest) as Hd.
      apply afterDirective_inv in E as (q1 & q2 & _ & _ & E). rewrite E.
      etrans; [apply IH; simpl in *; lia|].
      etrans; [apply dropWhile_sublist|].
      apply sublist_inserts_l. done.
    + apply sublist_skip, IH. simpl in Hn. lia.
Qed.

Lemma stripUseClient_length (s : jsstring) :
  length (Init.stripUseClient s) <= length s.
Proof. apply sublist_length, (stripUseClient_sublist_bounded (length s)). lia. Qed.

Lemma stripUseClient_shorter (s : jsstring) :
  noDirective s = false -> length (Init.stripUseClient s) < length s.
Proof.
  induction s as [|c t IH]; [done|].
  rewrite stripUseClient_cons. simpl noDirective.
  destruct (Init.afterDirective (c :: t)) as [rest|] eqn:E.
  - intros _. apply Init.afterDirective_length in E.
    pose proof (stripUseClient_length (Path.dropWhile isWhiteSpace rest)).
    pose proof (Init.dropWhile_length isWhiteSpace rest). lia.
  - intros H. specialize (IH H). simpl. lia.
Qed.

(** X4.  The transform only takes text out: its result is the fetched
    text with some units left out, in the same order; and it returns the
    text as it is exactly when no directive starts anywhere in it. *)
Theorem stripUseClient_only_removes (s : jsstring) :
  Init.stripUseClient s `sublist_of` s
  /\ (Init.stripUseClient s = s <-> noDirective s = true).
Proof.
  split; [apply (stripUseClient_sublist_bounded (length s)); lia|].
  split; [|apply stripUseClient_noDirective].
  intros E. destruct (noDirective s) eqn:Hn; [done|].
  apply stripUseClient_shorter in Hn. rewrite E in Hn. lia.
Qed.

(* --------------------------------------------------------------------- *)
(** ** Folders *)
(* --------------------------------------------------------------------- *)

Lemma existsSync_run (p : jsstring) (s : State) :
  existsSync p s
  = {| outcome := Ok (bool_decide (is_Some (files s !! p)) || bool_decide (p ∈ dirs s));
       final := s; emitted := [] |}.
Proof. reflexivity. Qed.

(** X5.  Once [ensureFolder] has succeeded the folder exists, and
    ensuring it again changes and emits nothing. *)
Theorem ensureFolder_idempotent (env : Env) (dir : jsstring) (s : State) :
  outcome (Init.ensureFolder env dir s) = Ok tt ->
  let s' := final (Init.ensureFolder env dir s) in
  outcome (existsSync dir s') = Ok true
  /\ Init.ensureFolder env dir s' = {| outcome := Ok tt; final := s'; emitted := [] |}.
Proof.
  unfold Init.ensureFolder, mbind, M_bind, bind. rewrite !existsSync_run. simpl.
  destruct (bool_decide (is_Some (files s !! dir)) || bool_decide (dir ∈ dirs s)) eqn:E;
    simpl.
  - intros _. by rewrite E.
  - unfold mkdirSync. destruct (mkdirError env dir); [done|]. simpl. intros _.
    assert (Hin : bool_decide (dir ∈ ({[dir]} ∪ list_to_set (foldersAbove [] dir)
                                        ∪ dirs s : gset jsstring)) = true).
    { apply bool_decide_eq_true_2. set_solver. }
    rewrite Hin, orb_true_r. done.
Qed.

Lemma ensureFolder_idempotent_witness :
  outcome (existsSync (js "src/utils")
             (final (Init.ensureFolder (Sample.project 4 false Sample.fetchOk 0)
                       (js "src/utils") (Sample.host [])))) = Ok true.
Proof.
  apply (ensureFolder_idempotent (Sample.project 4 false Sample.fetchOk 0)
           (js "src/utils") (Sample.host [])).
  reflexivity.
Defined.

(* --------------------------------------------------------------------- *)
(** ** Running a computation step by step *)
(* --------------------------------------------------------------------- *)

Lemma run_bind_eq {A B} (m : M A) (k : A -> M B) (s s' : State) (a : A)
    (ev ev' : list Event) (r : Run B) :
  m s = {| outcome := Ok a; final := s'; emitted := ev |} ->
  emitted r = ev ++ ev' ->
  k a s' = {| outcome := outcome r; final := final r; emitted := ev' |} ->
  (m ≫= k) s = r.
Proof.
  intros Hm He Hk. rewrite (run_bind_ok _ _ _ _ _ _ Hm), Hk. simpl.
  rewrite <- He. by destruct r.
Qed.

Lemma run_tryCatch_eq {A} (m : M A) (h : Exn -> M A) (s : State) (r : Run A) :
  m s = r -> (forall e, outcome r <> Throw e) -> tryCatch m h s = r.
Proof.
  intros <- H. unfold tryCatch. destruct (outcome (m s)) eqn:E; try done.
  by destruct (H e).
Qed.

Lemma emit_run (e : Event) (s : State) :
  emit e s = {| outcome := Ok tt; final := s; emitted := [e] |}.
Proof. reflexivity. Qed.

Lemma liftExn_inr {A} (a : A) (s : State) :
  liftExn (inr a) s = {| outcome := Ok a; final := s; emitted := [] |}.
Proof. reflexivity. Qed.

Lemma existsSync_file (p content : jsstring) (s : State) :
  files s !! p = Some content ->
  existsSync p s = {| outcome := Ok true; final := s; emitted := [] |}.
Proof.
  intros H. rewrite existsSync_run, H.
  by rewrite bool_decide_eq_true_2 by eauto.
Qed.

(** One bind whose first computation is run by [prim]. *)
Ltac run_bind prim :=
  eapply run_bind_eq; [ prim | simpl; reflexivity | cbv beta; simpl outcome; simpl final ].

(* --------------------------------------------------------------------- *)
(** ** Properties of parsed values *)
(* --------------------------------------------------------------------- *)

(** Reading a property back after assigning it. *)
Lemma lookupProp_assignProp (props : list (jsstring * JsVal)) (k : jsstring) (x : JsVal) :
  lookupProp (assignProp props k x) k = Some x.
Proof.
  induction props as [|[k' v] props IH]; simpl.
  - by rewrite eqb_refl.
  - destruct (eqb k' k) eqn:E; simpl; by rewrite E.
Qed.

Lemma lookupProp_assignProp_ne (props : list (jsstring * JsVal)) (k k' : jsstring) (x : JsVal) :
  k <> k' -> lookupProp (assignProp props k x) k' = lookupProp props k'.
Proof.
  intros Hne. induction props as [|[k0 v] props IH]; simpl.
  - destruct (eqb_spec k k'); [done | reflexivity].
  - destruct (eqb_spec k0 k) as [->|Hk]; simpl.
    + destruct (eqb_spec k k'); [done | reflexivity].
    + destruct (eqb k0 k'); [reflexivity | exact IH].
Qed.

(* --------------------------------------------------------------------- *)
(** ** The path alias *)
(* --------------------------------------------------------------------- *)

Lemma readJson_run (env : Env) (p raw : jsstring) (v : JsVal) (s : State) :
  files s !! p = Some raw ->
  JSON_parse env (stripJsonComments env raw) = inr v ->
  Init.readJson env p s = {| outcome := Ok v; final := s; emitted := [] |}.
Proof.
  intros Hf Hp. unfold Init.readJson.
  rewrite (run_bind_ok _ _ _ _ _ _ (readFileSync_some _ _ _ Hf)).
  cbv zeta. rewrite Hp. reflexivity.
Qed.

Lemma readJson_invalid (env : Env) (p raw : jsstring) (e : Exn) (s : State) :
  files s !! p = Some raw ->
  JSON_parse env (stripJsonComments env raw) = inl e ->
  Init.readJson env p s = {| outcome := Throw e; final := s; emitted := [] |}.
Proof.
  intros Hf Hp. unfold Init.readJson.
  rewrite (run_bind_ok _ _ _ _ _ _ (readFileSync_some _ _ _ Hf)).
  cbv zeta. rewrite Hp. reflexivity.
Qed.

(** X6.  When [tsconfig.app.json] exists and its [compilerOptions.paths]
    is an object with at least one key, the alias is the first key
    without its [/*], whatever [tsconfig.json] holds; nothing is asked
    and nothing is written. *)
Theorem getUserAlias_reads_first_key (env : Env) (flags : Flags) (s : State)
    (raw key : jsstring) (a b c : bool) (props cprops more : list (jsstring * JsVal))
    (target : JsVal) :
  files s !! tsconfigApp env = Some raw ->
  JSON_parse env (stripJsonComments env raw) = inr (VObj a props) ->
  lookupProp props (js "compilerOptions") = Some (VObj b cprops) ->
  lookupProp cprops (js "paths") = Some (VObj c ((key, target) :: more)) ->
  Init.getUserAlias env flags s
  = {| outcome := Ok (replaceFirst key (js "/*") (js ""));
       final := s; emitted := [AddUiPathToTsConfig] |}.
Proof.
  intros Hf Hp Hco Hpaths. unfold Init.getUserAlias. cbv zeta.
  fold (tsconfigApp env) (tsconfigPlain env).
  run_bind ltac:(apply (existsSync_file _ _ _ Hf)).
  run_bind ltac:(apply existsSync_run).
  simpl negb. simpl andb. cbv iota.
  run_bind ltac:(apply run_tryCatch_ok, (readJson_run _ _ _ _ _ Hf Hp)).
  run_bind ltac:(unfold getProp; rewrite Hco; apply liftExn_inr).
  cbn [truthy negb]. cbv iota.
  run_bind ltac:(reflexivity).
  run_bind ltac:(unfold getProp; rewrite Hco; apply liftExn_inr).
  run_bind ltac:(cbv [default from_option id hasProp]; rewrite Hpaths; apply liftExn_inr).
  cbn [negb]. cbv iota.
  run_bind ltac:(reflexivity).
  run_bind ltac:(apply emit_run).
  run_bind ltac:(unfold getProp; rewrite Hco; apply liftExn_inr).
  run_bind ltac:(cbv [default from_option id getProp]; rewrite Hpaths; apply liftExn_inr).
  reflexivity.
Qed.

Lemma getUserAlias_reads_first_key_witness :
  outcome (Init.getUserAlias (Sample.project 4 false Sample.fetchOk 0)
             Sample.flagsNone appOnly) = Ok (js "@").
Proof.
  rewrite (getUserAlias_reads_first_key (Sample.project 4 false Sample.fetchOk 0)
             Sample.flagsNone appOnly (js "{}") (js "@/*") false false false
             [(js "compilerOptions",
               VObj false [(js "paths",
                 VObj false [(js "@/*", VObj true [(js "0", VStr (js "./src/*"))])])])]
             [(js "paths",
               VObj false [(js "@/*", VObj true [(js "0", VStr (js "./src/*"))])])]
             [] (VObj true [(js "0", VStr (js "./src/*"))]));
    reflexivity.
Defined.

(** X7.  With [--yes], when only [tsconfig.json] exists and its
    [compilerOptions] has no [paths] key, the key is added with the single
    alias ["@/*"] for the suggested root, the file is rewritten with the
    printed configuration and the alias is ["@"]; the other properties of
    the configuration are kept. *)
Theorem getUserAlias_adds_default_paths (env : Env) (flags : Flags) (s : State)
    (raw : jsstring) (a b : bool) (props cprops : list (jsstring * JsVal)) :
  yes flags = true ->
  absent s (tsconfigApp env) ->
  files s !! tsconfigPlain env = Some raw ->
  JSON_parse env (stripJsonComments env raw) = inr (VObj a props) ->
  lookupProp props (js "compilerOptions") = Some (VObj b cprops) ->
  lookupProp cprops (js "paths") = None ->
  writeError env (tsconfigPlain env) = None ->
  let updated :=
    VObj a (assignProp props (js "compilerOptions")
      (VObj b (assignProp cprops (js "paths")
         (defaultPaths (js "./" ++ possibilityRootPath env))))) in
  let name := Path.basename (tsconfigPlain env) in
  Init.getUserAlias env flags s
  = {| outcome := Ok (js "@");
       final := written s (tsconfigPlain env) (JSON_stringify env updated);
       emitted :=
         [Spinner (SpinStart (js "Updating " ++ name ++ js " with paths..."));
          WriteFile (tsconfigPlain env) (JSON_stringify env updated);
          Spinner (SpinSucceed (js "Paths added to " ++ name ++ js "."));
          AddUiPathToTsConfig] |}.
Proof.
  intros Hy Ha Hf Hp Hco Hpaths Hw updated name. unfold Init.getUserAlias. cbv zeta.
  fold (tsconfigApp env) (tsconfigPlain env).
  run_bind ltac:(apply (existsSync_absent _ _ Ha)).
  run_bind ltac:(apply (existsSync_file _ _ _ Hf)).
  simpl negb. simpl andb. cbv iota.
  run_bind ltac:(apply run_tryCatch_ok, (readJson_run _ _ _ _ _ Hf Hp)).
  run_bind ltac:(unfold getProp; rewrite Hco; apply liftExn_inr).
  cbn [truthy negb]. cbv iota.
  run_bind ltac:(reflexivity).
  run_bind ltac:(unfold getProp; rewrite Hco; apply liftExn_inr).
  run_bind ltac:(cbv [default from_option id hasProp]; rewrite Hpaths; apply liftExn_inr).
  cbn [negb]. cbv iota. rewrite Hy.
  run_bind ltac:(
    run_bind ltac:(reflexivity);
    run_bind ltac:(cbv [default from_option id setProp]; apply liftExn_inr);
    run_bind ltac:(cbv [setProp]; apply liftExn_inr);
    run_bind ltac:(apply emit_run);
    run_bind ltac:(
      apply run_tryCatch_ok;
      run_bind ltac:(apply (writeFileSync_ok _ _ _ _ Hw));
      apply emit_run);
    reflexivity).
  run_bind ltac:(apply emit_run).
  run_bind ltac:(unfold getProp; rewrite lookupProp_assignProp; apply liftExn_inr).
  run_bind ltac:(cbv [default from_option id getProp]; rewrite lookupProp_assignProp;
                 apply liftExn_inr).
  reflexivity.
Qed.

Lemma getUserAlias_adds_default_paths_witness :
  let env := withJsonParse (fun _ => inr strictOnly)
               (Sample.project 4 false Sample.fetchOk 0) in
  outcome (Init.getUserAlias env Sample.flagsYes (Sample.host [])) = Ok (js "@")
  /\ files (final (Init.getUserAlias env Sample.flagsYes (Sample.host [])))
       !! js "/work/tsconfig.json" = Some (js "{}").
Proof.
  intros env.
  rewrite (getUserAlias_adds_default_paths env Sample.flagsYes (Sample.host [])
             (js "{}") false false
             [(js "compilerOptions", VObj false [(js "strict", VBool true)])]
             [(js "strict", VBool true)]);
    try reflexivity.
  - split; [reflexivity | by vm_compute].
  - split; [by vm_compute | set_solver].
Defined.

Lemma run_bind_exit {A B} (m : M A) (k : A -> M B) (s s' : State) (c : Z)
    (ev : list Event) :
  m s = {| outcome := Exit c; final := s'; emitted := ev |} ->
  (m ≫= k) s = {| outcome := Exit c; final := s'; emitted := ev |}.
Proof. intros H. unfold mbind, M_bind, bind. by rewrite H. Qed.

Lemma readJson_caught (env : Env) (p raw text : jsstring) (e : Exn) (s : State) :
  files s !! p = Some raw ->
  JSON_parse env (stripJsonComments env raw) = inl e ->
  tryCatch (Init.readJson env p)
    (fun _ => emit (Log LogError [text]);; exit 1) s
  = {| outcome := Exit 1; final := s; emitted := [Log LogError [text]] |}.
Proof.
  intros Hf Hp.
  by rewrite (run_tryCatch_throw _ _ _ _ _ _ (readJson_invalid _ _ _ _ _ Hf Hp)).
Qed.

(** X8.  When neither configuration file exists, or the one that is
    read does not parse, [getUserAlias] logs one error and exits with
    status 1; it asks nothing and writes nothing. *)
Theorem getUserAlias_unusable_config (env : Env) (flags : Flags) (s : State) :
  (absent s (tsconfigApp env) /\ absent s (tsconfigPlain env))
  \/ (exists raw e, files s !! tsconfigApp env = Some raw
        /\ JSON_parse env (stripJsonComments env raw) = inl e)
  \/ (exists raw e, absent s (tsconfigApp env)
        /\ files s !! tsconfigPlain env = Some raw
        /\ JSON_parse env (stripJsonComments env raw) = inl e) ->
  outcome (Init.getUserAlias env flags s) = Exit 1
  /\ final (Init.getUserAlias env flags s) = s
  /\ exists text, emitted (Init.getUserAlias env flags s) = [Log LogError [text]].
Proof.
  unfold Init.getUserAlias. cbv zeta.
  fold (tsconfigApp env) (tsconfigPlain env).
  intros [[Ha Hb]|[(raw & e & Hf & Hp)|(raw & e & Ha & Hf & Hp)]].
  - rewrite (run_bind_ok _ _ _ _ _ _ (existsSync_absent _ _ Ha)).
    rewrite (run_bind_ok _ _ _ _ _ _ (existsSync_absent _ _ Hb)).
    simpl. eauto.
  - rewrite (run_bind_ok _ _ _ _ _ _ (existsSync_file _ _ _ Hf)).
    rewrite (run_bind_ok _ _ _ _ _ _ (existsSync_run _ _)).
    cbv beta. cbn [negb andb]. cbv iota.
    rewrite (run_bind_exit _ _ _ _ _ _ (readJson_caught _ _ _ _ _ _ Hf Hp)).
    simpl. eauto.
  - rewrite (run_bind_ok _ _ _ _ _ _ (existsSync_absent _ _ Ha)).
    rewrite (run_bind_ok _ _ _ _ _ _ (existsSync_file _ _ _ Hf)).
    cbv beta. cbn [negb andb]. cbv iota.
    rewrite (run_bind_exit _ _ _ _ _ _ (readJson_caught _ _ _ _ _ _ Hf Hp)).
    simpl. eauto.
Qed.

Lemma getUserAlias_unusable_config_witness :
  outcome (Init.getUserAlias (Sample.project 4 false Sample.fetchOk 0)
             Sample.flagsYes bare) = Exit 1.
Proof.
  apply (getUserAlias_unusable_config (Sample.project 4 false Sample.fetchOk 0)
           Sample.flagsYes bare).
  left. by split; (split; [vm_compute | set_solver]).
Defined.

(** X9.  When [compilerOptions.paths] is present but has no first key
    (an empty object, [null], [false], a number, an empty string), the
    command ends without a message: with a [TypeError] when the value is
    truthy, with exit status 1 otherwise. *)
Theorem getUserAlias_without_first_key (env : Env) (flags : Flags) (s : State)
    (raw : jsstring) (a b : bool) (props cprops : list (jsstring * JsVal))
    (paths : JsVal) :
  files s !! tsconfigApp env = Some raw ->
  JSON_parse env (stripJsonComments env raw) = inr (VObj a props) ->
  lookupProp props (js "compilerOptions") = Some (VObj b cprops) ->
  lookupProp cprops (js "paths") = Some paths ->
  firstKey paths = None ->
  Init.getUserAlias env flags s
  = {| outcome :=
         if truthy (Some paths)
         then Throw (TypeError (js "Cannot read properties of undefined (reading 'replace')"))
         else Exit 1;
       final := s; emitted := [AddUiPathToTsConfig] |}.
Proof.
  intros Hf Hp Hco Hpaths Hk. unfold Init.getUserAlias. cbv zeta.
  fold (tsconfigApp env) (tsconfigPlain env).
  run_bind ltac:(apply (existsSync_file _ _ _ Hf)).
  run_bind ltac:(apply existsSync_run).
  simpl negb. simpl andb. cbv iota.
  run_bind ltac:(apply run_tryCatch_ok, (readJson_run _ _ _ _ _ Hf Hp)).
  run_bind ltac:(unfold getProp; rewrite Hco; apply liftExn_inr).
  cbn [truthy negb]. cbv iota.
  run_bind ltac:(reflexivity).
  run_bind ltac:(unfold getProp; rewrite Hco; apply liftExn_inr).
  run_bind ltac:(cbv [default from_option id hasProp]; rewrite Hpaths; apply liftExn_inr).
  cbn [negb]. cbv iota.
  run_bind ltac:(reflexivity).
  run_bind ltac:(apply emit_run).
  run_bind ltac:(unfold getProp; rewrite Hco; apply liftExn_inr).
  run_bind ltac:(cbv [default from_option id getProp]; rewrite Hpaths; apply liftExn_inr).
  cbv [default from_option id]. rewrite Hk.
  change (match paths with
          | VNull => false
          | VBool b0 => b0
          | VNum q => negb (QArith_base.Qnum q =? 0)%Z
          | VStr s0 => negb (eqb s0 [])
          | VObj _ _ => true
          end) with (truthy (Some paths)).
  by destruct (truthy (Some paths)).
Qed.

Lemma getUserAlias_without_first_key_witness :
  outcome (Init.getUserAlias
             (withJsonParse (fun _ => inr emptyPaths) (Sample.project 4 false Sample.fetchOk 0))
             Sample.flagsYes appOnly)
  = Throw (TypeError (js "Cannot read properties of undefined (reading 'replace')")).
Proof.
  rewrite (getUserAlias_without_first_key
             (withJsonParse (fun _ => inr emptyPaths) (Sample.project 4 false Sample.fetchOk 0))
             Sample.flagsYes appOnly (js "{}") false false
             [(js "compilerOptions", VObj false [(js "paths", VObj false [])])]
             [(js "paths", VObj false [])] (VObj false []));
    reflexivity.
Defined.

(* --------------------------------------------------------------------- *)
(** ** What the commands reach *)
(* --------------------------------------------------------------------- *)

Lemma returns_ret {A} (Q : A -> Prop) (a : A) : Q a -> returns Q (mret a).
Proof. by intros H s a' [= <-]. Qed.

Lemma returns_bind {A B} (Q : B -> Prop) (m : M A) (k : A -> M B) :
  (forall a, returns Q (k a)) -> returns Q (m ≫= k).
Proof.
  intros H s b. unfold mbind, M_bind, bind.
  destruct (outcome (m s)) eqn:E; simpl; [|done..]. apply H.
Qed.

Ltac returns_by tac :=
  repeat lazymatch goal with
  | |- returns _ (mbind _ _) => apply returns_bind; intros ?
  | |- returns _ (mret _) => apply returns_ret; tac
  | |- returns _ (if ?b then _ else _) => destruct b
  | |- returns _ (let _ := _ in _) => cbv zeta
  end.

(** X10.  Whatever the files and the answers, [getUserAlias] writes to
    no file but [tsconfig.app.json] and [tsconfig.json] of the working
    directory; it creates no folder, starts no process and downloads
    nothing. *)
Theorem getUserAlias_touches_only_tsconfig (env : Env) (flags : Flags) :
  emitsOnly (tsconfigOnly env) (Init.getUserAlias env flags).
Proof.
  unfold Init.getUserAlias. cbv zeta.
  fold (tsconfigApp env) (tsconfigPlain env).
  apply emitsOnly_bind; [apply emitsOnly_existsSync | intros appExists].
  apply emitsOnly_bind; [apply emitsOnly_existsSync | intros plainExists].
  destruct (negb appExists && negb plainExists); [emits_by ltac:(exact I)|].
  assert (Hp : (if appExists then tsconfigApp env else tsconfigPlain env) = tsconfigApp env
               \/ (if appExists then tsconfigApp env else tsconfigPlain env)
                  = tsconfigPlain env) by (destruct appExists; auto).
  generalize dependent (if appExists then tsconfigApp env else tsconfigPlain env).
  intros p Hp.
  apply emitsOnly_bind;
    [unfold Init.readJson; emits_by ltac:(exact I) | intros tsConfig].
  apply emitsOnly_bind; [apply emitsOnly_liftExn | intros co].
  apply (emitsOnly_bind_returns _
           (fun r => r.1 = tsconfigApp env \/ r.1 = tsconfigPlain env)).
  - unfold Init.readJson, Init.defaultCompilerOptions. emits_by ltac:(exact I).
  - returns_by ltac:(simpl; auto).
  - intros [p' tsConfig'] Hp'. simpl in Hp'.
    emits_by ltac:(first [exact I | exact Hp']).
Qed.

Lemma fetchPrimitive_reach (env : Env) (uiFolder : jsstring) :
  emitsOnly (initReach env) (Init.fetchPrimitive env uiFolder).
Proof.
  unfold Init.fetchPrimitive. rewrite component_url_shape.
  emits_by ltac:(first [exact I | left; reflexivity]).
Qed.

Lemma fetchClasses_reach (env : Env) (utilsFolder : jsstring) :
  emitsOnly (initReach env) (Init.fetchClasses env utilsFolder).
Proof.
  unfold Init.fetchClasses. rewrite utils_url_shape.
  emits_by ltac:(first [exact I | right; reflexivity]).
Qed.


Lemma legacy_fetchPrimitive_reach (env : Env) (uiFolder : jsstring) :
  emitsOnly (legacyReach env) (LegacyInit.fetchPrimitive env uiFolder).
Proof.
  unfold LegacyInit.fetchPrimitive. rewrite component_url_shape.
  emits_by ltac:(first [exact I | reflexivity]).
Qed.

(** X12.  A run of the older [init] starts no process but its install
    command and the [add] command, requests no URL but that of
    [primitive.tsx], deletes no file but [d.json], opens no page but the
    repository's, and never calls the configuration manager, the palette
    selection or [startNewProject]. *)
Theorem legacy_init_reach (env : Env) :
  emitsOnly (legacyReach env) (LegacyInit.init env).
Proof.
  unfold LegacyInit.init, LegacyInit.scaffold, LegacyInit.afterInstall.
  repeat first
    [ apply legacy_fetchPrimitive_reach
    | lazymatch goal with
      | |- emitsOnly _ (LegacyInit.select _ _) => unfold LegacyInit.select
      | |- emitsOnly _ (LegacyInit.resolveLayout _ _) => unfold LegacyInit.resolveLayout
      | |- emitsOnly _ (LegacyInit.placeCss _ _) => unfold LegacyInit.placeCss
      | |- emitsOnly _ (LegacyInit.installDependencies _) =>
          unfold LegacyInit.installDependencies
      | |- emitsOnly _ (LegacyInit.writeProviders _ _) => unfold LegacyInit.writeProviders
      | |- emitsOnly _ (LegacyInit.saveConfig _ _) => unfold LegacyInit.saveConfig
      | |- emitsOnly _ (LegacyInit.farewell _) => unfold LegacyInit.farewell
      end
    | emits_by_step ltac:(first [exact I | reflexivity | left; reflexivity
                                | right; reflexivity]) ].
Qed.

(* --------------------------------------------------------------------- *)
(** ** What the commands leave behind *)
(* --------------------------------------------------------------------- *)

Section Keeps.
Context (R : State -> State -> Prop) (HR : Monotone R).

Lemma keeps_still {A} (m : M A) : (forall s, final (m s) = s) -> keeps R m.
Proof using HR. intros H s. rewrite H. apply HR. Qed.

Lemma keeps_bind {A B} (m : M A) (k : A -> M B) :
  keeps R m -> (forall a, keeps R (k a)) -> keeps R (m ≫= k).
Proof using HR.
  intros Hm Hk s. unfold mbind, M_bind, bind. specialize (Hm s).
  destruct (outcome (m s)); simpl; [|done..].
  eapply (monotone_trans R HR); [exact Hm | apply Hk].
Qed.

Lemma keeps_tryCatch {A} (m : M A) (h : Exn -> M A) :
  keeps R m -> (forall e, keeps R (h e)) -> keeps R (tryCatch m h).
Proof using HR.
  intros Hm Hh s. unfold tryCatch. specialize (Hm s).
  destruct (outcome (m s)); simpl; try done.
  eapply (monotone_trans R HR); [exact Hm | apply Hh].
Qed.

Lemma keeps_readFileSync (p : jsstring) : keeps R (readFileSync p).
Proof using HR.
  apply keeps_still. intros s. unfold readFileSync. by destruct (files s !! p).
Qed.

Lemma keeps_liftExn {A} (x : Exn + A) : keeps R (liftExn x).
Proof using HR. apply keeps_still. by destruct x. Qed.

Lemma keeps_writeFileSync (env : Env) (p c : jsstring) : keeps R (writeFileSync env p c).
Proof using HR.
  intros s. unfold writeFileSync. destruct (writeError env p); simpl; apply HR.
Qed.

Lemma keeps_mkdirSync (env : Env) (p : jsstring) : keeps R (mkdirSync env p).
Proof using HR.
  intros s. unfold mkdirSync. destruct (mkdirError env p); simpl; apply HR.
Qed.

Lemma keeps_doFetch (env : Env) (url : jsstring) : keeps R (doFetch env url).
Proof using HR.
  apply keeps_still. intros s. unfold doFetch, mbind, M_bind, bind. simpl.
  by destruct (fetch env url).
Qed.

End Keeps.

(** One syntax-directed step of a proof that a computation keeps a
    monotone relation; [tac] is for the prompts. *)
Ltac keeps_by_step HR tac :=
  lazymatch goal with
  | |- keeps _ (mbind _ _) => apply (keeps_bind _ HR); [| intros ?]
  | |- keeps _ (mret _) => by apply (keeps_still _ HR)
  | |- keeps _ (emit _) => by apply (keeps_still _ HR)
  | |- keeps _ (exit _) => by apply (keeps_still _ HR)
  | |- keeps _ (throw _) => by apply (keeps_still _ HR)
  | |- keeps _ (liftExn _) => apply (keeps_liftExn _ HR)
  | |- keeps _ (liftOutcome _) => by apply (keeps_still _ HR)
  | |- keeps _ (existsSync _) => by apply (keeps_still _ HR)
  | |- keeps _ (readFileSync _) => apply (keeps_readFileSync _ HR)
  | |- keeps _ (writeFileSync _ _ _) => apply (keeps_writeFileSync _ HR)
  | |- keeps _ (mkdirSync _ _) => apply (keeps_mkdirSync _ HR)
  | |- keeps _ (input _ _ _) => tac
  | |- keeps _ (unlinkSync _) => tac
  | |- keeps _ (doFetch _ _) => apply (keeps_doFetch _ HR)
  | |- keeps _ (spawnAndWaitClose _ _) => by apply (keeps_still _ HR)
  | |- keeps _ (tryCatch _ _) => apply (keeps_tryCatch _ HR); [| intros ?]
  | |- keeps _ (if ?b then _ else _) => destruct b
  | |- keeps _ (match ?x with _ => _ end) => destruct x
  | |- keeps _ (let _ := _ in _) => cbv zeta
  end.

Ltac unfold_init :=
  unfold Init.init, Init.scaffold, Init.afterInstall, Init.summary, Init.gitCheck,
    Init.resolveLayout, Init.askComponentsFolder, Init.askUtilsFolder,
    Init.askCssLocation, Init.writeTailwindConfig, Init.ensureFolder,
    Init.getUserAlias, Init.readJson, Init.defaultCompilerOptions,
    Init.selectGray, Init.installDependencies, Init.fetchPrimitive,
    Init.fetchClasses, Init.writeProviders, Init.persistConfig.

Lemma sameAnswers_monotone : Monotone sameAnswers.
Proof. split; unfold sameAnswers; try done. intros s1 s2 s3 H1 H2. congruence. Qed.

Lemma nothingRemoved_monotone : Monotone nothingRemoved.
Proof.
  split; unfold nothingRemoved.
  - done.
  - intros s1 s2 s3 [H1 D1] [H2 D2]. split; [auto | set_solver].
  - intros s p c. split; [|done]. intros q Hq. simpl.
    destruct (decide (p = q)) as [->|Hne];
      [by rewrite lookup_insert_eq | by rewrite lookup_insert_ne].
  - intros s ds. split; [done | simpl; set_solver].
Qed.

(** X13.  With [--yes] a run of [init] puts no question of its own:
    it shows no prompt and leaves the pending answers as they are.  (The
    palette selection of [changeGray] receives the flags.) *)
Theorem init_yes_asks_nothing (env : Env) (flags : Flags) :
  yes flags = true ->
  emitsOnly noPrompt (Init.init env flags)
  /\ keeps sameAnswers (Init.init env flags).
Proof.
  intros Hy. split; unfold_init; rewrite !Hy.
  - emits_by ltac:(exact I).
  - repeat keeps_by_step sameAnswers_monotone fail.
Qed.

Lemma init_yes_asks_nothing_witness :
  answers (final (Init.init (Sample.project 4 false Sample.fetchOk 0) Sample.flagsYes
                    (Sample.host [Some (js "lib"); None])))
  = [Some (js "lib"); None].
Proof.
  apply (init_yes_asks_nothing (Sample.project 4 false Sample.fetchOk 0)
           Sample.flagsYes).
  reflexivity.
Defined.

(** X14.  A run of [init] removes nothing: every file and every folder
    that was there before is there after, whatever the outcome. *)
Theorem init_removes_nothing (env : Env) (flags : Flags) :
  keeps nothingRemoved (Init.init env flags).
Proof.
  unfold_init.
  repeat keeps_by_step nothingRemoved_monotone ltac:(by intros s; unfold input;
    destruct (promptLoop _ _ (answers s)) as [[r rest] ev]).
Qed.

(* --------------------------------------------------------------------- *)
(** ** The order of the steps *)
(* --------------------------------------------------------------------- *)

Lemma split_quiet (F : Event -> Prop) (l1 l2 pre post : list Event) (e : Event) :
  Forall (fun x => ~ F x) l1 -> F e ->
  l1 ++ l2 = pre ++ e :: post ->
  exists pre', pre = l1 ++ pre' /\ l2 = pre' ++ e :: post.
Proof.
  intros Hq He. revert pre. induction Hq as [|x l1 Hx Hq IH]; intros pre H.
  - by exists pre.
  - destruct pre as [|y pre]; simpl in H.
    + injection H as -> _. contradiction.
    + injection H as -> H. destruct (IH _ H) as (pre' & -> & ->). by exists pre'.
Qed.

Lemma precededBy_quiet (E F : Event -> Prop) (evs : list Event) :
  Forall (fun x => ~ F x) evs -> precededBy E F evs.
Proof.
  intros Hq pre e post -> He. apply Forall_app in Hq as [_ Hq].
  by inversion Hq.
Qed.

Lemma ordered_bind_quiet {A B} (E F : Event -> Prop) (m : M A) (k : A -> M B) :
  emitsOnly (fun x => ~ F x) m -> (forall a, ordered E F (k a)) ->
  ordered E F (m ≫= k).
Proof.
  intros Hm Hk s. unfold mbind, M_bind, bind. specialize (Hm s).
  destruct (outcome (m s)); simpl; [|by apply precededBy_quiet..].
  intros pre e post H He.
  destruct (split_quiet F _ _ _ _ _ Hm He H) as (pre' & -> & H').
  destruct (Hk a _ _ _ _ H' He) as (e' & Hin & He').
  exists e'. split; [|done]. apply in_or_app. by right.
Qed.

Lemma ordered_bind_started {A B} (E F : Event -> Prop) (m : M A) (k : A -> M B) :
  emitsOnly (fun x => ~ F x) m ->
  (forall s, exists e', In e' (emitted (m s)) /\ E e') ->
  ordered E F (m ≫= k).
Proof.
  intros Hm Hs s. unfold mbind, M_bind, bind. specialize (Hm s).
  destruct (Hs s) as (e' & Hin & He').
  destruct (outcome (m s)); simpl; [|by apply precededBy_quiet..].
  intros pre e post H He.
  destruct (split_quiet F _ _ _ _ _ Hm He H) as (pre' & -> & H').
  exists e'. split; [|done]. apply in_or_app. by left.
Qed.

Lemma ordered_quiet {A} (E F : Event -> Prop) (m : M A) :
  emitsOnly (fun x => ~ F x) m -> ordered E F m.
Proof. intros Hm s. apply precededBy_quiet, Hm. Qed.


(* --------------------------------------------------------------------- *)
(** ** A failure of the configuration manager *)
(* --------------------------------------------------------------------- *)

Lemma configFailure_quiet {A} (env : Env) (r : Run A) :
  Forall noConfig (emitted r) -> configFailureIsFatal env r.
Proof.
  intros H c Hin. apply list_elem_of_In in Hin.
  rewrite Forall_forall in H. by destruct (H _ Hin).
Qed.

Lemma configFailure_none {A} (env : Env) (m : M A) :
  emitsOnly noConfig m -> forall s, configFailureIsFatal env (m s).
Proof. intros H s. apply configFailure_quiet, H. Qed.

Lemma configFailure_bind {A B} (env : Env) (m : M A) (k : A -> M B) :
  emitsOnly noConfig m -> (forall a s, configFailureIsFatal env (k a s)) ->
  forall s, configFailureIsFatal env ((m ≫= k) s).
Proof.
  intros Hm Hk s. unfold mbind, M_bind, bind. specialize (Hm s).
  destruct (outcome (m s)) eqn:E; simpl; [|by apply configFailure_quiet..].
  intros c Hin Hc. simpl in *. apply in_app_or in Hin as [Hin|Hin].
  - apply list_elem_of_In in Hin.
    rewrite Forall_forall in Hm. by destruct (Hm _ Hin).
  - by apply (Hk a _ c).
Qed.

Lemma persistConfig_failure (env : Env) (c : Config) (k : M unit) :
  emitsOnly noConfig k ->
  forall s, configFailureIsFatal env ((Init.persistConfig env c;; k) s).
Proof.
  intros Hk s c' Hin Hc'. revert Hin.
  unfold Init.persistConfig, mbind, M_bind, bind, tryCatch. simpl.
  destruct (createConfig env c) as [e|] eqn:Ec; simpl; [done|].
  intros [[= <-]|Hin]; [done|].
  apply list_elem_of_In in Hin.
  specialize (Hk s). rewrite Forall_forall in Hk. by destruct (Hk _ Hin).
Qed.

(** X16.  When the configuration manager is called and fails, the run
    of [init] ends with [TypeError: error is not a function]: inside the
    handler the name [error] is the caught value, so the intended message
    is not logged and the closing messages are not reached. *)
Theorem init_config_failure_is_fatal (env : Env) (flags : Flags) (s : State)
    (c : Config) :
  In (CreateConfig c) (emitted (Init.init env flags s)) ->
  createConfig env c <> None ->
  outcome (Init.init env flags s) = Throw (TypeError (js "error is not a function")).
Proof.
  revert s c. change (forall s, configFailureIsFatal env (Init.init env flags s)).
  assert (HQ : forall e, configEvent e = false -> noConfig e) by (by intros []).
  unfold Init.init, Init.scaffold, Init.afterInstall.
  destruct (negb (isProjectExists env));
    [apply configFailure_none; emits HQ |].
  apply configFailure_bind; [apply gitCheck_emits, HQ | intros _].
  apply configFailure_bind; [emits HQ | intros _].
  destruct (negb (isTailwindInstalled env));
    [apply configFailure_none; emits HQ |].
  do 3 (apply configFailure_bind; [emits HQ | intros _]).
  apply configFailure_bind; [apply resolveLayout_emits, HQ | intros l].
  cbv zeta.
  apply configFailure_bind; [apply writeTailwindConfig_emits, HQ | intros _].
  do 2 (apply configFailure_bind; [apply ensureFolder_emits, HQ | intros _]).
  apply configFailure_bind; [apply getUserAlias_emits, HQ | intros currentAlias].
  apply configFailure_bind; [apply selectGray_noConfig | intros selectedGray].
  apply configFailure_bind; [apply installDependencies_emits, HQ | intros _].
  apply configFailure_bind; [apply fetchPrimitive_emits, HQ | intros _].
  apply configFailure_bind; [apply fetchClasses_emits, HQ | intros _].
  apply configFailure_bind; [apply writeProviders_emits, HQ | intros _].
  apply persistConfig_failure, summary_emits, HQ.
Qed.

Lemma init_config_failure_is_fatal_witness :
  outcome (Init.init
             (withCreateConfig (fun _ => Some (Error (js "EACCES")))
                (Sample.project 4 false Sample.fetchOk 0))
             Sample.flagsYes (Sample.host []))
  = Throw (TypeError (js "error is not a function")).
Proof.
  apply (init_config_failure_is_fatal _ _ _
           {| schema := js "https://getjustd.com/schema.json";
              ui := js "src/components/ui";
              utils := js "src/utils";
              gray := Some (js "slate");
              css := js "src/app/globals.css";
              alias := Some (js "@") |}).
  - vm_compute. repeat (first [left; reflexivity | right]).
  - discriminate.
Defined.

(* --------------------------------------------------------------------- *)
(** ** The fall-back from [tsconfig.app.json] to [tsconfig.json] *)
(* --------------------------------------------------------------------- *)

Lemma split_no_sep (sep : N) (s : jsstring) :
  forallb (fun c => negb (c =? sep)%N) s = true -> split sep s = [s].
Proof.
  induction s as [|c s IH]; [done|]. simpl.
  intros [Hc Hs]%andb_true_iff. apply negb_true_iff in Hc.
  by rewrite Hc, (IH Hs).
Qed.

Lemma join_snoc (sep : jsstring) (l : list jsstring) (x : jsstring) :
  exists front, JsString.join sep (l ++ [x]) = front ++ x.
Proof.
  induction l as [|y l [front IH]]; [by exists []|].
  exists (y ++ sep ++ front).
  change ((y :: l) ++ [x]) with (y :: (l ++ [x])).
  destruct (l ++ [x]) as [|z r] eqn:E; [by destruct l|].
  rewrite join_cons_cons, IH. by rewrite <- !app_assoc.
Qed.

Lemma endsWith_app (front s : jsstring) : endsWith (front ++ s) s = true.
Proof. unfold endsWith. rewrite rev_app_distr. apply startsWith_app. Qed.

Lemma endsWith_unit_snoc (s : jsstring) (c d : N) :
  endsWith (s ++ [c]) [d] = (d =? c)%N.
Proof.
  unfold endsWith. rewrite rev_app_distr. cbn [rev app startsWith].
  apply andb_true_r.
Qed.

Lemma list_rev_case (s : jsstring) : s = [] \/ exists s' c, s = s' ++ [c].
Proof. destruct s as [|c s'] using rev_ind; [by left | right; eauto]. Qed.

(** A path that ends in a plain segment keeps it under [path.normalize]. *)
Lemma normalize_keeps_last (front name : jsstring) :
  plainSegment name = true ->
  forallb (fun c => negb (c =? Path.slash)%N) name = true ->
  front = [] \/ (exists dir, front = dir ++ [Path.slash]) ->
  endsWith (Path.normalize (front ++ name)) name = true.
Proof.
  intros Hplain Hsep Hfront.
  assert (Hne : name <> []) by (by intros ->).
  assert (Hsegs : exists segs, Path.segments (front ++ name) = segs ++ [name]).
  { unfold Path.segments. destruct Hfront as [->|[dir ->]].
    - exists []. by apply split_no_sep.
    - exists (split Path.slash dir).
      rewrite <- app_assoc. cbn [app].
      by rewrite split_app_sep, (split_no_sep _ name). }
  destruct Hsegs as [segs Hsegs].
  assert (Hq : forall b, exists kept, Path.normalizeString (front ++ name) b = kept ++ name).
  { intros b. unfold Path.normalizeString. rewrite Hsegs, fold_left_app. simpl.
    rewrite (pushSegment_plain _ _ _ Hplain). simpl. apply join_snoc. }
  assert (Htrail : endsWith (front ++ name) [Path.slash] = false).
  { destruct (list_rev_case name) as [->|(name' & c & ->)]; [done|].
    rewrite app_assoc, endsWith_unit_snoc.
    rewrite forallb_app in Hsep. apply andb_true_iff in Hsep as [_ Hc].
    cbn [forallb] in Hc. rewrite andb_true_r in Hc. apply negb_true_iff in Hc.
    by rewrite N.eqb_sym. }
  unfold Path.normalize.
  destruct (front ++ name) as [|c p] eqn:E; [by destruct front, name|].
  rewrite Htrail. cbv zeta.
  destruct (Hq (negb (c =? Path.slash)%N)) as [kept ->].
  destruct (kept ++ name) as [|k q] eqn:Ek; [by destruct kept, name|].
  rewrite <- Ek, app_nil_r, app_assoc. apply endsWith_app.
Qed.

(** [path.join(dir, name)] ends with [name] when [name] is one plain
    segment. *)
Lemma join_keeps_name (dir name : jsstring) :
  plainSegment name = true ->
  forallb (fun c => negb (c =? Path.slash)%N) name = true ->
  endsWith (Path.join [dir; name]) name = true.
Proof.
  intros Hplain Hsep. unfold Path.join.
  destruct name as [|n name]; [done|].
  destruct dir as [|c dir].
  - change (filter _ _) with [n :: name]. cbv iota.
    apply (normalize_keeps_last [] (n :: name) Hplain Hsep). by left.
  - change (filter _ _) with [c :: dir; n :: name]. cbv iota.
    change (JsString.join [Path.slash] [c :: dir; n :: name])
      with ((c :: dir) ++ [Path.slash] ++ n :: name).
    rewrite app_assoc.
    apply (normalize_keeps_last _ (n :: name) Hplain Hsep).
    right. by exists (c :: dir).
Qed.

Lemma tsconfigApp_endsWith (env : Env) :
  endsWith (tsconfigApp env) (js "tsconfig.app.json") = true.
Proof. by apply join_keeps_name. Qed.

(** X17.  With [--yes], when [tsconfig.app.json] exists but has no
    [compilerOptions] and there is no [tsconfig.json], what was read is
    dropped: a new [tsconfig.json] is written that holds nothing but the
    alias ["@/*"] for the suggested root, [tsconfig.app.json] is left as
    it is, and the alias is ["@"]. *)
Theorem getUserAlias_falls_back_to_tsconfig (env : Env) (flags : Flags) (s : State)
    (raw : jsstring) (a : bool) (props : list (jsstring * JsVal)) :
  yes flags = true ->
  files s !! tsconfigApp env = Some raw ->
  absent s (tsconfigPlain env) ->
  JSON_parse env (stripJsonComments env raw) = inr (VObj a props) ->
  truthy (lookupProp props (js "compilerOptions")) = false ->
  writeError env (tsconfigPlain env) = None ->
  let fresh :=
    VObj false [(js "compilerOptions",
      VObj false [(js "paths", defaultPaths (js "./" ++ possibilityRootPath env))])] in
  let name := Path.basename (tsconfigPlain env) in
  Init.getUserAlias env flags s
  = {| outcome := Ok (js "@");
       final := written s (tsconfigPlain env) (JSON_stringify env fresh);
       emitted :=
         [Spinner (SpinStart (js "Updating " ++ name ++ js " with paths..."));
          WriteFile (tsconfigPlain env) (JSON_stringify env fresh);
          Spinner (SpinSucceed (js "Paths added to " ++ name ++ js "."));
          AddUiPathToTsConfig] |}.
Proof.
  intros Hy Hf Hb Hp Hco Hw fresh name. unfold Init.getUserAlias. cbv zeta.
  fold (tsconfigApp env) (tsconfigPlain env).
  run_bind ltac:(apply (existsSync_file _ _ _ Hf)).
  run_bind ltac:(apply (existsSync_absent _ _ Hb)).
  simpl negb. simpl andb. cbv iota.
  run_bind ltac:(apply run_tryCatch_ok, (readJson_run _ _ _ _ _ Hf Hp)).
  run_bind ltac:(unfold getProp; apply liftExn_inr).
  rewrite Hco, tsconfigApp_endsWith. cbn [negb]. cbv iota.
  run_bind ltac:(
    run_bind ltac:(apply (existsSync_absent _ _ Hb));
    reflexivity).
  run_bind ltac:(reflexivity).
  run_bind ltac:(reflexivity).
  cbn [negb]. cbv iota. rewrite Hy.
  run_bind ltac:(
    run_bind ltac:(reflexivity);
    run_bind ltac:(reflexivity);
    run_bind ltac:(reflexivity);
    run_bind ltac:(apply emit_run);
    run_bind ltac:(
      apply run_tryCatch_ok;
      run_bind ltac:(apply (writeFileSync_ok _ _ _ _ Hw));
      apply emit_run);
    reflexivity).
  run_bind ltac:(apply emit_run).
  run_bind ltac:(reflexivity).
  run_bind ltac:(reflexivity).
  reflexivity.
Qed.

Lemma getUserAlias_falls_back_to_tsconfig_witness :
  let env := withJsonParse (fun _ => inr (VObj false []))
               (Sample.project 4 false Sample.fetchOk 0) in
  outcome (Init.getUserAlias env Sample.flagsYes appOnly) = Ok (js "@")
  /\ emitted (Init.getUserAlias env Sample.flagsYes appOnly) !! 1%nat
     = Some (WriteFile (js "/work/tsconfig.json") (js "{}")).
Proof.
  intros env.
  rewrite (getUserAlias_falls_back_to_tsconfig env Sample.flagsYes appOnly
             (js "{}") false []); try reflexivity.
  - by split.
  - split; [by vm_compute | set_solver].
Defined.

(* --------------------------------------------------------------------- *)
(** ** The provider files *)
(* --------------------------------------------------------------------- *)

(** X18.  For every framework and every stubs directory the tests
    [if (themeProvider)] and [if (providers)] of [init] pass (a joined
    path is never empty), so both provider files are copied into the
    components folder whenever the two stubs can be read and the two
    targets written. *)
Theorem init_copies_both_providers (env : Env) (componentFolder t p : jsstring)
    (s : State) :
  let st := Init.selectStubs env in
  let themeTarget := Path.join [componentFolder; js "theme-provider.tsx"] in
  let providersTarget := Path.join [componentFolder; js "providers.tsx"] in
  files s !! Init.themeProvider st = Some t ->
  writeError env themeTarget = None ->
  files (written s themeTarget t) !! Init.providers st = Some p ->
  writeError env providersTarget = None ->
  Init.writeProviders env componentFolder st s
  = {| outcome := Ok tt;
       final := written (written s themeTarget t) providersTarget p;
       emitted := [WriteFile themeTarget t; WriteFile providersTarget p] |}.
Proof.
  intros st themeTarget providersTarget Ht Hwt Hp Hwp. subst st.
  unfold Init.writeProviders.
  destruct (selectStubs_nonempty env) as [-> ->]. cbn [negb]. cbv iota.
  run_bind ltac:(apply (readFileSync_some _ _ _ Ht)).
  run_bind ltac:(apply (writeFileSync_ok _ _ _ _ Hwt)).
  run_bind ltac:(apply (readFileSync_some _ _ _ Hp)).
  by rewrite (writeFileSync_ok _ _ _ _ Hwp).
Qed.

Lemma init_copies_both_providers_witness :
  files (final (Init.writeProviders (Sample.project 4 false Sample.fetchOk 0)
                  (js "src/components")
                  (Init.selectStubs (Sample.project 4 false Sample.fetchOk 0))
                  (Sample.host [])))
    !! js "src/components/providers.tsx" = Some (js "/* providers */").
Proof.
  rewrite (init_copies_both_providers (Sample.project 4 false Sample.fetchOk 0)
             (js "src/components") (js "/* theme */") (js "/* providers */")
             (Sample.host [])); try reflexivity; by vm_compute.
Defined.

(* --------------------------------------------------------------------- *)
(** ** The older variant *)
(* --------------------------------------------------------------------- *)

Lemma nothingRemovedBut_monotone (gone : jsstring) : Monotone (nothingRemovedBut gone).
Proof.
  split; unfold nothingRemovedBut.
  - done.
  - intros s1 s2 s3 [H1 D1] [H2 D2]. split; [auto | set_solver].
  - intros s p c. split; [|done]. intros q _ Hq. simpl.
    destruct (decide (p = q)) as [->|Hne];
      [by rewrite lookup_insert_eq | by rewrite lookup_insert_ne].
  - intros s ds. split; [done | simpl; set_solver].
Qed.

Lemma keeps_input_files (R : State -> State -> Prop) (m d : jsstring)
    (validate : jsstring -> Validation) :
  (forall s rest, R s {| files := files s; dirs := dirs s; answers := rest |}) ->
  keeps R (input m d validate).
Proof.
  intros H s. unfold input.
  destruct (promptLoop d validate (answers s)) as [[r rest] ev]. apply H.
Qed.

Lemma keeps_unlink_gone (gone : jsstring) :
  keeps (nothingRemovedBut gone) (unlinkSync gone).
Proof.
  intros s. unfold unlinkSync. destruct (files s !! gone); simpl; [|done].
  split; [|done]. intros p Hp Hs. simpl. by rewrite lookup_delete_ne.
Qed.

(** X19.  A run of the older [init] removes nothing but the file
    [d.json]: every other file and every folder that was there before is
    there after, whatever the outcome. *)
Theorem legacy_init_removes_only_d_json (env : Env) :
  keeps (nothingRemovedBut (js "d.json")) (LegacyInit.init env).
Proof.
  unfold LegacyInit.init, LegacyInit.scaffold, LegacyInit.afterInstall,
    LegacyInit.farewell, LegacyInit.saveConfig, LegacyInit.writeProviders,
    LegacyInit.fetchPrimitive, LegacyInit.installDependencies, LegacyInit.placeCss,
    LegacyInit.resolveLayout, LegacyInit.select.
  repeat keeps_by_step (nothingRemovedBut_monotone (js "d.json"))
    ltac:(first [ apply keeps_unlink_gone
                | by apply keeps_input_files; intros s rest ]).
Qed.

Lemma returns_emit_then {A} (Q : A -> Prop) (e : Event) (a : A) :
  Q a -> returns Q (emit e;; mret a).
Proof. intros H. apply returns_bind. intros _. by apply returns_ret. Qed.

(** X20.  When the project type chosen is Vite, the older [init] has
    no providers stub: no run writes [src/components/providers.tsx]
    (the message that follows the theme provider still names both
    files). *)
Theorem legacy_vite_writes_no_providers (env : Env) :
  selectProjectType env = ViteProject ->
  emitsOnly noProvidersFile (LegacyInit.init env).
Proof.
  intros Hv. unfold LegacyInit.init, LegacyInit.scaffold.
  apply emitsOnly_bind; [apply emitsOnly_existsSync | intros configJsExists].
  apply emitsOnly_bind; [apply emitsOnly_existsSync | intros configTsExists].
  destruct (negb configJsExists && negb configTsExists);
    [emits_by ltac:(exact I) |].
  apply (emitsOnly_bind_returns _ (fun t => t = ViteProject)).
  { unfold LegacyInit.select. emits_by ltac:(exact I). }
  { by apply returns_emit_then. }
  intros projectType ->.
  apply (emitsOnly_bind_returns _
           (fun l => l = {| LegacyInit.componentsFolder := js "src/components";
                            LegacyInit.uiFolder :=
                              Path.join [js "src/components"; js "ui"];
                            LegacyInit.cssLocation := js "src/index.css";
                            LegacyInit.configSourcePath :=
                              LegacyInit.stub env (js "vite/tailwind.config.vite.stub");
                            LegacyInit.themeProvider :=
                              LegacyInit.stub env (js "vite/theme-provider.stub");
                            LegacyInit.providers := None |})).
  { apply emitsOnly_ret. }
  { by apply returns_ret. }
  intros l ->.
  unfold LegacyInit.afterInstall, LegacyInit.farewell, LegacyInit.saveConfig,
    LegacyInit.writeProviders, LegacyInit.fetchPrimitive,
    LegacyInit.installDependencies, LegacyInit.placeCss, LegacyInit.select.
  cbn [LegacyInit.providers LegacyInit.themeProvider LegacyInit.componentsFolder
       LegacyInit.uiFolder LegacyInit.cssLocation LegacyInit.configSourcePath].
  emits_by ltac:(first
    [ exact I
    | lazymatch goal with
      | |- noProvidersFile (WriteFile (Init.tailwindConfigTarget ?b) _) => by destruct b
      end
    | by vm_compute ]).
Qed.

Lemma legacy_vite_writes_no_providers_witness :
  let run := LegacyInit.init
               (withProjectType ViteProject (Sample.project 3 false Sample.fetchOk 0))
               viteHost in
  Forall noProvidersFile (emitted run)
  /\ outcome run = Ok tt
  /\ List.filter (fun e => match e with WriteFile _ _ => true | _ => false end)
       (emitted run)
     = [WriteFile (js "src/index.css") (js "/* app */");
        WriteFile (js "tailwind.config.ts") (js "/* tailwind */");
        WriteFile (js "src/components/ui/primitive.tsx")
          (js "'use client'" ++ newline
             ++ js "// https://raw.githubusercontent.com/irsyadadl/justd/1.x/components/ui/primitive.tsx");
        WriteFile (js "src/components/theme-provider.tsx") (js "/* theme */");
        WriteFile (js "justd.json") (js "{}")].
Proof.
  intros run. split; [|split].
  - apply (legacy_vite_writes_no_providers
             (withProjectType ViteProject (Sample.project 3 false Sample.fetchOk 0))).
    reflexivity.
  - vm_compute. reflexivity.
  - vm_compute. reflexivity.
Defined.

(* --------------------------------------------------------------------- *)
(** ** The root asked for when the [paths] key is missing *)
(* --------------------------------------------------------------------- *)

Lemma input_acceptAll (m d : jsstring) (s : State) (sub : option jsstring)
    (rest : list (option jsstring)) :
  answers s = sub :: rest ->
  input m d acceptAll s
  = {| outcome := Ok (match sub with Some v => v | None => d end);
       final := withAnswers s rest; emitted := [Prompt m d] |}.
Proof. intros H. unfold input. by rewrite H. Qed.

(** X21.  Without [--yes], when only [tsconfig.json] exists and has no
    [paths] key, the root is asked for once, with the suggested root as
    the default; the alias ["@/*"] is written for the answer, and for
    [./src] when the answer is the empty string. *)
Theorem getUserAlias_asks_for_root (env : Env) (flags : Flags) (s : State)
    (raw : jsstring) (a b : bool) (props cprops : list (jsstring * JsVal))
    (sub : option jsstring) (rest : list (option jsstring)) :
  yes flags = false ->
  answers s = sub :: rest ->
  absent s (tsconfigApp env) ->
  files s !! tsconfigPlain env = Some raw ->
  JSON_parse env (stripJsonComments env raw) = inr (VObj a props) ->
  lookupProp props (js "compilerOptions") = Some (VObj b cprops) ->
  lookupProp cprops (js "paths") = None ->
  writeError env (tsconfigPlain env) = None ->
  let suggested := js "./" ++ possibilityRootPath env in
  let root :=
    match sub with
    | Some [] => js "./src"
    | Some v => v
    | None => suggested
    end in
  let updated :=
    VObj a (assignProp props (js "compilerOptions")
      (VObj b (assignProp cprops (js "paths") (defaultPaths root)))) in
  let name := Path.basename (tsconfigPlain env) in
  Init.getUserAlias env flags s
  = {| outcome := Ok (js "@");
       final := written (withAnswers s rest) (tsconfigPlain env)
                  (JSON_stringify env updated);
       emitted :=
         [Prompt (js "No paths key found in " ++ name
                    ++ js ". Please enter the root directory path for the '@/':")
                 suggested;
          Spinner (SpinStart (js "Updating " ++ name ++ js " with paths..."));
          WriteFile (tsconfigPlain env) (JSON_stringify env updated);
          Spinner (SpinSucceed (js "Paths added to " ++ name ++ js "."));
          AddUiPathToTsConfig] |}.
Proof.
  intros Hy Hans Ha Hf Hp Hco Hpaths Hw suggested root updated name.
  unfold Init.getUserAlias. cbv zeta.
  fold (tsconfigApp env) (tsconfigPlain env).
  run_bind ltac:(apply (existsSync_absent _ _ Ha)).
  run_bind ltac:(apply (existsSync_file _ _ _ Hf)).
  simpl negb. simpl andb. cbv iota.
  run_bind ltac:(apply run_tryCatch_ok, (readJson_run _ _ _ _ _ Hf Hp)).
  run_bind ltac:(unfold getProp; rewrite Hco; apply liftExn_inr).
  cbn [truthy negb]. cbv iota.
  run_bind ltac:(reflexivity).
  run_bind ltac:(unfold getProp; rewrite Hco; apply liftExn_inr).
  run_bind ltac:(cbv [default from_option id hasProp]; rewrite Hpaths; apply liftExn_inr).
  cbn [negb]. cbv iota. rewrite Hy.
  assert (Hroot : (if eqb (match sub with Some v => v | None => suggested end) []
                   then js "./src"
                   else match sub with Some v => v | None => suggested end) = root).
  { subst root. by destruct sub as [[|c v]|]. }
  run_bind ltac:(
    run_bind ltac:(apply (input_acceptAll _ _ _ _ _ Hans));
    fold suggested; rewrite Hroot;
    run_bind ltac:(cbv [default from_option id setProp]; apply liftExn_inr);
    run_bind ltac:(cbv [setProp]; apply liftExn_inr);
    run_bind ltac:(apply emit_run);
    run_bind ltac:(
      apply run_tryCatch_ok;
      run_bind ltac:(apply (writeFileSync_ok _ _ _ _ Hw));
      apply emit_run);
    reflexivity).
  run_bind ltac:(apply emit_run).
  run_bind ltac:(unfold getProp; rewrite lookupProp_assignProp; apply liftExn_inr).
  run_bind ltac:(cbv [default from_option id getProp]; rewrite lookupProp_assignProp;
                 apply liftExn_inr).
  reflexivity.
Qed.

Lemma getUserAlias_asks_for_root_witness :
  let env := withJsonParse (fun _ => inr strictOnly)
               (Sample.project 4 false Sample.fetchOk 0) in
  outcome (Init.getUserAlias env Sample.flagsNone (Sample.host [Some []; None]))
  = Ok (js "@")
  /\ answers (final (Init.getUserAlias env Sample.flagsNone
                       (Sample.host [Some []; None]))) = [None].
Proof.
  intros env.
  rewrite (getUserAlias_asks_for_root env Sample.flagsNone (Sample.host [Some []; None])
             (js "{}") false false
             [(js "compilerOptions", VObj false [(js "strict", VBool true)])]
             [(js "strict", VBool true)] (Some []) [None]);
    try reflexivity.
  - by split.
  - split; [by vm_compute | set_solver].
Defined.

(* --------------------------------------------------------------------- *)
(** ** Failures while copying and writing *)
(* --------------------------------------------------------------------- *)

Lemma writeFileSync_fail (env : Env) (p content : jsstring) (e : Exn) (s : State) :
  writeError env p = Some e ->
  writeFileSync env p content s = {| outcome := Throw e; final := s; emitted := [] |}.
Proof. intros H. unfold writeFileSync. by rewrite H. Qed.

(** X22.  With [--yes], when only [tsconfig.json] exists, has no
    [paths] key and cannot be written, [getUserAlias] shows the failure
    on the spinner and exits with status 1; no file is changed and
    [addUiPathToTsConfig] is not called. *)
Theorem getUserAlias_write_failure (env : Env) (flags : Flags) (s : State)
    (raw : jsstring) (a b : bool) (props cprops : list (jsstring * JsVal)) (e : Exn) :
  yes flags = true ->
  absent s (tsconfigApp env) ->
  files s !! tsconfigPlain env = Some raw ->
  JSON_parse env (stripJsonComments env raw) = inr (VObj a props) ->
  lookupProp props (js "compilerOptions") = Some (VObj b cprops) ->
  lookupProp cprops (js "paths") = None ->
  writeError env (tsconfigPlain env) = Some e ->
  let name := Path.basename (tsconfigPlain env) in
  Init.getUserAlias env flags s
  = {| outcome := Exit 1; final := s;
       emitted :=
         [Spinner (SpinStart (js "Updating " ++ name ++ js " with paths..."));
          Spinner (SpinFail (js "Failed to write to " ++ name ++ js "."))] |}.
Proof.
  intros Hy Ha Hf Hp Hco Hpaths Hw name. unfold Init.getUserAlias. cbv zeta.
  fold (tsconfigApp env) (tsconfigPlain env).
  run_bind ltac:(apply (existsSync_absent _ _ Ha)).
  run_bind ltac:(apply (existsSync_file _ _ _ Hf)).
  simpl negb. simpl andb. cbv iota.
  run_bind ltac:(apply run_tryCatch_ok, (readJson_run _ _ _ _ _ Hf Hp)).
  run_bind ltac:(unfold getProp; rewrite Hco; apply liftExn_inr).
  cbn [truthy negb]. cbv iota.
  run_bind ltac:(reflexivity).
  run_bind ltac:(unfold getProp; rewrite Hco; apply liftExn_inr).
  run_bind ltac:(cbv [default from_option id hasProp]; rewrite Hpaths; apply liftExn_inr).
  cbn [negb]. cbv iota. rewrite Hy.
  apply run_bind_exit.
  run_bind ltac:(reflexivity).
  run_bind ltac:(cbv [default from_option id setProp]; apply liftExn_inr).
  run_bind ltac:(cbv [setProp]; apply liftExn_inr).
  run_bind ltac:(apply emit_run).
  apply run_bind_exit.
  rewrite (run_tryCatch_throw _ _ s s e []); [reflexivity|].
  apply run_bind_throw, (writeFileSync_fail _ _ _ _ _ Hw).
Qed.

Lemma getUserAlias_write_failure_witness :
  let env := withWriteError (fun _ => Some (Error (js "EACCES")))
               (withJsonParse (fun _ => inr strictOnly)
                  (Sample.project 4 false Sample.fetchOk 0)) in
  outcome (Init.getUserAlias env Sample.flagsYes (Sample.host [])) = Exit 1.
Proof.
  intros env.
  rewrite (getUserAlias_write_failure env Sample.flagsYes (Sample.host [])
             (js "{}") false false
             [(js "compilerOptions", VObj false [(js "strict", VBool true)])]
             [(js "strict", VBool true)] (Error (js "EACCES")));
    try reflexivity.
  split; [by vm_compute | set_solver].
Defined.

Lemma settles_throws {A} (m : M A) : settles m -> returnsOrThrows m.
Proof. intros H s. left. apply H. Qed.

Lemma settles_bind {A B} (m : M A) (k : A -> M B) :
  settles m -> (forall a, settles (k a)) -> settles (m ≫= k).
Proof.
  intros Hm Hk s. unfold mbind, M_bind, bind.
  destruct (Hm s) as [a ->]. simpl. apply Hk.
Qed.

Lemma returnsOrThrows_bind {A B} (m : M A) (k : A -> M B) :
  returnsOrThrows m -> (forall a, returnsOrThrows (k a)) -> returnsOrThrows (m ≫= k).
Proof.
  intros Hm Hk s. unfold mbind, M_bind, bind.
  destruct (Hm s) as [[a ->]|[e ->]]; simpl; [apply Hk | right; eauto].
Qed.

Lemma settles_tryCatch {A} (m : M A) (h : Exn -> M A) :
  returnsOrThrows m -> (forall e, settles (h e)) -> settles (tryCatch m h).
Proof.
  intros Hm Hh s. unfold tryCatch.
  destruct (Hm s) as [[a E]|[e E]]; rewrite E; simpl; [eauto | apply Hh].
Qed.

Lemma returnsOrThrows_readFileSync (p : jsstring) : returnsOrThrows (readFileSync p).
Proof.
  intros s. unfold readFileSync.
  destruct (files s !! p); [left | right]; simpl; eauto.
Qed.

Lemma returnsOrThrows_writeFileSync (env : Env) (p c : jsstring) :
  returnsOrThrows (writeFileSync env p c).
Proof.
  intros s. unfold writeFileSync.
  destruct (writeError env p); [right | left]; simpl; eauto.
Qed.

Lemma settles_mkdirSync (env : Env) (p : jsstring) :
  mkdirError env p = None -> settles (mkdirSync env p).
Proof. intros H s. unfold mkdirSync. rewrite H. simpl. eauto. Qed.

Lemma settles_still {A} (m : M A) (a : A) :
  (forall s, outcome (m s) = Ok a) -> settles m.
Proof. intros H s. eauto. Qed.

Ltac settles_step :=
  lazymatch goal with
  | |- settles (mbind _ _) => apply settles_bind; [| intros ?]
  | |- settles (tryCatch _ _) => apply settles_tryCatch; [| intros ?]
  | |- settles (mret ?a) => by apply (settles_still _ a)
  | |- settles (emit _) => by apply (settles_still _ tt)
  | |- settles (existsSync ?p) => intros ?; rewrite existsSync_run; by eexists
  | |- settles (if ?b then _ else _) => destruct b
  | |- settles (let _ := _ in _) => cbv zeta
  | |- returnsOrThrows (mbind _ _) => apply returnsOrThrows_bind; [| intros ?]
  | |- returnsOrThrows (readFileSync _) => apply returnsOrThrows_readFileSync
  | |- returnsOrThrows (writeFileSync _ _ _) => apply returnsOrThrows_writeFileSync
  | |- returnsOrThrows (emit _) => apply settles_throws
  end.

(** X23.  Copying the Tailwind configuration stub never ends a run of
    [init]: when the stub cannot be read or the target cannot be written
    the failure is shown on the spinner and the step returns, and then
    no file has changed. *)
Theorem writeTailwindConfig_never_fatal (env : Env) (stub : jsstring) (s : State) :
  outcome (Init.writeTailwindConfig env stub s) = Ok tt
  /\ (final (Init.writeTailwindConfig env stub s) = s
      \/ exists target content,
           emitted (Init.writeTailwindConfig env stub s) = [WriteFile target content]
           /\ final (Init.writeTailwindConfig env stub s) = written s target content).
Proof.
  unfold Init.writeTailwindConfig.
  destruct (isTailwind env 3); [|by split; [|left]].
  unfold mbind, M_bind, bind. rewrite existsSync_run. simpl.
  set (target := Init.tailwindConfigTarget _).
  unfold tryCatch, readFileSync.
  destruct (files s !! stub) as [content|]; simpl; [|by split; [|left]].
  unfold writeFileSync.
  destruct (writeError env target); simpl; [by split; [|left]|].
  split; [done|]. right. by exists target, content.
Qed.

(** X24.  In the older [init], a failure to read or write the CSS file
    does not end the run: when the two folders can be created, the step
    that places the CSS file always returns. *)
Theorem legacy_placeCss_never_fatal (env : Env) (l : LegacyInit.Layout) (s : State) :
  mkdirError env (LegacyInit.uiFolder l) = None ->
  mkdirError env (Path.dirname (LegacyInit.cssLocation l)) = None ->
  outcome (LegacyInit.placeCss env l s) = Ok tt.
Proof.
  intros Hu Hc.
  assert (H : settles (LegacyInit.placeCss env l)).
  { unfold LegacyInit.placeCss.
    repeat first [ by apply settles_mkdirSync | settles_step ]. }
  destruct (H s) as [[] ->]. reflexivity.
Qed.

Lemma legacy_placeCss_never_fatal_witness :
  let env := withWriteError (fun _ => Some (Error (js "EACCES")))
               (Sample.project 3 false Sample.fetchOk 0) in
  outcome (LegacyInit.placeCss env
             {| LegacyInit.componentsFolder := js "src/components";
                LegacyInit.uiFolder := js "src/components/ui";
                LegacyInit.cssLocation := js "src/index.css";
                LegacyInit.configSourcePath := js "/cli/stub";
                LegacyInit.themeProvider := js "/cli/theme";
                LegacyInit.providers := None |}
             (Sample.host [])) = Ok tt.
Proof.
  intros env. by apply (legacy_placeCss_never_fatal env).
Defined.
